(** * CyberX: the five-stage pipeline of [CyberX.py] and its degradation rules

    A shallow embedding of [CyberX.py] (data collection, extraction,
    knowledge base, retrieval, interactive session and the driver that saves
    the run log), followed by the properties the specification states about
    it.

    Conventions of the embedding:
    - a Python [str] is a Rocq [string]; characters are the code points below
      256, on which [str.lower], [str.strip] and [int] are written out;
    - a raised [Exception] is a value [Raise e], and a function that may
      raise returns a [result]; interrupts ([KeyboardInterrupt],
      [SystemExit]), which no [except Exception] catches, are left out;
    - [json.loads] and [json.dumps] may raise as well (a [RecursionError]
      on deep nesting, a [ValueError] on an integer literal beyond the
      digit limit): [json.loads] has three outcomes, since the program
      catches [json.JSONDecodeError] apart from the rest;
    - every external service (HTTP fetch, language model, embedding model,
      vector store, file system) is an oracle acting on an abstract [World],
      so that two calls with the same arguments may answer differently;
    - a list or dictionary that the source mutates in place is threaded
      through the loops as an accumulator, and what is left of it when an
      exception stops a loop is what the loop returns;
    - everything the program does to the outside is recorded, in order, as a
      list of [event]s;
    - standard input is the list of the lines it will deliver; reading past
      the last one raises [EOFError]. *)

From Stdlib Require Import String Ascii List Bool Arith ZArith Lia.
From Stdlib Require Import DecimalString DecimalNat.
Import ListNotations.

Set Warnings "-register-all,-abstract-large-number".

Local Open Scope string_scope.
Local Open Scope list_scope.
Local Open Scope nat_scope.

(** Concatenation of strings (Python's [+] on [str]); [++] is kept for
    lists. *)
Infix "+++" := String.append (right associativity, at level 60).

(* ================================================================== *)
(** * Python strings *)
(* ================================================================== *)

Module PyStr.

(** The line feed written by [print] and by the escapes of the source. *)
Definition nl : string := String (ascii_of_nat 10) EmptyString.

(** The double quote character, as a one-character string. *)
Definition dquote : string := String (ascii_of_nat 34) EmptyString.

(** [c.isspace()] on the code points below 256: TAB..CR, FS..US, SPACE,
    NEL and NBSP. *)
Definition isspace (c : ascii) : bool :=
  let n := nat_of_ascii c in
  ((9 <=? n) && (n <=? 13)) || ((28 <=? n) && (n <=? 32))
  || (n =? 133) || (n =? 160).

(** [c.lower()] on the code points below 256: A..Z and the Latin-1 capitals
    (all of 192..222 but the multiplication sign 215). *)
Definition lower_char (c : ascii) : ascii :=
  let n := nat_of_ascii c in
  if ((65 <=? n) && (n <=? 90))
     || ((192 <=? n) && (n <=? 222) && negb (n =? 215))
  then ascii_of_nat (n + 32)
  else c.

(** [s.lower()] *)
Fixpoint lower (s : string) : string :=
  match s with
  | EmptyString => EmptyString
  | String c r => String (lower_char c) (lower r)
  end.

(** Dropping the leading characters that satisfy [p]. *)
Fixpoint lstrip_by (p : ascii -> bool) (s : string) : string :=
  match s with
  | EmptyString => EmptyString
  | String c r => if p c then lstrip_by p r else s
  end.

(** Dropping the trailing characters that satisfy [p]. *)
Fixpoint rstrip_by (p : ascii -> bool) (s : string) : string :=
  match s with
  | EmptyString => EmptyString
  | String c r =>
      match rstrip_by p r with
      | EmptyString => if p c then EmptyString else String c EmptyString
      | r' => String c r'
      end
  end.

(** [s.lstrip()] *)
Definition lstrip (s : string) : string := lstrip_by isspace s.

(** [s.rstrip()] *)
Definition rstrip (s : string) : string := rstrip_by isspace s.

(** [s.strip()] *)
Definition strip (s : string) : string := rstrip (lstrip s).

(** [s[:n]] *)
Fixpoint slice_to (n : nat) (s : string) : string :=
  match n, s with
  | S k, String c r => String c (slice_to k r)
  | _, _ => EmptyString
  end.

(** [sep.join(parts)] *)
Fixpoint join (sep : string) (parts : list string) : string :=
  match parts with
  | [] => EmptyString
  | [p] => p
  | p :: rest => p +++ sep +++ join sep rest
  end.

(** [s.split(sep)] for a one-character separator. *)
Fixpoint split (sep : ascii) (s : string) : list string :=
  match s with
  | EmptyString => [EmptyString]
  | String c r =>
      if Ascii.eqb c sep then EmptyString :: split sep r
      else match split sep r with
           | h :: t => String c h :: t
           | [] => [String c EmptyString]
           end
  end.

(** [sep in s] for a one-character [sep]. *)
Fixpoint contains (sep : ascii) (s : string) : bool :=
  match s with
  | EmptyString => false
  | String c r => Ascii.eqb c sep || contains sep r
  end.

(** [s.removeprefix(p)] when [s.startswith(p)], nothing otherwise. *)
Fixpoint strip_prefix (p s : string) : option string :=
  match p, s with
  | EmptyString, _ => Some s
  | String a p', String b s' =>
      if Ascii.eqb a b then strip_prefix p' s' else None
  | String _ _, EmptyString => None
  end.

(** [s.endswith(p)] *)
Definition endswith (p s : string) : bool :=
  let k := String.length s - String.length p in
  (String.length p <=? String.length s)
  && String.eqb (substring k (String.length p) s) p.

(** [str(n)] for a natural number. *)
Definition str_of_nat (n : nat) : string :=
  NilEmpty.string_of_uint (Nat.to_uint n).

(** [str(z)] for an [int]. *)
Definition str_of_int (z : Z) : string :=
  match z with
  | Zneg p => "-" +++ str_of_nat (Pos.to_nat p)
  | _ => str_of_nat (Z.to_nat z)
  end.

Definition is_digit (c : ascii) : bool :=
  let n := nat_of_ascii c in (48 <=? n) && (n <=? 57).

Definition digit_val (c : ascii) : nat := nat_of_ascii c - 48.

(** The digits of an [int] literal: decimal digits, single underscores
    allowed between two digits. [seen] tells whether the previous
    character was a digit. *)
Fixpoint int_digits (s : string) (acc : nat) (seen : bool) : option nat :=
  match s with
  | EmptyString => if seen then Some acc else None
  | String c r =>
      if is_digit c then int_digits r (10 * acc + digit_val c) true
      else if Ascii.eqb c "_" && seen then int_digits r acc false
      else None
  end.

(** The white space [int] skips around a literal: of the characters
    [str.strip] removes, all but FS..US. *)
Definition int_space (c : ascii) : bool :=
  let n := nat_of_ascii c in
  ((9 <=? n) && (n <=? 13)) || (n =? 32) || (n =? 133) || (n =? 160).

(** [int(s)]: surrounding white space, an optional sign, then the digits;
    [None] stands for [ValueError]. *)
Definition int_of_str (s : string) : option Z :=
  match rstrip_by int_space (lstrip_by int_space s) with
  | String "-" r => option_map (fun n => (- Z.of_nat n)%Z) (int_digits r 0 false)
  | String "+" r => option_map Z.of_nat (int_digits r 0 false)
  | t => option_map Z.of_nat (int_digits t 0 false)
  end.

End PyStr.

Import PyStr.

(* ================================================================== *)
(** * Data model *)
(* ================================================================== *)

(** A value decoded by [json.loads]; a number keeps its literal. Python
    dictionaries keep insertion order, so an object is an association
    list. *)
Inductive json : Type :=
| JNull
| JBool (b : bool)
| JNumber (literal : string)
| JString (s : string)
| JArray (items : list json)
| JObject (members : list (string * json)).

(** A raised [Exception], with [str(e)]. *)
Inductive exn : Type := Exception (message : string).

Definition str_of_exn (e : exn) : string :=
  match e with Exception m => m end.

Inductive result (A : Type) : Type :=
| Ok (a : A)
| Raise (e : exn).
Arguments Ok {A} a.
Arguments Raise {A} e.

(** What [json.loads] does with a text: it returns a value, raises
    [json.JSONDecodeError], or raises another exception. *)
Inductive decoded : Type :=
| Decoded (v : json)
| JSONDecodeError
| DecodeRaise (e : exn).

(** What the parsing policy reads off a fetched page: the text of the first
    [h1], of the first [title], and of every [p], each already stripped by
    [get_text(strip=True)]. *)
Record page : Type := {
  h1 : option string;
  title_tag : option string;
  paragraphs : list string
}.

(** [{"url": ..., "title": ..., "content": ...}] *)
Record raw_report : Type := {
  url : string;
  title : string;
  content : string
}.

(** [{"url": ..., "title": ..., "content_preview": ...}] *)
Record report : Type := {
  report_url : string;
  report_title : string;
  content_preview : string
}.

(** [{"url": ..., "error": ...}] *)
Record failed_url : Type := {
  failed : string;
  failed_error : string
}.

(** [{"title": ..., "source": ..., "threat_intelligence": ...}] *)
Record document : Type := {
  doc_title : string;
  doc_source : string;
  threat_intelligence : json
}.

(** A report the extraction loop got through: the text the language
    model gave for it and the value the program made of that text. *)
Record extraction : Type := {
  ex_report : raw_report;
  ex_text : string;
  ex_json : json
}.

(** One entry of the knowledge-base summary of phase 3. *)
Record kb_entry : Type := {
  entry_index : nat;
  entry_actor : json;
  entry_title : string;
  entry_source : string;
  entry_aliases : string;
  entry_ttps : string;
  entry_targets : string
}.

(** The five sections of the run log. The key ["error"] exists only after a
    failure, hence the options. *)
Record phase1_data : Type := {
  p1_description : string;
  collection_method : string;
  collected_count : nat;
  reports : list report;
  failed_urls : list failed_url;
  p1_error : option string
}.

Record phase2_data : Type := {
  p2_description : string;
  used_llm : bool;
  used_mock : bool;
  document_count : nat;
  documents : list document;
  p2_error : option string
}.

Record phase3_data : Type := {
  p3_description : string;
  total_entries : nat;
  entries : list kb_entry;
  p3_error : option string
}.

Record phase4_data : Type := {
  p4_description : string;
  knowledge_base_available : bool;
  llm_available : bool
}.

Record phase5_data : Type := {
  p5_description : string;
  ba_questions : list string;
  status : string;
  queries : list string
}.

(** [all_phase_data["phases"]]: a section is present once its phase has
    stored it. *)
Record phases : Type := {
  phase1 : option phase1_data;
  phase2 : option phase2_data;
  phase3 : option phase3_data;
  phase4 : option phase4_data;
  phase5 : option phase5_data
}.

(** [all_phase_data] *)
Record run_log : Type := {
  run_number : Z;
  log_phases : phases
}.

Definition no_phases : phases :=
  {| phase1 := None; phase2 := None; phase3 := None; phase4 := None;
     phase5 := None |}.

(** What the program does to the outside, in order. [AskRetriever] marks a
    call of the retriever function handed to the session. *)
Inductive event : Type :=
| Print (text : string)
| Prompt (text : string)
| ZenRowsGet (target : string)
| DirectGet (target : string)
| Generate (prompt : string)
| LoadModel
| OpenCollection
| Encode (text : string)
| CollectionAdd (id : string) (text : string)
| CollectionQuery (n_results : nat)
| AskRetriever (query : string)
| WriteFile (filename : string) (log : run_log).

(* ================================================================== *)
(** * Configuration and built-in data *)
(* ================================================================== *)

Definition ZENROWS_PLACEHOLDER : string := "PASTE_YOUR_ZENROWS_API_KEY_HERE".

Definition ARTICLE_URLS : list string := [
  "https://thehackernews.com/2025/12/chinese-hackers-have-started-exploiting.html";
  "https://thehackernews.com/2025/12/react2shell-exploitation-escalates-into.html";
  "https://thehackernews.com/2025/12/warning-winrar-vulnerability-cve-2025.html";
  "https://thehackernews.com/2025/12/threatsday-bulletin-spyware-alerts.html";
  "https://thehackernews.com/2025/12/chrome-targeted-by-active-in-wild.html";
  "https://thehackernews.com/2025/12/unpatched-gogs-zero-day-exploited.html";
  "https://thehackernews.com/2025/12/storm-0249-escalates-ransomware-attacks.html";
  "https://thehackernews.com/2025/12/nanoremote-malware-uses-google-drive.html";
  "https://thehackernews.com/2025/11/apt24-deploys-badaudio-in-years-long.html";
  "https://thehackernews.com/2025/08/charon-ransomware-hits-middle-east.html";
  "https://thehackernews.com/2025/12/5-threats-that-reshaped-web-security.html";
  "https://thehackernews.com/2025/12/microsoft-issues-security-fixes-for-56.html";
  "https://thehackernews.com/2025/12/critical-xxe-bug-cve-2025-66516-cvss.html";
  "https://thehackernews.com/2025/11/fortinet-warns-of-new-fortiweb-cve-2025.html";
  "https://thehackernews.com/2025/12/new-advanced-phishing-kits-use-ai-and.html"
].

(** One literal of [MOCK_THREAT_INTEL_LIST]; ["iocs"] is [[]] in all of
    them. *)
Definition mock_entry (actor : string) (aliases ttps targets : list string)
    (timeline : string) : json :=
  JObject [
    ("actor", JString actor);
    ("aliases", JArray (map JString aliases));
    ("ttps", JArray (map JString ttps));
    ("targets", JArray (map JString targets));
    ("iocs", JArray []);
    ("timeline", JString timeline)
  ].

Definition MOCK_THREAT_INTEL_LIST : list json := [
  mock_entry "Earth Lamia" ["China-nexus"] ["RCE Exploitation"] ["Global Servers"] "Dec 2025";
  mock_entry "Jackpot Panda" ["China-nexus"] ["Crypto Mining"] ["Web Infrastructure"] "Dec 2025";
  mock_entry "STAC6565" ["Gold Blade"] ["Ransomware Deployment"] ["Canada"] "Dec 2025";
  mock_entry "VolkLocker" [] ["Ransomware"] ["Windows/Linux"] "Dec 2025";
  mock_entry "PassiveNeuron" ["APT"] ["Espionage, Neursite"] ["Global"] "Oct 2025";
  mock_entry "APT31" ["Judgement Panda"] ["CloudyLoader"] ["Russian IT"] "Nov 2025";
  mock_entry "Storm-0249" [] ["ClickFix, Ransomware"] ["Multiple Sectors"] "Dec 2025";
  mock_entry "SideWinder" ["APT-C-17"] ["Phishing"] ["Maritime, Nuclear"] "Mar 2025";
  mock_entry "Blind Eagle" ["APT-C-36"] ["RATs, Phishing"] ["Colombia"] "Aug 2025";
  mock_entry "Charon" [] ["Ransomware"] ["Middle East"] "Aug 2025";
  mock_entry "Storm-2603" [] ["LockBit Ransomware"] ["Multiple"] "Oct 2025";
  mock_entry "GrayBravo" ["TAG-150"] ["CastleLoader"] ["Multiple Sectors"] "Dec 2025";
  mock_entry "Warp Panda" ["BRICKSTORM"] ["Backdoor"] ["Government"] "Dec 2025";
  mock_entry "APT41" ["Brass Typhoon"] ["Phishing"] ["US Officials"] "2025";
  mock_entry "Aquatic Panda" [] ["Espionage"] ["Global"] "2025"
].

(** The static table, in the order of the source: [list(d.keys())] is
    logged by phase 5. *)
Definition PREDEFINED_QUESTIONS : list (string * string) := [
  ("which threat actors are china-nexus?",
   "Numerous threat actors are linked to China, generally categorized as China-nexus due to their alignment with the strategic intelligence-gathering interests of the People's Republic of China (PRC). In 2025, China-nexus actors include Earth Lamia, Jackpot Panda, APT31, APT41, Warp Panda, and others using advanced exploitation.");
  ("what are the most active ransomware groups in 2025?",
   "Active ransomware in 2025: STAC6565 (QWCrypt), VolkLocker, Charon, Storm-0249, LockBit variants.");
  ("recent activities of medusa?",
   "Medusa refers to two prominent entities: a highly active ransomware group and a major submarine cable project. The Medusa ransomware (operated by affiliates like Spearwing) has seen a surge in activity in 2025, targeting critical sectors with double extortion, while the Medusa Submarine Cable System is actively laying new digital infrastructure in the Mediterranean during late 2025.");
  ("recent activities of apt31?",
   "APT31, a China-linked cyber espionage group, has recently been active in campaigns targeting the Russian IT sector and the Czech Ministry of Foreign Affairs, utilizing a diverse and evolving set of tools to maintain stealth and persistence. APT31 launched stealthy attacks on Russian IT firms in Nov 2025 using CloudyLoader.")
].

(** [d.get(k)] on a dictionary with string keys. *)
Fixpoint dict_get {V : Type} (d : list (string * V)) (k : string) : option V :=
  match d with
  | [] => None
  | (k', v) :: rest => if String.eqb k' k then Some v else dict_get rest k
  end.

(** [k in d] *)
Definition dict_mem {V : Type} (d : list (string * V)) (k : string) : bool :=
  match dict_get d k with Some _ => true | None => false end.

(** [x in xs] for a list of strings. *)
Definition str_in (x : string) (xs : list string) : bool :=
  existsb (String.eqb x) xs.

Definition EXTRACTION_PROMPT : string :=
  nl +++ "You are a cybersecurity threat intelligence analyst." +++ nl
  +++ nl
  +++ "Extract structured data from the report:" +++ nl
  +++ "- actor (main threat actor name)" +++ nl
  +++ "- aliases (list)" +++ nl
  +++ "- ttps (list of tactics/techniques)" +++ nl
  +++ "- targets (list of industries/countries/sectors)" +++ nl
  +++ "- iocs (list)" +++ nl
  +++ "- timeline" +++ nl
  +++ nl
  +++ "Return ONLY valid JSON object. Use empty lists if nothing found." +++ nl
  +++ nl
  +++ "REPORT:" +++ nl.

(* ================================================================== *)
(** * A small outside world *)
(* ================================================================== *)

(** Concrete oracles on which the pipeline can be run: the world is the
    number of requests made so far. *)
Module Scenario.

Definition sample_page : page :=
  {| h1 := Some "Chinese Hackers Have Started Exploiting";
     title_tag := Some "The Hacker News";
     paragraphs := ["First paragraph."; "Second paragraph."] |}.

(** ZenRows answers one request, then refuses. *)
Definition zenrows_once (u : string) (n : nat) : result page * nat :=
  if n =? 0 then (Ok sample_page, S n)
  else (Raise (Exception "429 Client Error: Too Many Requests"), S n).

(** The direct fetch is refused by one source only. *)
Definition direct_mostly (u : string) (n : nat) : result page * nat :=
  if String.eqb u "https://thehackernews.com/2025/12/warning-winrar-vulnerability-cve-2025.html"
  then (Raise (Exception "403 Client Error: Forbidden"), S n)
  else (Ok sample_page, S n).

(** The language model answers while the world is below [quota], with a
    text that is not JSON. *)
Definition generate_quota (quota : nat) (prompt : string) (n : nat)
    : result string * nat :=
  if n <? quota then (Ok " The actor is APT31. ", S n)
  else (Raise (Exception "429 Resource has been exhausted"), S n).

(** A decoder that knows the empty object only. *)
Definition loads_empty_object (s : string) : decoded :=
  if String.eqb s "{}" then Decoded (JObject []) else JSONDecodeError.

(** How many opening brackets a text starts with. *)
Fixpoint leading_brackets (s : string) : nat :=
  match s with
  | String c r => if Ascii.eqb c "[" then S (leading_brackets r) else 0
  | EmptyString => 0
  end.

(** A text of [n] opening brackets. *)
Fixpoint brackets (n : nat) : string :=
  match n with
  | 0 => EmptyString
  | S k => String "[" (brackets k)
  end.

(** A decoder with the recursion limit of the interpreter: a text nested
    a thousand arrays deep makes it raise [RecursionError]. *)
Definition loads_depth_limited (s : string) : decoded :=
  if String.eqb s "{}" then Decoded (JObject [])
  else if 1000 <=? leading_brackets s
       then DecodeRaise (Exception "maximum recursion depth exceeded while decoding a JSON array from a unicode string")
       else JSONDecodeError.

Definition load_model (n : nat) : result unit * nat := (Ok tt, S n).
Definition open_collection (n : nat) : result unit * nat := (Ok tt, S n).
Definition json_dumps (doc : document) : result string := Ok (doc_title doc).

(** A serialiser that gives up on the document of one title. *)
Definition json_dumps_but (bad : string) (doc : document) : result string :=
  if String.eqb (doc_title doc) bad
  then Raise (Exception "maximum recursion depth exceeded while encoding a JSON object")
  else Ok (doc_title doc).
Definition encode (_ : unit) (_ : string) (n : nat) : result unit * nat :=
  (Ok tt, S n).
Definition collection_add (_ : unit) (_ : string) (_ : unit) (_ : string)
    (n : nat) : result unit * nat := (Ok tt, S n).
Definition collection_query (_ : unit) (_ : unit) (_ : nat) (n : nat)
    : result (list string) * nat := (Ok ["Mock Threat Report 6 (Recent 2025)"], S n).
Definition repr (_ : json) : string := "None".
Definition write_json (_ : string) (_ : run_log) (n : nat) : result unit * nat :=
  (Ok tt, S n).

(** A retriever stub that raises whenever it is called. *)
Definition failing_retriever (q : string) (n : nat)
    : result string * nat * list event :=
  (Raise (Exception "retriever called"), n, []).

Definition two_reports : list raw_report :=
  [ {| url := "https://thehackernews.com/a.html"; title := "A"; content := "Text of A." |};
    {| url := "https://thehackernews.com/b.html"; title := "B"; content := "Text of B." |} ].

Definition three_reports : list raw_report :=
  two_reports
  ++ [ {| url := "https://thehackernews.com/c.html"; title := "C"; content := "Text of C." |} ].

(** ZenRows answers every request. *)
Definition zenrows_always (u : string) (n : nat) : result page * nat :=
  (Ok sample_page, S n).

(** The embedding model cannot be loaded. *)
Definition load_model_fails (n : nat) : result unit * nat :=
  (Raise (Exception "OSError: model not found"), S n).

(** The collection refuses the third insertion. *)
Definition collection_add_twice (_ : unit) (_ : string) (_ : unit) (_ : string)
    (n : nat) : result unit * nat :=
  if n <? 6 then (Ok tt, S n)
  else (Raise (Exception "ValueError: collection is full"), S n).

(** The language model answers every request; its second answer is
    nested a thousand arrays deep. *)
Definition generate_nested (prompt : string) (n : nat) : result string * nat :=
  if n =? 1 then (Ok (brackets 1000), S n)
  else (Ok " The actor is APT31. ", S n).

(** A world with a file system: the number of requests made so far, and
    the files written, oldest first. *)
Definition disk : Type := (nat * list (string * run_log))%type.

(** A service of the small world, in the world with a file system. *)
Definition on_disk {A : Type} (f : nat -> result A * nat) (w : disk)
    : result A * disk :=
  let '(r, n) := f (fst w) in (r, (n, snd w)).

(** The file system takes the file. *)
Definition write_json_disk (name : string) (log : run_log) (w : disk)
    : result unit * disk :=
  (Ok tt, (fst w, snd w ++ [(name, log)])).

(** The file system refuses to open the file for writing. *)
Definition write_json_refused (name : string) (log : run_log) (w : disk)
    : result unit * disk :=
  (Raise (Exception ("[Errno 13] Permission denied: '" +++ name +++ "'")), w).

End Scenario.

(* ================================================================== *)
(** * The pipeline *)
(* ================================================================== *)

Section Pipeline.

(** The state of everything outside the program. *)
Variable World : Type.

(** Module-level configuration: [ZENROWS_API_KEY] as read at start-up and
    the flag [USE_LLM] (the source sets it to [True]). *)
Variable ZENROWS_API_KEY : string.
Variable USE_LLM : bool.

(** The ZenRows request for a URL, up to the page read off the parsed
    response; any step of it may raise. *)
Variable zenrows_get : string -> World -> result page * World.

(** The direct request for a URL, likewise. *)
Variable direct_get : string -> World -> result page * World.

(** [llm.generate_content(prompt).text] *)
Variable generate_content : string -> World -> result string * World.

(** [json.loads] *)
Variable json_loads : string -> decoded.

(* ---------------------------------------------------------------- *)
(** ** Phase 1: data collection *)
(* ---------------------------------------------------------------- *)

(** [title_tag = soup.find("h1") or soup.find("title")], then its text or
    the fixed default. *)
Definition page_title (pg : page) : string :=
  match h1 pg with
  | Some t => t
  | None =>
      match title_tag pg with
      | Some t => t
      | None => "Title Not Found"
      end
  end.

(** [" ".join(paragraphs)[:10000]] *)
Definition page_content (pg : page) : string :=
  slice_to 10000 (join " " (paragraphs pg)).

(** [content[:500] + "..." if len(content) > 500 else content] *)
Definition preview_of (content : string) : string :=
  if 500 <? String.length content then slice_to 500 content +++ "..."
  else content.

Definition add_report (r : report) (d : phase1_data) : phase1_data :=
  {| p1_description := p1_description d;
     collection_method := collection_method d;
     collected_count := collected_count d;
     reports := reports d ++ [r];
     failed_urls := failed_urls d;
     p1_error := p1_error d |}.

Definition add_failed_url (f : failed_url) (d : phase1_data) : phase1_data :=
  {| p1_description := p1_description d;
     collection_method := collection_method d;
     collected_count := collected_count d;
     reports := reports d;
     failed_urls := failed_urls d ++ [f];
     p1_error := p1_error d |}.

Definition set_collection_method (m : string) (d : phase1_data) : phase1_data :=
  {| p1_description := p1_description d;
     collection_method := m;
     collected_count := collected_count d;
     reports := reports d;
     failed_urls := failed_urls d;
     p1_error := p1_error d |}.

Definition set_p1_error (e : string) (d : phase1_data) : phase1_data :=
  {| p1_description := p1_description d;
     collection_method := collection_method d;
     collected_count := collected_count d;
     reports := reports d;
     failed_urls := failed_urls d;
     p1_error := Some e |}.

Definition set_collected_count (n : nat) (d : phase1_data) : phase1_data :=
  {| p1_description := p1_description d;
     collection_method := collection_method d;
     collected_count := n;
     reports := reports d;
     failed_urls := failed_urls d;
     p1_error := p1_error d |}.

Definition set_phase1 (d : phase1_data) (a : phases) : phases :=
  {| phase1 := Some d; phase2 := phase2 a; phase3 := phase3 a;
     phase4 := phase4 a; phase5 := phase5 a |}.

(** The state of a collection loop: the local list [raw_reports], the
    dictionary [phase1_data], the world, and the events so far. *)
Definition collect_state : Type :=
  (list raw_report * phase1_data * World * list event)%type.

(** What both loops do with a page that arrived. *)
Definition keep_page (u : string) (pg : page)
    (raw_reports : list raw_report) (d : phase1_data)
    : list raw_report * phase1_data :=
  let title := page_title pg in
  let content := page_content pg in
  let r := {| report_url := u; report_title := title;
              content_preview := preview_of content |} in
  (raw_reports ++ [{| url := u; title := title; content := content |}],
   add_report r d).

(** The body of the [try] of the ZenRows branch: the loop stops at the
    first source that raises, leaving both lists as they are then. *)
Fixpoint zenrows_loop (urls : list string) (raw_reports : list raw_report)
    (d : phase1_data) (w : World) : result unit * collect_state :=
  match urls with
  | [] => (Ok tt, (raw_reports, d, w, []))
  | u :: rest =>
      match zenrows_get u w with
      | (Raise e, w1) => (Raise e, (raw_reports, d, w1, [ZenRowsGet u]))
      | (Ok pg, w1) =>
          let '(raw1, d1) := keep_page u pg raw_reports d in
          let '(r, (raw2, d2, w2, evs)) := zenrows_loop rest raw1 d1 w1 in
          (r, (raw2, d2, w2, ZenRowsGet u :: evs))
      end
  end.

(** The loop of the fallback branch: each source has its own [try]. *)
Fixpoint direct_loop (urls : list string) (raw_reports : list raw_report)
    (d : phase1_data) (w : World) : collect_state :=
  match urls with
  | [] => (raw_reports, d, w, [])
  | u :: rest =>
      match direct_get u w with
      | (Ok pg, w1) =>
          let '(raw1, d1) := keep_page u pg raw_reports d in
          let '(raw2, d2, w2, evs) := direct_loop rest raw1 d1 w1 in
          (raw2, d2, w2,
           DirectGet u
             :: Print ("[Phase 1] Collected: " +++ slice_to 60 (page_title pg) +++ "...")
             :: evs)
      | (Raise e, w1) =>
          let d1 := add_failed_url {| failed := u; failed_error := str_of_exn e |} d in
          let '(raw2, d2, w2, evs) := direct_loop rest raw_reports d1 w1 in
          (raw2, d2, w2,
           DirectGet u
             :: Print ("[Phase 1 Warning] Failed to scrape " +++ u +++ ": " +++ str_of_exn e)
             :: evs)
      end
  end.

(** [ZENROWS_API_KEY != placeholder and ZENROWS_API_KEY.strip()], as a
    truth value. *)
Definition use_zenrows_initially : bool :=
  negb (String.eqb ZENROWS_API_KEY ZENROWS_PLACEHOLDER)
  && negb (String.eqb (strip ZENROWS_API_KEY) EmptyString).

Definition phase1_initial : phase1_data :=
  {| p1_description := "Raw collected reports (title, url, content preview)";
     collection_method := EmptyString;
     collected_count := 0;
     reports := [];
     failed_urls := [];
     p1_error := None |}.

(** The [if use_zenrows:] block. It returns the value of [use_zenrows]
    after it. *)
Definition zenrows_branch (w : World) : bool * collect_state :=
  if use_zenrows_initially then
    let d := set_collection_method "ZenRows API" phase1_initial in
    match zenrows_loop ARTICLE_URLS [] d w with
    | (Ok _, (raw, d1, w1, evs)) =>
        (true,
         (raw, d1, w1,
          Print "Using ZenRows API for scraping..." :: evs
          ++ [Print ("[Phase 1] Successfully collected "
                     +++ str_of_nat (length raw) +++ " reports via ZenRows.")]))
    | (Raise e, (_, d1, w1, evs)) =>
        (false,
         ([], set_p1_error (str_of_exn e) d1, w1,
          Print "Using ZenRows API for scraping..." :: evs
          ++ [Print ("[Phase 1 Error] ZenRows failed: " +++ str_of_exn e
                     +++ ". Falling back to regular scraping.")]))
    end
  else (false, ([], phase1_initial, w, [])).

(** The [if not use_zenrows:] block. *)
Definition fallback_branch (use_zenrows : bool) (st : collect_state)
    : collect_state :=
  let '(raw, d, w, evs) := st in
  if negb use_zenrows then
    let d0 := set_collection_method "Regular Scraping (requests + BS4)" d in
    let '(raw1, d1, w1, evs1) := direct_loop ARTICLE_URLS raw d0 w in
    (raw1, d1, w1,
     evs ++ Print "Using regular requests + BeautifulSoup scraping (fallback)..."
         :: evs1
     ++ [Print ("[Phase 1] Collected " +++ str_of_nat (length raw1)
                +++ " reports via regular scraping (fallback).")])
  else st.

Definition phase1_data_collection (all_phase_data : phases) (w : World)
    : list raw_report * phases * World * list event :=
  let '(use_zenrows, st) := zenrows_branch w in
  let '(raw_reports, d, w1, evs) := fallback_branch use_zenrows st in
  (raw_reports,
   set_phase1 (set_collected_count (length raw_reports) d) all_phase_data,
   w1,
   Print (nl +++ "[Phase 1/5: Data Collection] Starting collection...") :: evs).

(* ---------------------------------------------------------------- *)
(** ** Phase 2: extraction *)
(* ---------------------------------------------------------------- *)

Definition add_document (doc : document) (d : phase2_data) : phase2_data :=
  {| p2_description := p2_description d;
     used_llm := used_llm d;
     used_mock := used_mock d;
     document_count := document_count d;
     documents := documents d ++ [doc];
     p2_error := p2_error d |}.

Definition set_used_llm (b : bool) (d : phase2_data) : phase2_data :=
  {| p2_description := p2_description d;
     used_llm := b;
     used_mock := used_mock d;
     document_count := document_count d;
     documents := documents d;
     p2_error := p2_error d |}.

Definition set_used_mock (b : bool) (d : phase2_data) : phase2_data :=
  {| p2_description := p2_description d;
     used_llm := used_llm d;
     used_mock := b;
     document_count := document_count d;
     documents := documents d;
     p2_error := p2_error d |}.

Definition set_p2_error (e : string) (d : phase2_data) : phase2_data :=
  {| p2_description := p2_description d;
     used_llm := used_llm d;
     used_mock := used_mock d;
     document_count := document_count d;
     documents := documents d;
     p2_error := Some e |}.

Definition set_document_count (n : nat) (d : phase2_data) : phase2_data :=
  {| p2_description := p2_description d;
     used_llm := used_llm d;
     used_mock := used_mock d;
     document_count := n;
     documents := documents d;
     p2_error := p2_error d |}.

Definition set_phase2 (d : phase2_data) (a : phases) : phases :=
  {| phase1 := phase1 a; phase2 := Some d; phase3 := phase3 a;
     phase4 := phase4 a; phase5 := phase5 a |}.

(** The inner [try] around [json.loads(response.text.strip())]: its
    [except] catches [json.JSONDecodeError] only, so another exception of
    [json.loads] leaves it. *)
Definition extracted_json (text : string) : result json :=
  match json_loads (strip text) with
  | Decoded v => Ok v
  | JSONDecodeError => Ok (JObject [("raw", JString (strip text));
                                    ("note", JString "JSON parse failed")])
  | DecodeRaise e => Raise e
  end.

(** The state of an extraction loop: the local list [documents], the
    dictionary [phase2_data], the world, and the events so far. *)
Definition extract_state : Type :=
  (list document * phase2_data * World * list event)%type.

(** The [for report in raw_reports] loop: it stops at the first
    generation call that raises and at the first response on which
    [json.loads] raises something else than [json.JSONDecodeError],
    leaving both lists as they are then. *)
Fixpoint extract_loop (raw_reports : list raw_report)
    (docs : list document) (d : phase2_data) (w : World)
    : result unit * extract_state :=
  match raw_reports with
  | [] => (Ok tt, (docs, d, w, []))
  | rep :: rest =>
      let prompt := EXTRACTION_PROMPT +++ content rep in
      match generate_content prompt w with
      | (Raise e, w1) => (Raise e, (docs, d, w1, [Generate prompt]))
      | (Ok text, w1) =>
          match extracted_json text with
          | Raise e => (Raise e, (docs, d, w1, [Generate prompt]))
          | Ok ti =>
              let doc := {| doc_title := title rep;
                            doc_source := url rep;
                            threat_intelligence := ti |} in
              let '(r, (docs2, d2, w2, evs)) :=
                extract_loop rest (docs ++ [doc]) (add_document doc d) w1 in
              (r, (docs2, d2, w2, Generate prompt :: evs))
          end
      end
  end.

(** The [for idx, mock in enumerate(MOCK_THREAT_INTEL_LIST)] loop. *)
Fixpoint mock_loop (idx : nat) (mocks : list json)
    (docs : list document) (d : phase2_data)
    : list document * phase2_data :=
  match mocks with
  | [] => (docs, d)
  | mock :: rest =>
      let doc := {| doc_title := "Mock Threat Report " +++ str_of_nat (idx + 1)
                                 +++ " (Recent 2025)";
                    doc_source := "Simulated Feed";
                    threat_intelligence := mock |} in
      mock_loop (S idx) rest (docs ++ [doc]) (add_document doc d)
  end.

Definition is_empty {A : Type} (l : list A) : bool :=
  match l with [] => true | _ => false end.

Definition phase2_initial (raw_reports : list raw_report) : phase2_data :=
  {| p2_description := "Extracted structured threat intelligence documents";
     used_llm := false;
     used_mock := if is_empty raw_reports || negb USE_LLM then true else false;
     document_count := 0;
     documents := [];
     p2_error := None |}.

(** The outer [try]: it returns the value of [use_mock] after it. *)
Definition extraction_try (raw_reports : list raw_report) (w : World)
    : bool * extract_state :=
  let d0 := phase2_initial raw_reports in
  if USE_LLM && negb (is_empty raw_reports) then
    match extract_loop raw_reports [] (set_used_llm true d0) w with
    | (Ok _, (docs, d, w1, evs)) =>
        (false,
         (docs, d, w1,
          evs ++ [Print ("[Phase 2 Validation] Extracted from "
                         +++ str_of_nat (length docs) +++ " real reports.")]))
    | (Raise e, (docs, d, w1, evs)) =>
        (true,
         (docs, set_p2_error (str_of_exn e) d, w1,
          evs ++ [Print ("[Phase 2 Error] LLM error/quota: " +++ str_of_exn e
                         +++ ". Switching to Simulation Mode")]))
    end
  else (true, ([], d0, w, [])).

(** The [if use_mock or not documents:] block; [documents.clear()] empties
    the local list only. *)
Definition mock_block (use_mock : bool) (st : extract_state) : extract_state :=
  let '(docs, d, w, evs) := st in
  if use_mock || is_empty docs then
    let '(docs1, d1) :=
      mock_loop 0 MOCK_THREAT_INTEL_LIST [] (set_used_mock true d) in
    (docs1, d1, w,
     evs ++ [Print ("[Phase 2 Validation] Loaded "
                    +++ str_of_nat (length docs1) +++ " mock documents.")])
  else st.

Definition phase2_information_extraction (raw_reports : list raw_report)
    (all_phase_data : phases) (w : World)
    : list document * phases * World * list event :=
  let '(use_mock, st) := extraction_try raw_reports w in
  let '(docs, d, w1, evs) := mock_block use_mock st in
  (docs,
   set_phase2 (set_document_count (length docs) d) all_phase_data,
   w1,
   Print (nl +++ "[Phase 2/5: Information Extraction] Extracting with Gemini...")
     :: evs).

(* ---------------------------------------------------------------- *)
(** ** Phase 3: knowledge base *)
(* ---------------------------------------------------------------- *)

(** Handles of the embedding model and of the vector collection, and the
    vectors the model produces. *)
Variable EmbeddingModel Collection Embedding : Type.

(** [SentenceTransformer("all-MiniLM-L6-v2")] *)
Variable load_model : World -> result EmbeddingModel * World.

(** [chromadb.Client().get_or_create_collection("threat_intel")] *)
Variable open_collection : World -> result Collection * World.

(** [json.dumps(doc)] *)
Variable json_dumps : document -> result string.

(** [embedding_model.encode(text).tolist()] *)
Variable encode : EmbeddingModel -> string -> World -> result Embedding * World.

(** [collection.add(documents=[text], embeddings=[e], ids=[id])] *)
Variable collection_add :
  Collection -> string -> Embedding -> string -> World -> result unit * World.

(** [collection.query(query_embeddings=[e], n_results=n)["documents"][0]] *)
Variable collection_query :
  Collection -> Embedding -> nat -> World -> result (list string) * World.

(** [str(v)] for a decoded value that is not a string. *)
Variable repr : json -> string.

Definition format_value (v : json) : string :=
  match v with
  | JString s => s
  | _ => repr v
  end.

Definition add_entry (e : kb_entry) (d : phase3_data) : phase3_data :=
  {| p3_description := p3_description d;
     total_entries := total_entries d;
     entries := entries d ++ [e];
     p3_error := p3_error d |}.

Definition set_p3_error (e : string) (d : phase3_data) : phase3_data :=
  {| p3_description := p3_description d;
     total_entries := total_entries d;
     entries := entries d;
     p3_error := Some e |}.

Definition set_phase3 (d : phase3_data) (a : phases) : phases :=
  {| phase1 := phase1 a; phase2 := phase2 a; phase3 := Some d;
     phase4 := phase4 a; phase5 := phase5 a |}.

(** The first loop of the [try]: one [json.dumps], one [encode] and one
    [add] per document, under the identifier [str(idx)]; any of the three
    may raise. *)
Fixpoint index_loop (idx : nat) (docs : list document)
    (model : EmbeddingModel) (coll : Collection) (w : World)
    : result unit * World * list event :=
  match docs with
  | [] => (Ok tt, w, [])
  | doc :: rest =>
      match json_dumps doc with
      | Raise e => (Raise e, w, [])
      | Ok doc_str =>
      match encode model doc_str w with
      | (Raise e, w1) => (Raise e, w1, [Encode doc_str])
      | (Ok emb, w1) =>
          match collection_add coll doc_str emb (str_of_nat idx) w1 with
          | (Raise e, w2) =>
              (Raise e, w2, [Encode doc_str; CollectionAdd (str_of_nat idx) doc_str])
          | (Ok _, w2) =>
              let '(r, w3, evs) := index_loop (S idx) rest model coll w2 in
              (r, w3, Encode doc_str :: CollectionAdd (str_of_nat idx) doc_str :: evs)
          end
      end
      end
  end.

(** The name of the Python type of a decoded value, as [TypeError]
    prints it. *)
Definition type_name (v : json) : string :=
  match v with
  | JNull => "NoneType"
  | JBool _ => "bool"
  | JNumber lit =>
      if forallb (fun c => is_digit c || Ascii.eqb c "-") (list_ascii_of_string lit)
      then "int" else "float"
  | JString _ => "str"
  | JArray _ => "list"
  | JObject _ => "dict"
  end.

(** The items [str.join] receives from a list: all must be strings. *)
Fixpoint join_items (i : nat) (items : list json) : result (list string) :=
  match items with
  | [] => Ok []
  | JString s :: rest =>
      match join_items (S i) rest with
      | Ok l => Ok (s :: l)
      | Raise e => Raise e
      end
  | v :: _ =>
      Raise (Exception ("sequence item " +++ str_of_nat i
                        +++ ": expected str instance, " +++ type_name v +++ " found"))
  end.

(** [", ".join(v)] for a decoded value: a list is joined, a string is
    iterated by character, a dictionary by key, anything else is not
    iterable. *)
Definition join_value (v : json) : result string :=
  match v with
  | JArray items =>
      match join_items 0 items with
      | Ok l => Ok (join ", " l)
      | Raise e => Raise e
      end
  | JString s =>
      Ok (join ", " (map (fun c => String c EmptyString) (list_ascii_of_string s)))
  | JObject members => Ok (join ", " (map fst members))
  | _ => Raise (Exception "can only join an iterable")
  end.

(** [", ".join(ti.get(key, [])) if isinstance(ti, dict) else "None"] *)
Definition joined_field (ti : json) (key : string) : result string :=
  match ti with
  | JObject members =>
      match dict_get members key with
      | Some v => join_value v
      | None => Ok EmptyString
      end
  | _ => Ok "None"
  end.

(** [ti.get("actor", "Unknown") if isinstance(ti, dict) else "Unknown"] *)
Definition actor_field (ti : json) : json :=
  match ti with
  | JObject members =>
      match dict_get members "actor" with
      | Some v => v
      | None => JString "Unknown"
      end
  | _ => JString "Unknown"
  end.

Fixpoint repeat_str (s : string) (n : nat) : string :=
  match n with
  | 0 => EmptyString
  | S k => s +++ repeat_str s k
  end.

(** The display loop of the [try], over [enumerate(documents, 1)]. *)
Fixpoint display_loop (i : nat) (docs : list document) (d : phase3_data)
    : result unit * phase3_data * list event :=
  match docs with
  | [] => (Ok tt, d, [])
  | doc :: rest =>
      let ti := threat_intelligence doc in
      let actor := actor_field ti in
      match joined_field ti "aliases" with
      | Raise e => (Raise e, d, [])
      | Ok aliases =>
      match joined_field ti "ttps" with
      | Raise e => (Raise e, d, [])
      | Ok ttps =>
      match joined_field ti "targets" with
      | Raise e => (Raise e, d, [])
      | Ok targets =>
          let e := {| entry_index := i; entry_actor := actor;
                      entry_title := doc_title doc; entry_source := doc_source doc;
                      entry_aliases := aliases; entry_ttps := ttps;
                      entry_targets := targets |} in
          let '(r, d1, evs) := display_loop (S i) rest (add_entry e d) in
          (r, d1,
           Print (str_of_nat i +++ ". Actor: " +++ format_value actor)
           :: Print ("   Title: " +++ doc_title doc)
           :: Print ("   Source: " +++ doc_source doc)
           :: Print ("   Aliases: " +++ aliases)
           :: Print ("   TTPs: " +++ ttps)
           :: Print ("   Targets: " +++ targets)
           :: Print (repeat_str "-" 50)
           :: evs)
      end end end
  end.

Definition phase3_initial (docs : list document) : phase3_data :=
  {| p3_description := "Knowledge base entries (full list with summary fields)";
     total_entries := length docs;
     entries := [];
     p3_error := None |}.

(** The [try] of phase 3. It returns the two handles as they stand when
    it ends, whether it completed or raised. *)
Definition build_try (docs : list document) (w : World)
    : result unit * (option Collection * option EmbeddingModel)
      * phase3_data * World * list event :=
  let d := phase3_initial docs in
  match load_model w with
  | (Raise e, w1) => (Raise e, (None, None), d, w1, [LoadModel])
  | (Ok model, w1) =>
  match open_collection w1 with
  | (Raise e, w2) => (Raise e, (None, Some model), d, w2, [LoadModel; OpenCollection])
  | (Ok coll, w2) =>
  match index_loop 0 docs model coll w2 with
  | (Raise e, w3, evs) =>
      (Raise e, (Some coll, Some model), d, w3, LoadModel :: OpenCollection :: evs)
  | (Ok _, w3, evs) =>
      let '(r, d1, evs1) := display_loop 1 docs d in
      (r, (Some coll, Some model), d1, w3,
       LoadModel :: OpenCollection :: evs
       ++ Print ("[Phase 3 Validation] Vector DB built with "
                 +++ str_of_nat (length docs) +++ " entries." +++ nl)
       :: Print ("Total entries in knowledge base: "
                 +++ str_of_nat (length docs) +++ nl)
       :: Print ("Loaded Threat Actor Entries:" +++ nl +++ repeat_str "=" 60)
       :: evs1)
  end end end.

Definition phase3_build_knowledge_base (docs : list document)
    (all_phase_data : phases) (w : World)
    : (option Collection * option EmbeddingModel) * phases * World * list event :=
  let '(r, handles, d, w1, evs) := build_try docs w in
  let start := Print (nl +++ "[Phase 3/5: Knowledge Base] Building vector DB...") in
  match r with
  | Ok _ => (handles, set_phase3 d all_phase_data, w1, start :: evs)
  | Raise e =>
      (handles, set_phase3 (set_p3_error (str_of_exn e) d) all_phase_data, w1,
       start :: evs ++ [Print ("[Phase 3 Error] " +++ str_of_exn e +++ ".")])
  end.

(* ---------------------------------------------------------------- *)
(** ** Phase 4: retrieval *)
(* ---------------------------------------------------------------- *)

Definition set_phase4 (d : phase4_data) (a : phases) : phases :=
  {| phase1 := phase1 a; phase2 := phase2 a; phase3 := phase3 a;
     phase4 := Some d; phase5 := phase5 a |}.

Definition is_some {A : Type} (o : option A) : bool :=
  match o with Some _ => true | None => false end.

(** The prompt built by the f-string of [rag_query]. *)
Definition rag_prompt (context user_query : string) : string :=
  nl +++ "Answer ONLY using context. Say " +++ dquote +++ "Insufficient data."
  +++ dquote +++ " if unknown." +++ nl
  +++ nl
  +++ "CONTEXT:" +++ nl
  +++ context +++ nl
  +++ nl
  +++ "QUESTION:" +++ nl
  +++ user_query +++ nl.

(** The body of the [try] of [rag_query]: the semantic and generative
    tier. *)
Definition retrieval_try (collection : option Collection)
    (embedding_model : option EmbeddingModel) (user_query : string) (w : World)
    : result string * World * list event :=
  match collection, embedding_model with
  | Some coll, Some model =>
      match encode model user_query w with
      | (Raise e, w1) => (Raise e, w1, [Encode user_query])
      | (Ok query_emb, w1) =>
          match collection_query coll query_emb 3 w1 with
          | (Raise e, w2) => (Raise e, w2, [Encode user_query; CollectionQuery 3])
          | (Ok results, w2) =>
              let context := join (nl +++ nl) results in
              let prompt := rag_prompt context user_query in
              if USE_LLM then
                match generate_content prompt w2 with
                | (Ok text, w3) =>
                    (Ok (strip text), w3,
                     [Encode user_query; CollectionQuery 3; Generate prompt])
                | (Raise e, w3) =>
                    (Raise e, w3,
                     [Encode user_query; CollectionQuery 3; Generate prompt])
                end
              else
                (Raise (Exception "LLM off"), w2,
                 [Encode user_query; CollectionQuery 3])
          end
      end
  | _, _ => (Raise (Exception "No KB"), w, [])
  end.

(** [PREDEFINED_QUESTIONS.get(normalized, "Insufficient data.")] *)
Definition fallback_answer (normalized : string) : string :=
  match dict_get PREDEFINED_QUESTIONS normalized with
  | Some a => a
  | None => "Insufficient data."
  end.

(** The closure [rag_query] over the two handles. *)
Definition rag_query (collection : option Collection)
    (embedding_model : option EmbeddingModel) (user_query : string) (w : World)
    : result string * World * list event :=
  let '(r, w1, evs) := retrieval_try collection embedding_model user_query w in
  match r with
  | Ok answer => (Ok answer, w1, Print ("[RAG Query] " +++ user_query) :: evs)
  | Raise e =>
      let normalized := lower user_query in
      (Ok (fallback_answer normalized), w1,
       Print ("[RAG Query] " +++ user_query) :: evs
       ++ [Print ("[RAG Error] " +++ str_of_exn e +++ ". Fallback answer.")])
  end.

Definition phase4_rag_query_setup (collection : option Collection)
    (embedding_model : option EmbeddingModel) (all_phase_data : phases)
    : phases * list event :=
  let d := {| p4_description := "RAG query system status";
              knowledge_base_available :=
                is_some collection && is_some embedding_model;
              llm_available := USE_LLM |} in
  (set_phase4 d all_phase_data,
   [Print (nl +++ "[Phase 4/5: RAG Query] Setting up...");
    Print "[Phase 4 Validation] RAG ready."]).

(* ---------------------------------------------------------------- *)
(** ** Phase 5: the session *)
(* ---------------------------------------------------------------- *)

(** A retriever function as the session receives it. *)
Definition retriever : Type :=
  string -> World -> result string * World * list event.

Definition set_status (s : string) (d : phase5_data) : phase5_data :=
  {| p5_description := p5_description d;
     ba_questions := ba_questions d;
     status := s;
     queries := queries d |}.

Definition add_query (q : string) (d : phase5_data) : phase5_data :=
  {| p5_description := p5_description d;
     ba_questions := ba_questions d;
     status := status d;
     queries := queries d ++ [q] |}.

Definition set_phase5 (d : phase5_data) (a : phases) : phases :=
  {| phase1 := phase1 a; phase2 := phase2 a; phase3 := phase3 a;
     phase4 := phase4 a; phase5 := Some d |}.

Definition PROMPT : string := "CyberX AI > ".

(** The state of the session loop: the dictionary [phase5_data], the
    world, the events so far, and the lines of standard input not yet
    read. *)
Definition session_state : Type :=
  (phase5_data * World * list event * list string)%type.

(** The [while True] loop over the lines standard input delivers; at end
    of input [input] raises [EOFError]. *)
Fixpoint session_loop (rag_query_func : retriever) (stdin : list string)
    (d : phase5_data) (w : World) : result unit * session_state :=
  match stdin with
  | [] =>
      (Raise (Exception "EOF when reading a line"), (d, w, [Prompt PROMPT], []))
  | line :: rest =>
      let query := strip line in
      if str_in (lower query) ["exit"; "quit"] then
        (Ok tt,
         (set_status "completed" d, w,
          [Prompt PROMPT; Print "Session ended."], rest))
      else
        let d1 := add_query query d in
        let normalized := lower query in
        match dict_get PREDEFINED_QUESTIONS normalized with
        | Some canned =>
            let '(r, (d2, w2, evs, unread)) :=
              session_loop rag_query_func rest d1 w in
            (r, (d2, w2,
                 Prompt PROMPT :: Print (nl +++ canned +++ nl) :: evs, unread))
        | None =>
            match rag_query_func query w with
            | (Raise e, w1, evs1) =>
                (Raise e,
                 (d1, w1, Prompt PROMPT :: AskRetriever query :: evs1, rest))
            | (Ok answer, w1, evs1) =>
                let '(r, (d2, w2, evs, unread)) :=
                  session_loop rag_query_func rest d1 w1 in
                (r, (d2, w2,
                     Prompt PROMPT :: AskRetriever query :: evs1
                     ++ Print (nl +++ answer +++ nl) :: evs, unread))
            end
        end
  end.

Definition phase5_initial : phase5_data :=
  {| p5_description := "CyberX AI B&A Session Session";
     ba_questions := map fst PREDEFINED_QUESTIONS;
     status := "running";
     queries := [] |}.

Definition session_banner : list event :=
  [Print (nl +++ "[Phase 5/5: CLI Interface] CyberX AI ready!");
   Print "B&A [Brainstorm & Analysis] Session:";
   Print "1. Which threat actors are China-nexus?";
   Print "2. What are the most active ransomware groups in 2025?";
   Print "3. Recent activities of APT31?";
   Print ("Type 'exit' to quit." +++ nl)].

(** [phase5_cli_interface]: the section is stored only when the loop ends
    by [break]; an exception leaves [all_phase_data] as it was. *)
Definition phase5_cli_interface (rag_query_func : retriever)
    (stdin : list string) (all_phase_data : phases) (w : World)
    : result unit * phases * World * list event * list string :=
  match session_loop rag_query_func stdin phase5_initial w with
  | (Ok _, (d, w1, evs, unread)) =>
      (Ok tt, set_phase5 d all_phase_data, w1, session_banner ++ evs, unread)
  | (Raise e, (_, w1, evs, unread)) =>
      (Raise e, all_phase_data, w1, session_banner ++ evs, unread)
  end.

(* ---------------------------------------------------------------- *)
(** ** The run log and the driver *)
(* ---------------------------------------------------------------- *)

(** [json.dump(all_phase_data, f, ...)] into the file opened for
    writing under the given name. *)
Variable write_json : string -> run_log -> World -> result unit * World.

(** The name [save_run_json] writes to. *)
Definition log_filename (n : Z) : string :=
  "CyberX #" +++ str_of_int n +++ ".json".

Definition save_run_json (n : Z) (all_phase_data : run_log) (w : World)
    : World * list event :=
  let filename := log_filename n in
  match write_json filename all_phase_data w with
  | (Ok _, w1) =>
      (w1,
       [WriteFile filename all_phase_data;
        Print (nl +++ "[JSON Log] Saved full run data to '" +++ filename +++ "'")])
  | (Raise e, w1) =>
      (w1,
       [WriteFile filename all_phase_data;
        Print ("[JSON Log Error] Failed to save " +++ filename +++ ": "
               +++ str_of_exn e)])
  end.

(** [fnmatch(name, "CyberX #*.json")], case-sensitive: the name starts
    with ["CyberX #"] and what follows ends with [".json"]. *)
Definition glob_match (name : string) : bool :=
  match strip_prefix "CyberX #" name with
  | Some rest => endswith ".json" rest
  | None => false
  end.

(** [glob.glob("CyberX #*.json")] over the names in the working
    directory. *)
Definition glob (cwd : list string) : list string := filter glob_match cwd.

(** [int(f.split("#")[1].split(".")[0])]; [None] when it raises. *)
Definition number_of (f : string) : option Z :=
  match nth_error (split "#" f) 1 with
  | Some t =>
      match split "." t with
      | h :: _ => int_of_str h
      | [] => None
      end
  | None => None
  end.

(** The values a generator of [int(...)] yields, unless one raises. *)
Fixpoint numbers_of (fs : list string) : option (list Z) :=
  match fs with
  | [] => Some []
  | f :: rest =>
      match number_of f with
      | None => None
      | Some n =>
          match numbers_of rest with
          | None => None
          | Some ns => Some (n :: ns)
          end
      end
  end.

(** [max(...)]; [None] for the [ValueError] on an empty sequence. *)
Fixpoint max_of (ns : list Z) : option Z :=
  match ns with
  | [] => None
  | n :: rest =>
      match max_of rest with
      | None => Some n
      | Some m => Some (Z.max n m)
      end
  end.

(** The run number chosen at start-up; [None] when the computation
    raises, which ends the program before anything else happens. *)
Definition choose_run_number (cwd : list string) : option Z :=
  let existing_files := glob cwd in
  if is_empty existing_files then Some 1%Z
  else
    match numbers_of
            (filter (fun f => contains "#" f && contains "." f) existing_files)
    with
    | None => None
    | Some ns =>
        match max_of ns with
        | None => None
        | Some max_num => Some (max_num + 1)%Z
        end
    end.

(** The five stages inside the [try] of the driver. *)
Definition run_phases (stdin : list string) (w : World)
    : result unit * phases * World * list event :=
  let '(raw_reports, a1, w1, e1) := phase1_data_collection no_phases w in
  let '(docs, a2, w2, e2) := phase2_information_extraction raw_reports a1 w1 in
  let '((collection, embedding_model), a3, w3, e3) :=
    phase3_build_knowledge_base docs a2 w2 in
  let '(a4, e4) := phase4_rag_query_setup collection embedding_model a3 in
  let '(r, a5, w5, e5, _) :=
    phase5_cli_interface (rag_query collection embedding_model) stdin a4 w3 in
  (r, a5, w5, e1 ++ e2 ++ e3 ++ e4 ++ e5).

(** The driver: the run number, then the stages, then, in the [finally],
    the save; an exception of the stages is raised again after it. *)
Definition main (cwd : list string) (stdin : list string) (w : World)
    : result unit * World * list event :=
  match choose_run_number cwd with
  | None => (Raise (Exception "ValueError"), w, [])
  | Some n =>
      let '(r, a, w1, evs) := run_phases stdin w in
      let '(w2, evs2) := save_run_json n {| run_number := n; log_phases := a |} w1 in
      (r, w2, evs ++ evs2)
  end.

(* ---------------------------------------------------------------- *)
(** ** The loops seen from outside *)
(* ---------------------------------------------------------------- *)

(** The answers a fetch oracle gives when it is asked for every source in
    turn, whatever each answer is. *)
Fixpoint fetch_each (get : string -> World -> result page * World)
    (urls : list string) (w : World)
    : list (string * result page) * World :=
  match urls with
  | [] => ([], w)
  | u :: rest =>
      let '(r, w1) := get u w in
      let '(outs, w2) := fetch_each get rest w1 in
      ((u, r) :: outs, w2)
  end.

(** The pages a fetch oracle delivers up to the first source on which it
    raises, with that source and its exception. *)
Fixpoint fetch_until_error (get : string -> World -> result page * World)
    (urls : list string) (w : World)
    : list (string * page) * option (string * exn) * World :=
  match urls with
  | [] => ([], None, w)
  | u :: rest =>
      match get u w with
      | (Raise e, w1) => ([], Some (u, e), w1)
      | (Ok pg, w1) =>
          let '(pages, err, w2) := fetch_until_error get rest w1 in
          ((u, pg) :: pages, err, w2)
      end
  end.

(** The sources that answered, and those that did not. *)
Fixpoint collected (outs : list (string * result page)) : list (string * page) :=
  match outs with
  | [] => []
  | (u, Ok pg) :: rest => (u, pg) :: collected rest
  | (_, Raise _) :: rest => collected rest
  end.

Fixpoint failures (outs : list (string * result page)) : list failed_url :=
  match outs with
  | [] => []
  | (_, Ok _) :: rest => failures rest
  | (u, Raise e) :: rest =>
      {| failed := u; failed_error := str_of_exn e |} :: failures rest
  end.

Definition raw_of (x : string * page) : raw_report :=
  {| url := fst x; title := page_title (snd x); content := page_content (snd x) |}.

Definition report_of (x : string * page) : report :=
  {| report_url := fst x; report_title := page_title (snd x);
     content_preview := preview_of (page_content (snd x)) |}.

(** [phase1_data] with more reports and more failures appended. *)
Definition extend_phase1 (d : phase1_data) (rs : list report)
    (fs : list failed_url) : phase1_data :=
  {| p1_description := p1_description d;
     collection_method := collection_method d;
     collected_count := collected_count d;
     reports := reports d ++ rs;
     failed_urls := failed_urls d ++ fs;
     p1_error := p1_error d |}.

(** The primary path seen from outside, up to the first exception, be it
    of a generation call or of the decoding of its response: each report
    dealt with, the text it obtained and what was extracted from it. *)
Fixpoint extract_until_error (raw_reports : list raw_report) (w : World)
    : list extraction * option exn * World :=
  match raw_reports with
  | [] => ([], None, w)
  | rep :: rest =>
      match generate_content (EXTRACTION_PROMPT +++ content rep) w with
      | (Raise e, w1) => ([], Some e, w1)
      | (Ok text, w1) =>
          match extracted_json text with
          | Raise e => ([], Some e, w1)
          | Ok ti =>
              let '(done, err, w2) := extract_until_error rest w1 in
              ({| ex_report := rep; ex_text := text; ex_json := ti |} :: done,
               err, w2)
          end
      end
  end.

Definition document_of (x : extraction) : document :=
  {| doc_title := title (ex_report x);
     doc_source := url (ex_report x);
     threat_intelligence := ex_json x |}.

(** The substitute document number [n] (counted from 1). *)
Definition mock_document (x : nat * json) : document :=
  {| doc_title := "Mock Threat Report " +++ str_of_nat (fst x) +++ " (Recent 2025)";
     doc_source := "Simulated Feed";
     threat_intelligence := snd x |}.

(** The substitute documents of a list of records, numbered from
    [first]. *)
Definition mock_documents (first : nat) (mocks : list json) : list document :=
  map mock_document (combine (seq first (length mocks)) mocks).

Definition extend_phase2 (d : phase2_data) (docs : list document) : phase2_data :=
  {| p2_description := p2_description d;
     used_llm := used_llm d;
     used_mock := used_mock d;
     document_count := document_count d;
     documents := documents d ++ docs;
     p2_error := p2_error d |}.

(** Whether an event is a write of the run log, and how many there are. *)
Definition is_write (ev : event) : bool :=
  match ev with WriteFile _ _ => true | _ => false end.

Definition count_writes (evs : list event) : nat :=
  length (filter is_write evs).

(** Whether an event is a call of the retriever by the session. *)
Definition is_ask (ev : event) : bool :=
  match ev with AskRetriever _ => true | _ => false end.

(** Whether a line of input is answered by the session itself: it is a
    termination keyword or a key of the static table. *)
Definition answered_by_session (line : string) : bool :=
  let normalized := lower (strip line) in
  str_in normalized ["exit"; "quit"] || dict_mem PREDEFINED_QUESTIONS normalized.

(** The sources requested directly, and through ZenRows, in order. *)
Definition direct_requests (evs : list event) : list string :=
  flat_map (fun ev => match ev with DirectGet u => [u] | _ => [] end) evs.

Definition zenrows_requests (evs : list event) : list string :=
  flat_map (fun ev => match ev with ZenRowsGet u => [u] | _ => [] end) evs.

(** The result of a [try] body that stopped with or without an error. *)
Definition outcome_of {E : Type} (err : option E) (f : E -> exn) : result unit :=
  match err with
  | None => Ok tt
  | Some x => Raise (f x)
  end.

(** What the specification says of a preview [p] of a content [c]. *)
Definition previewed (c p : string) : Prop :=
  String.length p <= 503
  /\ ((String.length c <= 500 /\ p = c)
      \/ (500 < String.length c /\ p = slice_to 500 c +++ "...")).

(** Whether a line of input is a termination keyword once trimmed and
    lower-cased. *)
Definition is_keyword (line : string) : bool :=
  str_in (lower (strip line)) ["exit"; "quit"].

(** Whether a string is made of decimal digits only. *)
Fixpoint all_digits (s : string) : bool :=
  match s with
  | EmptyString => true
  | String c r => is_digit c && all_digits r
  end.

(** What [save_run_json] prints after the write it asked for. *)
Definition save_report (filename : string) (saved : result unit) : string :=
  match saved with
  | Ok _ => nl +++ "[JSON Log] Saved full run data to '" +++ filename +++ "'"
  | Raise e =>
      "[JSON Log Error] Failed to save " +++ filename +++ ": " +++ str_of_exn e
  end.




(* ---------------------------------------------------------------- *)
(** ** More views, for the rest of the code *)
(* ---------------------------------------------------------------- *)

(** The prompts sent to the language model, in order. *)
Definition generate_requests (evs : list event) : list string :=
  flat_map (fun ev => match ev with Generate p => [p] | _ => [] end) evs.

(** The texts given to the embedding model, in order. *)
Definition encode_requests (evs : list event) : list string :=
  flat_map (fun ev => match ev with Encode t => [t] | _ => [] end) evs.

(** The sizes asked of the vector collection, in order. *)
Definition query_requests (evs : list event) : list nat :=
  flat_map (fun ev => match ev with CollectionQuery n => [n] | _ => [] end) evs.

(** The insertions asked of the vector collection, as (identifier, text),
    in order. *)
Definition add_requests (evs : list event) : list (string * string) :=
  flat_map (fun ev => match ev with CollectionAdd i t => [(i, t)] | _ => [] end) evs.

(** The questions handed to the retriever by the session, in order. *)
Definition asked (evs : list event) : list string :=
  flat_map (fun ev => match ev with AskRetriever q => [q] | _ => [] end) evs.

(** The elements of a list kept by a mask. *)
Fixpoint select {A : Type} (mask : list bool) (l : list A) : list A :=
  match mask, l with
  | b :: mask', x :: l' => if b then x :: select mask' l' else select mask' l'
  | _, _ => []
  end.

(** Whether [", ".join(v)] returns for a decoded value. *)
Definition joinable (v : json) : bool :=
  match v with
  | JArray items =>
      forallb (fun x => match x with JString _ => true | _ => false end) items
  | JString _ => true
  | JObject _ => true
  | _ => false
  end.

(** Whether the display loop gets through a document: its
    [threat_intelligence] is not a dictionary, or each of ["aliases"],
    ["ttps"] and ["targets"] is absent from it or can be joined. *)
Definition displayable (doc : document) : bool :=
  match threat_intelligence doc with
  | JObject members =>
      forallb (fun key => match dict_get members key with
                          | Some v => joinable v
                          | None => true
                          end)
              ["aliases"; "ttps"; "targets"]
  | _ => true
  end.

(** The documents before the first one the display loop cannot get
    through. *)
Fixpoint displayed (docs : list document) : list document :=
  match docs with
  | [] => []
  | doc :: rest => if displayable doc then doc :: displayed rest else []
  end.

(** The serialisations, encodings and insertions of the indexing loop up
    to the first one that raises: how many documents were inserted. *)
Fixpoint index_until_error (idx : nat) (docs : list document)
    (model : EmbeddingModel) (coll : Collection) (w : World)
    : nat * option exn * World :=
  match docs with
  | [] => (0, None, w)
  | doc :: rest =>
      match json_dumps doc with
      | Raise e => (0, Some e, w)
      | Ok doc_str =>
      match encode model doc_str w with
      | (Raise e, w1) => (0, Some e, w1)
      | (Ok emb, w1) =>
          match collection_add coll doc_str emb (str_of_nat idx) w1 with
          | (Raise e, w2) => (0, Some e, w2)
          | (Ok _, w2) =>
              let '(k, err, w3) := index_until_error (S idx) rest model coll w2 in
              (S k, err, w3)
          end
      end
      end
  end.

(** Whether a list of strings has no repetition. *)
Fixpoint distinct (l : list string) : bool :=
  match l with
  | [] => true
  | x :: rest => negb (str_in x rest) && distinct rest
  end.

(** The text the display loop shows for a field, empty when the join
    raises. *)
Definition joined_text (ti : json) (key : string) : string :=
  match joined_field ti key with
  | Ok s => s
  | Raise _ => EmptyString
  end.

(** The summary entry of a displayable document under a number. *)
Definition entry_of (x : nat * document) : kb_entry :=
  {| entry_index := fst x;
     entry_actor := actor_field (threat_intelligence (snd x));
     entry_title := doc_title (snd x);
     entry_source := doc_source (snd x);
     entry_aliases := joined_text (threat_intelligence (snd x)) "aliases";
     entry_ttps := joined_text (threat_intelligence (snd x)) "ttps";
     entry_targets := joined_text (threat_intelligence (snd x)) "targets" |}.

(** The summary entries of a list of documents numbered from [first]. *)
Definition entries_of (first : nat) (docs : list document) : list kb_entry :=
  map entry_of (combine (seq first (length docs)) docs).

(** The serialised texts of the documents before the first one that
    [json.dumps] refuses. *)
Fixpoint dumped (docs : list document) : list string :=
  match docs with
  | [] => []
  | doc :: rest =>
      match json_dumps doc with
      | Ok doc_str => doc_str :: dumped rest
      | Raise _ => []
      end
  end.

(** The insertions that index a list of documents: identifier [str(idx)]
    and serialised text, by position from 0, as far as the documents can
    be serialised. *)
Definition insertions_of (docs : list document) : list (string * string) :=
  combine (map str_of_nat (seq 0 (length (dumped docs)))) (dumped docs).

(** The calls of the services the Retriever relies on (embedding model,
    vector collection, language model) among the events, in order. *)
Definition is_service_call (ev : event) : bool :=
  match ev with
  | Encode _ | CollectionQuery _ | Generate _ => true
  | _ => false
  end.

Definition service_calls (evs : list event) : list event :=
  filter is_service_call evs.

(** Whether a line is made of white space only. *)
Fixpoint blank (s : string) : bool :=
  match s with
  | EmptyString => true
  | String c r => isspace c && blank r
  end.

(** What the sections of phases 1 to 4 of a log say of each other. *)
Definition consistent (a : phases) : Prop :=
  exists (d1 : phase1_data) (d2 : phase2_data) (d3 : phase3_data)
         (d4 : phase4_data),
    phase1 a = Some d1
    /\ phase2 a = Some d2
    /\ phase3 a = Some d3
    /\ phase4 a = Some d4
    /\ collected_count d1 + length (failed_urls d1) = 15
    /\ document_count d2 = (if used_mock d2 then 15 else collected_count d1)
    /\ 1 <= document_count d2
    /\ total_entries d3 = document_count d2
    /\ length (entries d3) <= total_entries d3
    /\ llm_available d4 = USE_LLM
    /\ (used_llm d2 = true -> USE_LLM = true /\ 1 <= collected_count d1)
    /\ (knowledge_base_available d4 = false ->
        entries d3 = [] /\ p3_error d3 <> None).
(* ================================================================ *)
(** * Properties *)
(* ================================================================ *)

(** ** Python strings *)

Lemma length_slice_to (n : nat) (s : string) :
  String.length (slice_to n s) = Nat.min n (String.length s).
Proof.
  revert s; induction n as [|k IH]; intros [|c r]; simpl; auto.
Qed.

Lemma slice_to_all (n : nat) (s : string) :
  String.length s <= n -> slice_to n s = s.
Proof.
  revert s; induction n as [|k IH]; intros [|c r]; simpl; intros H;
    try reflexivity; try lia.
  f_equal. apply IH. lia.
Qed.

Lemma length_append (s t : string) :
  String.length (s +++ t) = String.length s + String.length t.
Proof. induction s as [|c r IH]; simpl; auto. Qed.

Lemma isspace_lower_char (c : ascii) : isspace (lower_char c) = isspace c.
Proof.
  destruct c as [[] [] [] [] [] [] [] []]; vm_compute; reflexivity.
Qed.

Lemma lower_lstrip (s : string) : lower (lstrip s) = lstrip (lower s).
Proof.
  unfold lstrip. induction s as [|c r IH]; cbn [lstrip_by lower]; auto.
  rewrite isspace_lower_char. destruct (isspace c); cbn [lower]; auto.
Qed.

Lemma lower_rstrip (s : string) : lower (rstrip s) = rstrip (lower s).
Proof.
  unfold rstrip. induction s as [|c r IH]; cbn [rstrip_by lower]; auto.
  rewrite <- IH, isspace_lower_char.
  destruct (rstrip_by isspace r); cbn [lower]; auto. destruct (isspace c); auto.
Qed.

(** Lower-casing and trimming commute: "lower-cased, trimmed" does not
    depend on the order of the two steps. *)
Lemma lower_strip (s : string) : lower (strip s) = strip (lower s).
Proof. unfold strip. now rewrite lower_rstrip, lower_lstrip. Qed.

Lemma rstrip_by_idem (p : ascii -> bool) (s : string) :
  rstrip_by p (rstrip_by p s) = rstrip_by p s.
Proof.
  induction s as [|c r IH]; cbn [rstrip_by]; auto.
  destruct (rstrip_by p r) as [|d r'] eqn:E.
  - destruct (p c) eqn:Hc; cbn [rstrip_by]; auto. now rewrite Hc.
  - cbn [rstrip_by]. cbn [rstrip_by] in IH. rewrite IH. reflexivity.
Qed.

Lemma lstrip_by_head (p : ascii -> bool) (s : string) :
  match lstrip_by p s with
  | EmptyString => True
  | String c _ => p c = false
  end.
Proof.
  induction s as [|c r IH]; cbn [lstrip_by]; auto.
  destruct (p c) eqn:E; auto.
Qed.

Lemma rstrip_by_cons (p : ascii -> bool) (c : ascii) (r : string) :
  p c = false -> exists r', rstrip_by p (String c r) = String c r'.
Proof. cbn [rstrip_by]. intros ->. destruct (rstrip_by p r); eauto. Qed.

(** Trimming twice is trimming once. *)
Lemma strip_idem (s : string) : strip (strip s) = strip s.
Proof.
  unfold strip, lstrip, rstrip.
  assert (H : lstrip_by isspace (rstrip_by isspace (lstrip_by isspace s))
              = rstrip_by isspace (lstrip_by isspace s)).
  { pose proof (lstrip_by_head isspace s) as Hh.
    destruct (lstrip_by isspace s) as [|c r]; [reflexivity|].
    destruct (rstrip_by_cons isspace c r Hh) as [r' ->].
    cbn [lstrip_by]. now rewrite Hh. }
  rewrite H. apply rstrip_by_idem.
Qed.

(* ---------------------------------------------------------------- *)
(** ** Events *)
(* ---------------------------------------------------------------- *)

Lemma count_writes_app (a b : list event) :
  count_writes (a ++ b) = count_writes a + count_writes b.
Proof. unfold count_writes. now rewrite filter_app, length_app. Qed.

Lemma count_writes_cons (ev : event) (evs : list event) :
  count_writes (ev :: evs) = (if is_write ev then 1 else 0) + count_writes evs.
Proof. unfold count_writes. simpl. destruct (is_write ev); reflexivity. Qed.

Lemma direct_requests_app (a b : list event) :
  direct_requests (a ++ b) = direct_requests a ++ direct_requests b.
Proof. apply flat_map_app. Qed.

Lemma direct_requests_cons (ev : event) (evs : list event) :
  direct_requests (ev :: evs) =
    match ev with DirectGet u => [u] | _ => [] end ++ direct_requests evs.
Proof. reflexivity. Qed.

Lemma direct_requests_nil : direct_requests [] = [].
Proof. reflexivity. Qed.

Lemma count_writes_nil : count_writes [] = 0.
Proof. reflexivity. Qed.

(** Rewriting the two observations through an event list built with
    [::] and [++]. *)
Ltac observe :=
  repeat (rewrite direct_requests_cons || rewrite direct_requests_app
          || rewrite direct_requests_nil || rewrite count_writes_cons
          || rewrite count_writes_app || rewrite count_writes_nil);
  cbn [is_write app Nat.add].

(* ---------------------------------------------------------------- *)
(** ** Phase 1 *)
(* ---------------------------------------------------------------- *)

Lemma extend_phase1_nil (d : phase1_data) : extend_phase1 d [] [] = d.
Proof. destruct d; unfold extend_phase1; simpl. now rewrite !app_nil_r. Qed.

Lemma extend_add_report (d : phase1_data) (r : report) (rs : list report)
    (fs : list failed_url) :
  extend_phase1 (add_report r d) rs fs = extend_phase1 d (r :: rs) fs.
Proof. unfold extend_phase1, add_report; simpl. now rewrite <- app_assoc. Qed.

Lemma extend_add_failed_url (d : phase1_data) (f : failed_url)
    (rs : list report) (fs : list failed_url) :
  extend_phase1 (add_failed_url f d) rs fs = extend_phase1 d rs (f :: fs).
Proof. unfold extend_phase1, add_failed_url; simpl. now rewrite <- app_assoc. Qed.

(** The fallback loop asks every source, keeps what answered and lists
    what did not; what it adds does not depend on what was there. *)
Lemma direct_loop_view (urls : list string) (raw : list raw_report)
    (d : phase1_data) (w : World) :
  exists evs,
    direct_loop urls raw d w =
      (raw ++ map raw_of (collected (fst (fetch_each direct_get urls w))),
       extend_phase1 d
         (map report_of (collected (fst (fetch_each direct_get urls w))))
         (failures (fst (fetch_each direct_get urls w))),
       snd (fetch_each direct_get urls w),
       evs)
    /\ direct_requests evs = urls
    /\ count_writes evs = 0.
Proof.
  revert raw d w. induction urls as [|u rest IH]; intros raw d w; simpl.
  - exists []. rewrite app_nil_r, extend_phase1_nil. auto.
  - destruct (direct_get u w) as [[pg|e] w1] eqn:G; simpl.
    + destruct (IH (raw ++ [{| url := u; title := page_title pg;
                               content := page_content pg |}])
                   (add_report {| report_url := u; report_title := page_title pg;
                                  content_preview := preview_of (page_content pg) |} d)
                   w1) as (evs & E & R & C).
      rewrite E. destruct (fetch_each direct_get rest w1) as [outs w2]; simpl in *.
      eexists. split; [|split].
      * rewrite <- app_assoc, extend_add_report. reflexivity.
      * simpl. now rewrite R.
      * rewrite !count_writes_cons. simpl. exact C.
    + destruct (IH raw (add_failed_url {| failed := u; failed_error := str_of_exn e |} d) w1)
        as (evs & E & R & C).
      rewrite E. destruct (fetch_each direct_get rest w1) as [outs w2]; simpl in *.
      eexists. split; [|split].
      * rewrite extend_add_failed_url. reflexivity.
      * simpl. now rewrite R.
      * rewrite !count_writes_cons. simpl. exact C.
Qed.

Lemma fetch_each_sources (get : string -> World -> result page * World)
    (urls : list string) (w : World) :
  map fst (fst (fetch_each get urls w)) = urls.
Proof.
  revert w. induction urls as [|u rest IH]; intros w; simpl; auto.
  destruct (get u w) as [r w1]. specialize (IH w1).
  destruct (fetch_each get rest w1) as [outs w2]. simpl in *. now rewrite IH.
Qed.

(** Every source asked either answered or is listed as failed. *)
Lemma collected_failures_length (outs : list (string * result page)) :
  length (collected outs) + length (failures outs) = length outs.
Proof.
  induction outs as [|[u [pg|e]] rest IH]; simpl; lia.
Qed.

(** The ZenRows loop keeps the pages that arrived before the first error
    and stops there. *)
Lemma zenrows_loop_view (urls : list string) (raw : list raw_report)
    (d : phase1_data) (w : World) :
  exists evs,
    zenrows_loop urls raw d w =
      (outcome_of (snd (fst (fetch_until_error zenrows_get urls w))) snd,
       (raw ++ map raw_of (fst (fst (fetch_until_error zenrows_get urls w))),
        extend_phase1 d
          (map report_of (fst (fst (fetch_until_error zenrows_get urls w)))) [],
        snd (fetch_until_error zenrows_get urls w),
        evs))
    /\ direct_requests evs = []
    /\ count_writes evs = 0.
Proof.
  revert raw d w. induction urls as [|u rest IH]; intros raw d w; simpl.
  - exists []. rewrite app_nil_r, extend_phase1_nil. auto.
  - destruct (zenrows_get u w) as [[pg|e] w1] eqn:G; simpl.
    + destruct (IH (raw ++ [{| url := u; title := page_title pg;
                               content := page_content pg |}])
                   (add_report {| report_url := u; report_title := page_title pg;
                                  content_preview := preview_of (page_content pg) |} d)
                   w1) as (evs & E & R & C).
      rewrite E.
      destruct (fetch_until_error zenrows_get rest w1) as [[pages err] w2]; simpl in *.
      eexists. split; [|split].
      * rewrite <- app_assoc, extend_add_report. reflexivity.
      * simpl. exact R.
      * rewrite count_writes_cons. simpl. exact C.
    + eexists. split; [|split].
      * rewrite app_nil_r, extend_phase1_nil. reflexivity.
      * reflexivity.
      * reflexivity.
Qed.

Ltac step := cbv beta iota zeta delta [negb fst snd outcome_of].

(** Phase 1 when ZenRows is not configured: the fallback pass alone. *)
Lemma phase1_direct (a : phases) (w : World) :
  use_zenrows_initially = false ->
  let outs := fst (fetch_each direct_get ARTICLE_URLS w) in
  exists evs,
    phase1_data_collection a w =
      (map raw_of (collected outs),
       set_phase1
         {| p1_description := "Raw collected reports (title, url, content preview)";
            collection_method := "Regular Scraping (requests + BS4)";
            collected_count := length (collected outs);
            reports := map report_of (collected outs);
            failed_urls := failures outs;
            p1_error := None |} a,
       snd (fetch_each direct_get ARTICLE_URLS w),
       evs)
    /\ direct_requests evs = ARTICLE_URLS
    /\ count_writes evs = 0.
Proof.
  intros U outs.
  unfold phase1_data_collection, zenrows_branch, fallback_branch.
  rewrite U. step.
  destruct (direct_loop_view ARTICLE_URLS []
              (set_collection_method "Regular Scraping (requests + BS4)" phase1_initial) w)
    as (evs & E & R & C).
  rewrite E. step. fold outs.
  eexists. split; [|split].
  - unfold set_collected_count, extend_phase1, set_collection_method, phase1_initial.
    cbn [p1_description collection_method collected_count reports failed_urls
         p1_error app]. rewrite length_map. reflexivity.
  - observe. rewrite R. now rewrite app_nil_r.
  - observe. rewrite C. reflexivity.
Qed.

(** Phase 1 when the ZenRows pass completes: no fallback pass at all. *)
Lemma phase1_zenrows_complete (a : phases) (w : World)
    (pages : list (string * page)) (w1 : World) :
  use_zenrows_initially = true ->
  fetch_until_error zenrows_get ARTICLE_URLS w = (pages, None, w1) ->
  exists evs,
    phase1_data_collection a w =
      (map raw_of pages,
       set_phase1
         {| p1_description := "Raw collected reports (title, url, content preview)";
            collection_method := "ZenRows API";
            collected_count := length pages;
            reports := map report_of pages;
            failed_urls := [];
            p1_error := None |} a,
       w1, evs)
    /\ direct_requests evs = []
    /\ count_writes evs = 0.
Proof.
  intros U F.
  unfold phase1_data_collection, zenrows_branch, fallback_branch.
  rewrite U.
  destruct (zenrows_loop_view ARTICLE_URLS []
              (set_collection_method "ZenRows API" phase1_initial) w)
    as (evs & E & R & C).
  rewrite E, F. step.
  eexists. split; [|split].
  - unfold set_collected_count, extend_phase1, set_collection_method, phase1_initial.
    cbn [p1_description collection_method collected_count reports failed_urls
         p1_error app]. rewrite length_map. reflexivity.
  - observe. rewrite R. reflexivity.
  - observe. rewrite C. reflexivity.
Qed.

(** Phase 1 when the ZenRows pass raises: the local list is reset, the
    log keeps what the pass had recorded, and the fallback pass runs over
    every source from the world the failure left. *)
Lemma phase1_zenrows_failed (a : phases) (w : World)
    (pages : list (string * page)) (u : string) (e : exn) (w1 : World) :
  use_zenrows_initially = true ->
  fetch_until_error zenrows_get ARTICLE_URLS w = (pages, Some (u, e), w1) ->
  let outs := fst (fetch_each direct_get ARTICLE_URLS w1) in
  exists evs,
    phase1_data_collection a w =
      (map raw_of (collected outs),
       set_phase1
         {| p1_description := "Raw collected reports (title, url, content preview)";
            collection_method := "Regular Scraping (requests + BS4)";
            collected_count := length (collected outs);
            reports := map report_of pages ++ map report_of (collected outs);
            failed_urls := failures outs;
            p1_error := Some (str_of_exn e) |} a,
       snd (fetch_each direct_get ARTICLE_URLS w1),
       evs)
    /\ direct_requests evs = ARTICLE_URLS
    /\ count_writes evs = 0.
Proof.
  intros U F outs.
  unfold phase1_data_collection, zenrows_branch, fallback_branch.
  rewrite U.
  destruct (zenrows_loop_view ARTICLE_URLS []
              (set_collection_method "ZenRows API" phase1_initial) w)
    as (evs0 & E0 & R0 & C0).
  rewrite E0, F. step.
  match goal with
  | |- context [direct_loop ARTICLE_URLS [] ?d w1] =>
      destruct (direct_loop_view ARTICLE_URLS [] d w1) as (evs & E & R & C)
  end.
  rewrite E. step. fold outs.
  eexists. split; [|split].
  - unfold set_collected_count, extend_phase1, set_collection_method, set_p1_error,
      phase1_initial.
    cbn [p1_description collection_method collected_count reports failed_urls
         p1_error app]. rewrite length_map. reflexivity.
  - observe. rewrite R0, R. cbn [app]. now rewrite app_nil_r.
  - observe. rewrite C0, C. reflexivity.
Qed.

(** Whatever the path, phase 1 returns the documents of some pages,
    counts them, and logs their reports after the reports (if any) a
    failed ZenRows pass left behind. *)
Lemma phase1_cases (a : phases) (w : World) :
  exists (before pages : list (string * page)) (method : string)
         (fails : list failed_url) (err : option string) (w' : World)
         (evs : list event),
    phase1_data_collection a w =
      (map raw_of pages,
       set_phase1
         {| p1_description := "Raw collected reports (title, url, content preview)";
            collection_method := method;
            collected_count := length pages;
            reports := map report_of before ++ map report_of pages;
            failed_urls := fails;
            p1_error := err |} a,
       w', evs)
    /\ count_writes evs = 0.
Proof.
  destruct use_zenrows_initially eqn:U.
  - destruct (fetch_until_error zenrows_get ARTICLE_URLS w) as [[pages [[u e]|]] w1] eqn:F.
    + destruct (phase1_zenrows_failed a w pages u e w1 U F) as (evs & E & _ & C).
      exists pages. do 6 eexists. split; [exact E | exact C].
    + destruct (phase1_zenrows_complete a w pages w1 U F) as (evs & E & _ & C).
      exists []. do 6 eexists. split; [exact E | exact C].
  - destruct (phase1_direct a w U) as (evs & E & _ & C).
    exists []. do 6 eexists. split; [exact E | exact C].
Qed.

Lemma page_content_bounded (pg : page) :
  String.length (page_content pg) <= 10000.
Proof. unfold page_content. rewrite length_slice_to. apply Nat.le_min_l. Qed.

Lemma preview_of_previewed (c : string) : previewed c (preview_of c).
Proof.
  unfold previewed, preview_of.
  destruct (500 <? String.length c) eqn:L.
  - apply Nat.ltb_lt in L. split.
    + rewrite length_append, length_slice_to. simpl String.length.
      rewrite Nat.min_l by lia. lia.
    + right. auto.
  - apply Nat.ltb_ge in L. split; [lia|]. left. auto.
Qed.

(** C6. Every RawDocument content produced by either collection path has
    at most 10,000 characters, and every logged [content_preview] has at
    most 503: it is the content itself when that has at most 500
    characters, and its first 500 characters followed by ["..."]
    otherwise. *)
Theorem collected_content_bounded :
  (forall pg : page,
      String.length (page_content pg) <= 10000
      /\ previewed (page_content pg) (preview_of (page_content pg)))
  /\ (forall (a : phases) (w : World) (raw_reports : list raw_report)
             (a' : phases) (w' : World) (evs : list event),
         phase1_data_collection a w = (raw_reports, a', w', evs) ->
         Forall (fun r => String.length (content r) <= 10000) raw_reports
         /\ exists d : phase1_data,
             phase1 a' = Some d
             /\ Forall (fun rep => exists c,
                            String.length c <= 10000
                            /\ previewed c (content_preview rep)) (reports d)
             /\ Forall (fun r => exists rep,
                            In rep (reports d)
                            /\ report_url rep = url r
                            /\ content_preview rep = preview_of (content r))
                       raw_reports).
Proof.
  split.
  - intros pg. split; [apply page_content_bounded | apply preview_of_previewed].
  - intros a w raw a' w' evs H.
    destruct (phase1_cases a w)
      as (before & pages & method & fails & err & w1 & evs1 & E & _).
    rewrite E in H. inversion H; subst; clear H. split.
    + apply Forall_forall. intros r Hr. apply in_map_iff in Hr.
      destruct Hr as (x & <- & _). apply page_content_bounded.
    + eexists. split; [reflexivity|]. cbn [reports]. split.
      * apply Forall_forall. intros rep Hr. apply in_app_or in Hr.
        assert (Hx : exists x, report_of x = rep).
        { destruct Hr as [Hr|Hr]; apply in_map_iff in Hr;
            destruct Hr as (x & Hx & _); eauto. }
        destruct Hx as (x & <-). exists (page_content (snd x)).
        split; [apply page_content_bounded | apply preview_of_previewed].
      * apply Forall_forall. intros r Hr. apply in_map_iff in Hr.
        destruct Hr as (x & <- & Hx). exists (report_of x).
        split; [|split; reflexivity].
        apply in_or_app. right. now apply in_map.
Qed.

Lemma failures_listed (outs : list (string * result page)) (u : string) (e : exn) :
  In (u, Raise e) outs ->
  In {| failed := u; failed_error := str_of_exn e |} (failures outs).
Proof.
  induction outs as [|[u' [pg|e']] rest IH]; simpl; intros H; auto.
  - destruct H as [H|H]; [discriminate | auto].
  - destruct H as [H|H]; [inversion H; subst; auto | auto].
Qed.

(** C3. When the ZenRows pass raises on a source, nothing it had
    collected is returned: the returned documents are those of the
    fallback pass, which asks every source of the fixed list again; and
    in the fallback pass a source that fails only adds [{url, error}] to
    [failed_urls], after which the pass goes on with the remaining
    sources. *)
Theorem primary_failure_full_fallback :
  (forall (a : phases) (w : World) (pages : list (string * page))
          (u : string) (e : exn) (w1 : World)
          (raw_reports : list raw_report) (a' : phases) (w' : World)
          (evs : list event),
      use_zenrows_initially = true ->
      fetch_until_error zenrows_get ARTICLE_URLS w = (pages, Some (u, e), w1) ->
      phase1_data_collection a w = (raw_reports, a', w', evs) ->
      let outs := fst (fetch_each direct_get ARTICLE_URLS w1) in
      raw_reports = map raw_of (collected outs)
      /\ map fst outs = ARTICLE_URLS
      /\ direct_requests evs = ARTICLE_URLS
      /\ exists d : phase1_data,
          phase1 a' = Some d
          /\ collection_method d = "Regular Scraping (requests + BS4)"
          /\ failed_urls d = failures outs
          /\ length raw_reports + length (failed_urls d) = length ARTICLE_URLS)
  /\ (forall (u : string) (rest : list string) (raw : list raw_report)
             (d : phase1_data) (w : World) (e : exn) (w1 : World),
         direct_get u w = (Raise e, w1) ->
         direct_loop (u :: rest) raw d w =
           let '(raw2, d2, w2, evs) :=
             direct_loop rest raw
               (add_failed_url {| failed := u; failed_error := str_of_exn e |} d) w1 in
           (raw2, d2, w2,
            DirectGet u
              :: Print ("[Phase 1 Warning] Failed to scrape " +++ u +++ ": "
                        +++ str_of_exn e)
              :: evs))
  /\ (forall (urls : list string) (raw : list raw_report) (d : phase1_data)
             (w : World) (raw2 : list raw_report) (d2 : phase1_data)
             (w2 : World) (evs : list event),
         direct_loop urls raw d w = (raw2, d2, w2, evs) ->
         let outs := fst (fetch_each direct_get urls w) in
         map fst outs = urls
         /\ direct_requests evs = urls
         /\ raw2 = raw ++ map raw_of (collected outs)
         /\ failed_urls d2 = failed_urls d ++ failures outs
         /\ length (collected outs) + length (failures outs) = length urls
         /\ (forall x e, In (x, Raise e) outs ->
               In {| failed := x; failed_error := str_of_exn e |} (failed_urls d2))).
Proof.
  split; [|split].
  - intros a w pages u e w1 raw a' w' evs U F H outs.
    destruct (phase1_zenrows_failed a w pages u e w1 U F) as (evs1 & E & R & _).
    fold outs in E. rewrite E in H. inversion H; subst; clear H.
    pose proof (fetch_each_sources direct_get ARTICLE_URLS w1) as S. fold outs in S.
    repeat split; auto.
    eexists. split; [reflexivity|]. cbn [collection_method failed_urls].
    repeat split. rewrite length_map, collected_failures_length.
    now rewrite <- (length_map fst outs), S.
  - intros u rest raw d w e w1 G. cbn [direct_loop]. rewrite G. reflexivity.
  - intros urls raw d w raw2 d2 w2 evs H outs.
    destruct (direct_loop_view urls raw d w) as (evs1 & E & R & _).
    fold outs in E. rewrite E in H. injection H as <- <- <- <-.
    pose proof (fetch_each_sources direct_get urls w) as S. fold outs in S.
    cbn [failed_urls extend_phase1]. repeat split; auto.
    + rewrite collected_failures_length. now rewrite <- (length_map fst outs), S.
    + intros x e Hin. apply in_or_app. right. now apply failures_listed.
Qed.

Lemma In_nth_error_lt {A : Type} (l : list A) (x : A) :
  In x l -> exists i, i < length l /\ nth_error l i = Some x.
Proof.
  intros H. destruct (In_nth_error l x H) as [i Hi]. exists i. split; auto.
  apply nth_error_Some. congruence.
Qed.

(** C9. [collected_count] always equals the number of raw documents
    returned; but the [reports] list of the log is not cleared when the
    ZenRows pass fails: it keeps the entries that pass had logged, and
    the fallback pass appends its own after them, so the list can be
    longer than [collected_count] and can hold two entries for one URL. *)
Theorem reports_log_outlives_fallback
    (a : phases) (w : World) (raw_reports : list raw_report)
    (a' : phases) (w' : World) (evs : list event) :
  phase1_data_collection a w = (raw_reports, a', w', evs) ->
  exists d : phase1_data,
    phase1 a' = Some d
    /\ collected_count d = length raw_reports
    /\ forall (pages : list (string * page)) (u : string) (e : exn) (w1 : World),
        use_zenrows_initially = true ->
        fetch_until_error zenrows_get ARTICLE_URLS w = (pages, Some (u, e), w1) ->
        let outs := fst (fetch_each direct_get ARTICLE_URLS w1) in
        reports d = map report_of pages ++ map report_of (collected outs)
        /\ raw_reports = map raw_of (collected outs)
        /\ length (reports d) = length pages + collected_count d
        /\ (pages <> [] -> collected_count d < length (reports d))
        /\ (forall (x : string) (pg pg' : page),
               In (x, pg) pages -> In (x, pg') (collected outs) ->
               exists (i j : nat) (r1 r2 : report),
                 i < j
                 /\ nth_error (reports d) i = Some r1
                 /\ nth_error (reports d) j = Some r2
                 /\ report_url r1 = x /\ report_url r2 = x).
Proof.
  intros H.
  destruct use_zenrows_initially eqn:U.
  - destruct (fetch_until_error zenrows_get ARTICLE_URLS w)
      as [[pages0 [[u0 e0]|]] w0] eqn:F.
    + destruct (phase1_zenrows_failed a w pages0 u0 e0 w0 U F) as (evs2 & E & _).
      remember (fetch_each direct_get ARTICLE_URLS w0) as fe eqn:FE.
      rewrite E in H. injection H as <- <- <- <-.
      eexists. split; [reflexivity|]. cbn [collected_count reports]. split.
      * now rewrite length_map.
      * intros pages u e w1 _ F'. injection F' as <- <- <- <-. rewrite <- FE.
        split; [reflexivity|]. split; [reflexivity|]. split; [|split].
        -- rewrite length_app, !length_map. lia.
        -- intros Hne. rewrite length_app, !length_map.
           destruct pages0; [congruence | simpl; lia].
        -- intros x pg pg' H1 H2.
           destruct (In_nth_error_lt _ _ H1) as (i & Li & Ni).
           destruct (In_nth_error_lt _ _ H2) as (j & Lj & Nj).
           exists i, (length pages0 + j), (report_of (x, pg)), (report_of (x, pg')).
           split; [lia|]. split; [|split; [|split; reflexivity]].
           ++ rewrite nth_error_app1 by (rewrite length_map; exact Li).
              now rewrite nth_error_map, Ni.
           ++ rewrite nth_error_app2 by (rewrite length_map; lia).
              rewrite length_map.
              replace (length pages0 + j - length pages0) with j by lia.
              now rewrite nth_error_map, Nj.
    + destruct (phase1_zenrows_complete a w pages0 w0 U F) as (evs2 & E & _).
      rewrite E in H. injection H as <- <- <- <-.
      eexists. split; [reflexivity|]. cbn [collected_count]. split.
      * now rewrite length_map.
      * intros pages u e w1 _ F'. discriminate F'.
  - destruct (phase1_direct a w U) as (evs2 & E & _).
    remember (fetch_each direct_get ARTICLE_URLS w) as fe eqn:FE.
    rewrite E in H. injection H as <- <- <- <-.
    eexists. split; [reflexivity|]. cbn [collected_count]. split.
    + now rewrite length_map.
    + intros pages u e w1 U'. discriminate U'.
Qed.

(* ---------------------------------------------------------------- *)
(** ** Phase 2 *)
(* ---------------------------------------------------------------- *)

Lemma extend_phase2_nil (d : phase2_data) : extend_phase2 d [] = d.
Proof. destruct d; unfold extend_phase2; simpl. now rewrite app_nil_r. Qed.

Lemma extend_add_document (d : phase2_data) (doc : document)
    (docs : list document) :
  extend_phase2 (add_document doc d) docs = extend_phase2 d (doc :: docs).
Proof. unfold extend_phase2, add_document; simpl. now rewrite <- app_assoc. Qed.

(** The extraction loop turns every text it obtained into a document, in
    both lists, and stops at the first exception. *)
Lemma extract_loop_view (raw : list raw_report) (docs : list document)
    (d : phase2_data) (w : World) :
  exists evs,
    extract_loop raw docs d w =
      (outcome_of (snd (fst (extract_until_error raw w))) (fun e => e),
       (docs ++ map document_of (fst (fst (extract_until_error raw w))),
        extend_phase2 d (map document_of (fst (fst (extract_until_error raw w)))),
        snd (extract_until_error raw w),
        evs))
    /\ count_writes evs = 0.
Proof.
  revert docs d w. induction raw as [|rep rest IH]; intros docs d w;
    cbn [extract_loop extract_until_error].
  - exists []. cbn [fst snd map outcome_of].
    rewrite app_nil_r, extend_phase2_nil. auto.
  - destruct (generate_content (EXTRACTION_PROMPT +++ content rep) w)
      as [[text|e] w1] eqn:G.
    + destruct (extracted_json text) as [ti|e] eqn:X.
      * match goal with
        | |- context [extract_loop rest ?ds ?dd w1] =>
            destruct (IH ds dd w1) as (evs & E & C)
        end.
        rewrite E.
        destruct (extract_until_error rest w1) as [[done err] w2].
        cbn [fst snd map]. eexists. split.
        -- rewrite <- app_assoc, extend_add_document. reflexivity.
        -- observe. exact C.
      * cbn [fst snd map outcome_of]. eexists. split.
        -- rewrite app_nil_r, extend_phase2_nil. reflexivity.
        -- reflexivity.
    + cbn [fst snd map outcome_of]. eexists. split.
      * rewrite app_nil_r, extend_phase2_nil. reflexivity.
      * reflexivity.
Qed.

Lemma extract_until_error_complete (raw : list raw_report) (w : World)
    (done : list extraction) (w1 : World) :
  extract_until_error raw w = (done, None, w1) -> map ex_report done = raw.
Proof.
  revert w done. induction raw as [|rep rest IH]; intros w done;
    cbn [extract_until_error].
  - intros H. now inversion H.
  - destruct (generate_content (EXTRACTION_PROMPT +++ content rep) w)
      as [[text|e] w2]; [|discriminate].
    destruct (extracted_json text) as [ti|e]; [|discriminate].
    destruct (extract_until_error rest w2) as [[done' err] w3] eqn:G.
    intros H. inversion H; subst. cbn [map ex_report]. f_equal. eapply IH. exact G.
Qed.

(** What the primary path got through is a prefix of the reports, and
    each value comes from its text. *)
Lemma extract_until_error_done (raw : list raw_report) (w : World)
    (done : list extraction) (err : option exn) (w1 : World) :
  extract_until_error raw w = (done, err, w1) ->
  map ex_report done = firstn (length done) raw
  /\ length done <= length raw
  /\ Forall (fun x => extracted_json (ex_text x) = Ok (ex_json x)) done.
Proof.
  revert w done err w1. induction raw as [|rep rest IH]; intros w done err w1;
    cbn [extract_until_error].
  - intros H. injection H as <- <- <-. cbn. auto.
  - destruct (generate_content (EXTRACTION_PROMPT +++ content rep) w)
      as [[text|e] w2].
    + destruct (extracted_json text) as [ti|e] eqn:X.
      * destruct (extract_until_error rest w2) as [[done' err'] w3] eqn:G.
        intros H. injection H as <- <- <-.
        destruct (IH _ _ _ _ G) as (P & L & F).
        cbn [map length firstn ex_report]. split; [now rewrite P|].
        split; [lia|]. constructor; [exact X | exact F].
      * intros H. injection H as <- <- <-. cbn. split; [reflexivity|].
        split; [lia | constructor].
    + intros H. injection H as <- <- <-. cbn. split; [reflexivity|].
      split; [lia | constructor].
Qed.

(** Where the primary path stops: at a generation call that raises, or
    at a response on which [json.loads] raises something else than
    [json.JSONDecodeError]. *)
Lemma extract_until_error_stops (raw : list raw_report) (w : World)
    (done : list extraction) (e : exn) (w1 : World) :
  extract_until_error raw w = (done, Some e, w1) ->
  exists (rep : raw_report) (rest : list raw_report) (w0 : World),
    raw = map ex_report done ++ rep :: rest
    /\ (generate_content (EXTRACTION_PROMPT +++ content rep) w0 = (Raise e, w1)
        \/ exists text : string,
             generate_content (EXTRACTION_PROMPT +++ content rep) w0
             = (Ok text, w1)
             /\ json_loads (strip text) = DecodeRaise e).
Proof.
  revert w done. induction raw as [|rep rest IH]; intros w done;
    cbn [extract_until_error].
  - discriminate.
  - destruct (generate_content (EXTRACTION_PROMPT +++ content rep) w)
      as [[text|e0] w2] eqn:G.
    + destruct (extracted_json text) as [ti|e0] eqn:X.
      * destruct (extract_until_error rest w2) as [[done' err'] w3] eqn:G'.
        intros H. injection H as <- -> ->.
        destruct (IH _ _ G') as (rep' & rest' & w0 & R & T).
        exists rep', rest', w0. cbn [map app ex_report]. now rewrite R.
      * intros H. injection H as <- <- <-.
        exists rep, rest, w. split; [reflexivity|]. right. exists text.
        split; [exact G|]. unfold extracted_json in X.
        destruct (json_loads (strip text)); congruence.
    + intros H. injection H as <- <- <-.
      exists rep, rest, w. split; [reflexivity|]. left. exact G.
Qed.

(** The substitute loop appends the numbered substitute documents to both
    lists. *)
Lemma mock_loop_view (idx : nat) (mocks : list json) (docs : list document)
    (d : phase2_data) :
  mock_loop idx mocks docs d =
    (docs ++ mock_documents (idx + 1) mocks,
     extend_phase2 d (mock_documents (idx + 1) mocks)).
Proof.
  revert idx docs d. induction mocks as [|m rest IH]; intros idx docs d;
    cbn [mock_loop].
  - unfold mock_documents. cbn [length seq combine map].
    now rewrite app_nil_r, extend_phase2_nil.
  - rewrite IH. unfold mock_documents.
    cbn [length seq combine map]. rewrite <- app_assoc, extend_add_document.
    reflexivity.
Qed.

Lemma nth_error_mock_documents (first : nat) (mocks : list json) (i : nat) :
  nth_error (mock_documents first mocks) i =
    option_map (fun m => mock_document (first + i, m)) (nth_error mocks i).
Proof.
  revert first i. unfold mock_documents.
  induction mocks as [|m rest IH]; intros first [|i]; cbn [length seq combine map nth_error option_map];
    try reflexivity.
  - now rewrite Nat.add_0_r.
  - rewrite IH. now rewrite Nat.add_succ_r.
Qed.

Lemma length_mock_documents (first : nat) (mocks : list json) :
  length (mock_documents first mocks) = length mocks.
Proof.
  unfold mock_documents. rewrite length_map, length_combine, length_seq.
  apply Nat.min_id.
Qed.

Lemma length_MOCK_THREAT_INTEL_LIST : length MOCK_THREAT_INTEL_LIST = 15.
Proof. reflexivity. Qed.

Lemma is_empty_false {A : Type} (l : list A) : l <> [] -> is_empty l = false.
Proof. destruct l; [congruence | reflexivity]. Qed.

(** Phase 2 when the flag is off or nothing was collected. *)
Lemma phase2_disabled (raw : list raw_report) (a : phases) (w : World) :
  USE_LLM = false \/ raw = [] ->
  exists evs,
    phase2_information_extraction raw a w =
      (mock_documents 1 MOCK_THREAT_INTEL_LIST,
       set_phase2
         {| p2_description := "Extracted structured threat intelligence documents";
            used_llm := false;
            used_mock := true;
            document_count := 15;
            documents := mock_documents 1 MOCK_THREAT_INTEL_LIST;
            p2_error := None |} a,
       w, evs)
    /\ count_writes evs = 0.
Proof.
  intros H.
  assert (G : USE_LLM && negb (is_empty raw) = false).
  { destruct H as [-> | ->]; [reflexivity | apply andb_false_r]. }
  unfold phase2_information_extraction, extraction_try, mock_block.
  rewrite G. step. cbn [orb]. rewrite mock_loop_view. step. cbn [Nat.add app].
  eexists. split.
  - unfold set_document_count, extend_phase2, set_used_mock, phase2_initial.
    cbn [p2_description used_llm used_mock document_count documents p2_error app].
    rewrite length_mock_documents, length_MOCK_THREAT_INTEL_LIST. reflexivity.
  - observe. reflexivity.
Qed.

(** Phase 2 when the primary path raises partway: the local list is
    cleared, the log is not. *)
Lemma phase2_failed (raw : list raw_report) (a : phases) (w : World)
    (done : list extraction) (e : exn) (w1 : World) :
  USE_LLM = true -> raw <> [] ->
  extract_until_error raw w = (done, Some e, w1) ->
  exists evs,
    phase2_information_extraction raw a w =
      (mock_documents 1 MOCK_THREAT_INTEL_LIST,
       set_phase2
         {| p2_description := "Extracted structured threat intelligence documents";
            used_llm := true;
            used_mock := true;
            document_count := 15;
            documents := map document_of done
                         ++ mock_documents 1 MOCK_THREAT_INTEL_LIST;
            p2_error := Some (str_of_exn e) |} a,
       w1, evs)
    /\ count_writes evs = 0.
Proof.
  intros L N G.
  unfold phase2_information_extraction, extraction_try, mock_block.
  rewrite L, (is_empty_false raw N). cbn [andb negb].
  match goal with
  | |- context [extract_loop raw [] ?d w] =>
      destruct (extract_loop_view raw [] d w) as (evs & E & C)
  end.
  rewrite E, G. step. cbn [orb]. rewrite mock_loop_view. step. cbn [Nat.add app].
  eexists. split.
  - unfold set_document_count, extend_phase2, set_used_mock, set_p2_error,
      set_used_llm, phase2_initial.
    cbn [p2_description used_llm used_mock document_count documents p2_error app].
    rewrite length_mock_documents, length_MOCK_THREAT_INTEL_LIST. reflexivity.
  - observe. rewrite C. reflexivity.
Qed.

(** Phase 2 when the primary path completes. *)
Lemma phase2_complete (raw : list raw_report) (a : phases) (w : World)
    (done : list extraction) (w1 : World) :
  USE_LLM = true -> raw <> [] ->
  extract_until_error raw w = (done, None, w1) ->
  exists evs,
    phase2_information_extraction raw a w =
      (map document_of done,
       set_phase2
         {| p2_description := "Extracted structured threat intelligence documents";
            used_llm := true;
            used_mock := false;
            document_count := length done;
            documents := map document_of done;
            p2_error := None |} a,
       w1, evs)
    /\ count_writes evs = 0.
Proof.
  intros L N G.
  pose proof (extract_until_error_complete raw w done w1 G) as M.
  assert (Nd : is_empty (map document_of done) = false).
  { apply is_empty_false. intros Hd. apply N. rewrite <- M.
    destruct done; [reflexivity | discriminate]. }
  unfold phase2_information_extraction, extraction_try, mock_block.
  rewrite L, (is_empty_false raw N). cbn [andb negb].
  match goal with
  | |- context [extract_loop raw [] ?d w] =>
      destruct (extract_loop_view raw [] d w) as (evs & E & C)
  end.
  rewrite E, G. step. cbn [orb app]. rewrite Nd. step.
  eexists. split.
  - unfold set_document_count, extend_phase2, set_used_llm, phase2_initial.
    rewrite L, (is_empty_false raw N).
    cbn [p2_description used_llm used_mock document_count documents p2_error app
         orb negb].
    rewrite length_map. reflexivity.
  - observe. rewrite C. reflexivity.
Qed.

(** The substitute documents, one by one. *)
Lemma substitute_documents (i : nat) :
  i < 15 ->
  exists doc : document,
    nth_error (mock_documents 1 MOCK_THREAT_INTEL_LIST) i = Some doc
    /\ doc_title doc =
         "Mock Threat Report " +++ str_of_nat (i + 1) +++ " (Recent 2025)"
    /\ doc_source doc = "Simulated Feed"
    /\ nth_error MOCK_THREAT_INTEL_LIST i = Some (threat_intelligence doc).
Proof.
  intros Hi. rewrite nth_error_mock_documents.
  destruct (nth_error MOCK_THREAT_INTEL_LIST i) as [m|] eqn:N.
  - eexists. split; [reflexivity|]. cbn [mock_document fst snd doc_title doc_source
                                          threat_intelligence].
    rewrite (Nat.add_comm 1 i). auto.
  - apply nth_error_None in N. rewrite length_MOCK_THREAT_INTEL_LIST in N. lia.
Qed.

(** C4 (amended). When the language-model path completes, the Extractor
    returns one document per RawDocument. On any substitute trigger (flag
    off, nothing collected, or an error partway) whatever had been
    extracted is dropped from the returned sequence, which is exactly the
    15 substitute documents, one per built-in record, number N being
    titled ["Mock Threat Report N (Recent 2025)"] with source
    ["Simulated Feed"]. An error partway is a generation call that raises
    or a response on which [json.loads] raises something else than
    [json.JSONDecodeError]. *)
Theorem extraction_all_or_nothing
    (raw_reports : list raw_report) (a : phases) (w : World)
    (docs : list document) (a' : phases) (w' : World) (evs : list event) :
  phase2_information_extraction raw_reports a w = (docs, a', w', evs) ->
  (forall (done : list extraction) (w1 : World),
      USE_LLM = true -> raw_reports <> [] ->
      extract_until_error raw_reports w = (done, None, w1) ->
      docs = map document_of done
      /\ length docs = length raw_reports)
  /\ (USE_LLM = false \/ raw_reports = []
      \/ (exists done e w1,
             extract_until_error raw_reports w = (done, Some e, w1)) ->
      docs = mock_documents 1 MOCK_THREAT_INTEL_LIST
      /\ length docs = 15
      /\ forall i : nat, i < 15 ->
           exists doc : document,
             nth_error docs i = Some doc
             /\ doc_title doc =
                  "Mock Threat Report " +++ str_of_nat (i + 1) +++ " (Recent 2025)"
             /\ doc_source doc = "Simulated Feed"
             /\ nth_error MOCK_THREAT_INTEL_LIST i = Some (threat_intelligence doc))
  /\ (forall (done : list extraction) (e : exn) (w1 : World),
         extract_until_error raw_reports w = (done, Some e, w1) ->
         exists (rep : raw_report) (rest : list raw_report) (w0 : World),
           raw_reports = map ex_report done ++ rep :: rest
           /\ (generate_content (EXTRACTION_PROMPT +++ content rep) w0
               = (Raise e, w1)
               \/ exists text : string,
                    generate_content (EXTRACTION_PROMPT +++ content rep) w0
                    = (Ok text, w1)
                    /\ json_loads (strip text) = DecodeRaise e)).
Proof.
  intros H. split; [|split].
  - intros done w1 L N G.
    destruct (phase2_complete raw_reports a w done w1 L N G) as (evs1 & E & _).
    rewrite E in H. injection H as <- <- <- <-. split; [reflexivity|].
    rewrite length_map, <- (length_map ex_report done).
    now rewrite (extract_until_error_complete raw_reports w done w1 G).
  - intros T.
    assert (D : docs = mock_documents 1 MOCK_THREAT_INTEL_LIST).
    { destruct USE_LLM eqn:L.
      - destruct raw_reports as [|r0 rest] eqn:R.
        + destruct (phase2_disabled [] a w (or_intror eq_refl)) as (evs1 & E & _).
          rewrite E in H. now injection H as <- <- <- <-.
        + destruct T as [T | [T | (done & e & w1 & G)]]; try discriminate.
          assert (N : r0 :: rest <> []) by discriminate.
          destruct (phase2_failed (r0 :: rest) a w done e w1 L N G) as (evs1 & E & _).
          rewrite E in H. now injection H as <- <- <- <-.
      - destruct (phase2_disabled raw_reports a w (or_introl L)) as (evs1 & E & _).
        rewrite E in H. now injection H as <- <- <- <-. }
    rewrite D. split; [reflexivity|]. split.
    + now rewrite length_mock_documents.
    + apply substitute_documents.
  - intros done e w1 G. exact (extract_until_error_stops _ _ _ _ _ G).
Qed.

(** C5 (amended). A response on which [json.loads] raises
    [json.JSONDecodeError] does not lose its document: the document
    carries [{raw: <the trimmed text>, note: "JSON parse failed"}], so the
    language-model path returns one document per RawDocument when every
    response is decoded or refused in that way. A response on which
    [json.loads] raises another exception is not wrapped: the exception
    leaves the inner [try], ends the language-model path, and the 15
    substitute documents are returned with the exception text logged. *)
Theorem malformed_response_is_wrapped :
  (forall text : string,
      json_loads (strip text) = JSONDecodeError ->
      extracted_json text =
        Ok (JObject [("raw", JString (strip text));
                     ("note", JString "JSON parse failed")]))
  /\ (forall (text : string) (e : exn),
         json_loads (strip text) = DecodeRaise e ->
         extracted_json text = Raise e)
  /\ (forall (raw_reports : list raw_report) (a : phases) (w : World)
             (done : list extraction) (w1 : World)
             (docs : list document) (a' : phases) (w' : World)
             (evs : list event),
         USE_LLM = true -> raw_reports <> [] ->
         extract_until_error raw_reports w = (done, None, w1) ->
         phase2_information_extraction raw_reports a w = (docs, a', w', evs) ->
         length docs = length raw_reports
         /\ forall (i : nat) (rep : raw_report),
             nth_error raw_reports i = Some rep ->
             exists (x : extraction) (doc : document),
               nth_error done i = Some x
               /\ ex_report x = rep
               /\ nth_error docs i = Some doc
               /\ doc_title doc = title rep
               /\ doc_source doc = url rep
               /\ extracted_json (ex_text x) = Ok (threat_intelligence doc))
  /\ (forall (rep : raw_report) (rest : list raw_report) (a : phases)
             (w : World) (text : string) (w1 : World) (e : exn)
             (docs : list document) (a' : phases) (w' : World)
             (evs : list event),
         USE_LLM = true ->
         generate_content (EXTRACTION_PROMPT +++ content rep) w = (Ok text, w1) ->
         json_loads (strip text) = DecodeRaise e ->
         phase2_information_extraction (rep :: rest) a w = (docs, a', w', evs) ->
         docs = mock_documents 1 MOCK_THREAT_INTEL_LIST
         /\ exists d : phase2_data,
             phase2 a' = Some d
             /\ documents d = mock_documents 1 MOCK_THREAT_INTEL_LIST
             /\ p2_error d = Some (str_of_exn e)).
Proof.
  split; [|split; [|split]].
  - intros text P. unfold extracted_json. now rewrite P.
  - intros text e P. unfold extracted_json. now rewrite P.
  - intros raw a w done w1 docs a' w' evs L N G H.
    destruct (phase2_complete raw a w done w1 L N G) as (evs1 & E & _).
    rewrite E in H. injection H as <- <- <- <-.
    pose proof (extract_until_error_complete raw w done w1 G) as M.
    destruct (extract_until_error_done raw w done None w1 G) as (_ & _ & F).
    split.
    + now rewrite length_map, <- (length_map ex_report done), M.
    + intros i rep Hi. rewrite <- M, nth_error_map in Hi.
      destruct (nth_error done i) as [x|] eqn:Nd; [|discriminate].
      cbn [option_map] in Hi. injection Hi as Hx.
      exists x, (document_of x). split; [reflexivity|]. split; [exact Hx|].
      split; [now rewrite nth_error_map, Nd|].
      cbn [document_of doc_title doc_source threat_intelligence].
      rewrite Hx. split; [reflexivity|]. split; [reflexivity|].
      rewrite Forall_forall in F. apply F. eapply nth_error_In. exact Nd.
  - intros rep rest a w text w1 e docs a' w' evs L G P H.
    assert (X : extract_until_error (rep :: rest) w = ([], Some e, w1)).
    { cbn [extract_until_error]. rewrite G. unfold extracted_json.
      now rewrite P. }
    assert (N : rep :: rest <> []) by discriminate.
    destruct (phase2_failed (rep :: rest) a w [] e w1 L N X) as (evs1 & E & _).
    rewrite E in H. injection H as <- <- <- <-.
    split; [reflexivity|]. eexists. split; [reflexivity|].
    cbn [documents p2_error map app]. auto.
Qed.

(** C10. With the flag set and a non-empty input, when the primary path
    raises partway (a generation call raises, or [json.loads] raises
    something else than [json.JSONDecodeError] on a response), the phase-2
    section reports both [used_llm] and [used_mock] true; its [documents]
    list keeps the documents already extracted, followed by the 15
    substitute documents, while [document_count] is 15 and the returned
    sequence holds the substitutes only. *)
Theorem partial_extraction_stays_in_log
    (raw_reports : list raw_report) (a : phases) (w : World)
    (done : list extraction) (e : exn) (w1 : World)
    (docs : list document) (a' : phases) (w' : World) (evs : list event) :
  USE_LLM = true -> raw_reports <> [] ->
  extract_until_error raw_reports w = (done, Some e, w1) ->
  phase2_information_extraction raw_reports a w = (docs, a', w', evs) ->
  docs = mock_documents 1 MOCK_THREAT_INTEL_LIST
  /\ length docs = 15
  /\ (exists d : phase2_data,
      phase2 a' = Some d
      /\ used_llm d = true
      /\ used_mock d = true
      /\ documents d =
           map document_of done ++ mock_documents 1 MOCK_THREAT_INTEL_LIST
      /\ length (documents d) = length done + 15
      /\ document_count d = 15
      /\ p2_error d = Some (str_of_exn e))
  /\ exists (rep : raw_report) (rest : list raw_report) (w0 : World),
      raw_reports = map ex_report done ++ rep :: rest
      /\ (generate_content (EXTRACTION_PROMPT +++ content rep) w0
          = (Raise e, w1)
          \/ exists text : string,
               generate_content (EXTRACTION_PROMPT +++ content rep) w0
               = (Ok text, w1)
               /\ json_loads (strip text) = DecodeRaise e).
Proof.
  intros L N G H.
  destruct (phase2_failed raw_reports a w done e w1 L N G) as (evs1 & E & _).
  rewrite E in H. injection H as <- <- <- <-.
  split; [reflexivity|]. split; [now rewrite length_mock_documents|].
  split.
  - eexists. split; [reflexivity|].
    cbn [used_llm used_mock documents document_count p2_error].
    repeat split.
    now rewrite length_app, length_map, length_mock_documents.
  - exact (extract_until_error_stops _ _ _ _ _ G).
Qed.

(* ---------------------------------------------------------------- *)
(** ** Phase 4 *)
(* ---------------------------------------------------------------- *)

Lemma retrieval_try_no_write (collection : option Collection)
    (embedding_model : option EmbeddingModel) (q : string) (w : World) :
  count_writes (snd (retrieval_try collection embedding_model q w)) = 0.
Proof.
  unfold retrieval_try.
  destruct collection as [coll|], embedding_model as [model|]; try reflexivity.
  destruct (encode model q w) as [[emb|e] w1]; [|reflexivity].
  destruct (collection_query coll emb 3 w1) as [[results|e] w2]; [|reflexivity].
  destruct USE_LLM; [|reflexivity].
  destruct (generate_content _ w2) as [[text|e] w3]; reflexivity.
Qed.

Lemma rag_query_no_write (collection : option Collection)
    (embedding_model : option EmbeddingModel) (q : string) (w : World) :
  count_writes (snd (rag_query collection embedding_model q w)) = 0.
Proof.
  unfold rag_query.
  pose proof (retrieval_try_no_write collection embedding_model q w) as C.
  destruct (retrieval_try collection embedding_model q w) as [[[a|e] w1] evs];
    cbn [snd] in *; observe; now rewrite C.
Qed.

(** The Retriever never raises. *)
Lemma rag_query_returns (collection : option Collection)
    (embedding_model : option EmbeddingModel) (q : string) (w : World) :
  exists (answer : string) (w' : World) (evs : list event),
    rag_query collection embedding_model q w = (Ok answer, w', evs).
Proof.
  unfold rag_query.
  destruct (retrieval_try collection embedding_model q w) as [[[a|e] w1] evs];
    eauto.
Qed.

(** C1 (amended). The Retriever never raises. Whenever its first tier
    fails (a handle is absent, the embedding or the index query raises,
    the generation raises, or the flag is off) it returns the static
    table's answer for the lower-cased question, or exactly
    ["Insufficient data."] when that is not a key; it does not trim the
    question (for a question that is already trimmed, as the Session
    passes it, this is the answer for the lower-cased, trimmed form).
    When the first tier succeeds its answer is returned and the table is
    not consulted. *)
Theorem retriever_degrades
    (collection : option Collection) (embedding_model : option EmbeddingModel)
    (q : string) (w : World) :
  (exists (answer : string) (w' : World) (evs : list event),
      rag_query collection embedding_model q w = (Ok answer, w', evs))
  /\ (collection = None \/ embedding_model = None ->
      retrieval_try collection embedding_model q w = (Raise (Exception "No KB"), w, []))
  /\ (forall coll model,
         collection = Some coll -> embedding_model = Some model ->
         (forall e w1, encode model q w = (Raise e, w1) ->
            fst (fst (retrieval_try collection embedding_model q w)) = Raise e)
         /\ (forall emb w1 e w2,
                encode model q w = (Ok emb, w1) ->
                collection_query coll emb 3 w1 = (Raise e, w2) ->
                fst (fst (retrieval_try collection embedding_model q w)) = Raise e)
         /\ (forall emb w1 results w2,
                encode model q w = (Ok emb, w1) ->
                collection_query coll emb 3 w1 = (Ok results, w2) ->
                (USE_LLM = false ->
                 fst (fst (retrieval_try collection embedding_model q w))
                 = Raise (Exception "LLM off"))
                /\ (forall e w3,
                       USE_LLM = true ->
                       generate_content (rag_prompt (join (nl +++ nl) results) q) w2
                       = (Raise e, w3) ->
                       fst (fst (retrieval_try collection embedding_model q w))
                       = Raise e)))
  /\ (forall e w1 evs1,
         retrieval_try collection embedding_model q w = (Raise e, w1, evs1) ->
         fst (fst (rag_query collection embedding_model q w)) =
           Ok (match dict_get PREDEFINED_QUESTIONS (lower q) with
               | Some canned => canned
               | None => "Insufficient data."
               end)
         /\ (strip q = q ->
             fst (fst (rag_query collection embedding_model q w)) =
               Ok (match dict_get PREDEFINED_QUESTIONS (lower (strip q)) with
                   | Some canned => canned
                   | None => "Insufficient data."
                   end)))
  /\ (forall answer w1 evs1,
         retrieval_try collection embedding_model q w = (Ok answer, w1, evs1) ->
         rag_query collection embedding_model q w =
           (Ok answer, w1, Print ("[RAG Query] " +++ q) :: evs1)).
Proof.
  split; [apply rag_query_returns|]. split; [|split; [|split]].
  - unfold retrieval_try. intros [-> | ->]; [reflexivity|].
    destruct collection; reflexivity.
  - intros coll model -> ->. unfold retrieval_try. split; [|split].
    + intros e w1 ->. reflexivity.
    + intros emb w1 e w2 -> ->. reflexivity.
    + intros emb w1 results w2 -> ->. split.
      * intros ->. reflexivity.
      * intros e w3 -> ->. reflexivity.
  - intros e w1 evs1 T. unfold rag_query. rewrite T. cbn [fst].
    unfold fallback_answer. split; [reflexivity|]. now intros ->.
  - intros answer w1 evs1 T. unfold rag_query. now rewrite T.
Qed.

(* ---------------------------------------------------------------- *)
(** ** Phase 5 *)
(* ---------------------------------------------------------------- *)

(** No key of the static table is a termination keyword. *)
Lemma table_key_not_keyword (k canned : string) :
  dict_get PREDEFINED_QUESTIONS k = Some canned ->
  str_in k ["exit"; "quit"] = false.
Proof.
  unfold PREDEFINED_QUESTIONS. cbn [dict_get].
  repeat match goal with
         | |- context [String.eqb ?key k] =>
             destruct (String.eqb_spec key k) as [<- | _]; [reflexivity|]
         end.
  discriminate.
Qed.

Lemma session_turn_canned (rag : retriever) (line : string) (rest : list string)
    (d : phase5_data) (w : World) (canned : string) :
  dict_get PREDEFINED_QUESTIONS (lower (strip line)) = Some canned ->
  session_loop rag (line :: rest) d w =
    let '(r, (d2, w2, evs, unread)) :=
      session_loop rag rest (add_query (strip line) d) w in
    (r, (d2, w2, Prompt PROMPT :: Print (nl +++ canned +++ nl) :: evs, unread)).
Proof.
  intros K. cbn [session_loop].
  rewrite (table_key_not_keyword _ _ K), K. reflexivity.
Qed.

Lemma session_turn_keyword (rag : retriever) (line : string) (rest : list string)
    (d : phase5_data) (w : World) :
  str_in (lower (strip line)) ["exit"; "quit"] = true ->
  session_loop rag (line :: rest) d w =
    (Ok tt,
     (set_status "completed" d, w, [Prompt PROMPT; Print "Session ended."], rest)).
Proof. intros K. cbn [session_loop]. now rewrite K. Qed.

Lemma session_independent (rag1 rag2 : retriever) (stdin : list string)
    (d : phase5_data) (w : World) :
  forallb answered_by_session stdin = true ->
  session_loop rag1 stdin d w = session_loop rag2 stdin d w.
Proof.
  revert d w. induction stdin as [|line rest IH]; intros d w A; [reflexivity|].
  cbn [forallb] in A. apply andb_true_iff in A. destruct A as [A1 A2].
  unfold answered_by_session in A1. apply orb_true_iff in A1.
  destruct A1 as [K|K].
  - now rewrite !session_turn_keyword.
  - unfold dict_mem in K.
    destruct (dict_get PREDEFINED_QUESTIONS (lower (strip line))) as [canned|] eqn:G;
      [|discriminate].
    rewrite !(session_turn_canned _ _ _ _ _ _ G). now rewrite IH.
Qed.

Lemma session_never_asks (rag : retriever) (stdin : list string)
    (d : phase5_data) (w : World) (r : result unit) (d2 : phase5_data)
    (w2 : World) (evs : list event) (unread : list string) :
  forallb answered_by_session stdin = true ->
  session_loop rag stdin d w = (r, (d2, w2, evs, unread)) ->
  existsb is_ask evs = false /\ w2 = w.
Proof.
  revert d w r d2 w2 evs unread.
  induction stdin as [|line rest IH]; intros d w r d2 w2 evs unread A H.
  - cbn [session_loop] in H. injection H as <- <- <- <- <-. auto.
  - cbn [forallb] in A. apply andb_true_iff in A. destruct A as [A1 A2].
    unfold answered_by_session in A1. apply orb_true_iff in A1.
    destruct A1 as [K|K].
    + rewrite session_turn_keyword in H by exact K.
      injection H as <- <- <- <- <-. auto.
    + unfold dict_mem in K.
      destruct (dict_get PREDEFINED_QUESTIONS (lower (strip line))) as [canned|] eqn:G;
        [|discriminate].
      rewrite (session_turn_canned _ _ _ _ _ _ G) in H.
      destruct (session_loop rag rest (add_query (strip line) d) w)
        as [r' [[[d' w'] evs'] unread']] eqn:S.
      injection H as <- <- <- <- <-.
      destruct (IH _ _ _ _ _ _ _ A2 S) as [I1 I2]. cbn [existsb is_ask orb]. auto.
Qed.

(** C2. A session input whose lower-cased, trimmed form is a key of the
    static table is answered with the table's canned answer and the
    retriever is not called: the turn is the same for every retriever
    function, one that always raises included, and a session made of
    such inputs produces the same output whatever the retriever is,
    without a single call to it. *)
Theorem session_bypasses_retriever :
  (forall (rag : retriever) (line : string) (rest : list string)
          (d : phase5_data) (w : World) (canned : string),
      dict_get PREDEFINED_QUESTIONS (lower (strip line)) = Some canned ->
      str_in (lower (strip line)) ["exit"; "quit"] = false
      /\ session_loop rag (line :: rest) d w =
           let '(r, (d2, w2, evs, unread)) :=
             session_loop rag rest (add_query (strip line) d) w in
           (r, (d2, w2,
                Prompt PROMPT :: Print (nl +++ canned +++ nl) :: evs, unread)))
  /\ (forall (rag1 rag2 : retriever) (stdin : list string)
             (d : phase5_data) (w : World),
         forallb answered_by_session stdin = true ->
         session_loop rag1 stdin d w = session_loop rag2 stdin d w)
  /\ (forall (rag : retriever) (stdin : list string) (d : phase5_data)
             (w : World) (r : result unit) (d2 : phase5_data) (w2 : World)
             (evs : list event) (unread : list string),
         forallb answered_by_session stdin = true ->
         session_loop rag stdin d w = (r, (d2, w2, evs, unread)) ->
         existsb is_ask evs = false /\ w2 = w).
Proof.
  split; [|split].
  - intros rag line rest d w canned K. split.
    + exact (table_key_not_keyword _ _ K).
    + now apply session_turn_canned.
  - apply session_independent.
  - apply session_never_asks.
Qed.

(* ---------------------------------------------------------------- *)
(** ** The driver *)
(* ---------------------------------------------------------------- *)

Lemma phase2_no_write (raw : list raw_report) (a : phases) (w : World) :
  count_writes (snd (phase2_information_extraction raw a w)) = 0.
Proof.
  destruct USE_LLM eqn:L.
  - destruct raw as [|r0 rest] eqn:R.
    + destruct (phase2_disabled [] a w (or_intror eq_refl)) as (evs & E & C).
      now rewrite E.
    + assert (N : r0 :: rest <> []) by discriminate.
      destruct (extract_until_error (r0 :: rest) w) as [[done [e|]] w1] eqn:G.
      * destruct (phase2_failed _ a w done e w1 L N G) as (evs & E & C).
        now rewrite E.
      * destruct (phase2_complete _ a w done w1 L N G) as (evs & E & C).
        now rewrite E.
  - destruct (phase2_disabled raw a w (or_introl L)) as (evs & E & C).
    now rewrite E.
Qed.

Lemma phase1_no_write (a : phases) (w : World) :
  count_writes (snd (phase1_data_collection a w)) = 0.
Proof.
  destruct (phase1_cases a w) as (? & ? & ? & ? & ? & ? & evs & E & C).
  now rewrite E.
Qed.

Lemma index_loop_no_write (idx : nat) (docs : list document)
    (model : EmbeddingModel) (coll : Collection) (w : World) :
  count_writes (snd (index_loop idx docs model coll w)) = 0.
Proof.
  revert idx w. induction docs as [|doc rest IH]; intros idx w;
    cbn [index_loop]; [reflexivity|].
  destruct (json_dumps doc) as [doc_str|e]; [|reflexivity].
  destruct (encode model doc_str w) as [[emb|e] w1]; [|reflexivity].
  destruct (collection_add coll doc_str emb (str_of_nat idx) w1)
    as [[[]|e] w2]; [|reflexivity].
  specialize (IH (S idx) w2).
  destruct (index_loop (S idx) rest model coll w2) as [[r w3] evs].
  cbn [snd] in *. observe. exact IH.
Qed.

Lemma display_loop_no_write (i : nat) (docs : list document) (d : phase3_data) :
  count_writes (snd (display_loop i docs d)) = 0.
Proof.
  revert i d. induction docs as [|doc rest IH]; intros i d;
    cbn [display_loop]; [reflexivity|].
  destruct (joined_field (threat_intelligence doc) "aliases"); [|reflexivity].
  destruct (joined_field (threat_intelligence doc) "ttps"); [|reflexivity].
  destruct (joined_field (threat_intelligence doc) "targets"); [|reflexivity].
  match goal with
  | |- context [display_loop (S i) rest ?dd] =>
      specialize (IH (S i) dd); destruct (display_loop (S i) rest dd) as [[r d1] evs]
  end.
  cbn [snd] in *. observe. exact IH.
Qed.

Lemma phase3_no_write (docs : list document) (a : phases) (w : World) :
  count_writes (snd (phase3_build_knowledge_base docs a w)) = 0.
Proof.
  unfold phase3_build_knowledge_base, build_try.
  destruct (load_model w) as [[model|e] w1]; [|reflexivity].
  destruct (open_collection w1) as [[coll|e] w2]; [|reflexivity].
  pose proof (index_loop_no_write 0 docs model coll w2) as CI.
  destruct (index_loop 0 docs model coll w2) as [[[[]|e] w3] evs]; cbn [snd] in CI.
  - pose proof (display_loop_no_write 1 docs (phase3_initial docs)) as CD.
    destruct (display_loop 1 docs (phase3_initial docs)) as [[[[]|e] d1] evs1];
      cbn [snd] in *; observe; now rewrite CI, CD.
  - cbn [snd]. observe. now rewrite CI.
Qed.

(** The session loop with the Retriever of phase 4: it never writes the
    log, it ends by [break] only with status ["completed"], and the
    Retriever never stops it. *)
Lemma session_loop_no_write (collection : option Collection)
    (embedding_model : option EmbeddingModel) (stdin : list string)
    (d : phase5_data) (w : World) :
  count_writes
    (snd (fst (snd (session_loop (rag_query collection embedding_model) stdin d w))))
  = 0.
Proof.
  revert d w. induction stdin as [|line rest IH]; intros d w;
    cbn [session_loop]; [reflexivity|].
  destruct (str_in (lower (strip line)) ["exit"; "quit"]); [reflexivity|].
  destruct (dict_get PREDEFINED_QUESTIONS (lower (strip line))) as [canned|].
  - specialize (IH (add_query (strip line) d) w).
    destruct (session_loop _ rest (add_query (strip line) d) w)
      as [r [[[d2 w2] evs] unread]].
    cbn [fst snd] in *. observe. exact IH.
  - pose proof (rag_query_no_write collection embedding_model (strip line) w) as CR.
    destruct (rag_query collection embedding_model (strip line) w)
      as [[[answer|e] w1] evs1]; cbn [snd] in CR.
    + specialize (IH (add_query (strip line) d) w1).
      destruct (session_loop _ rest (add_query (strip line) d) w1)
        as [r [[[d2 w2] evs] unread]].
      cbn [fst snd] in *. observe. now rewrite CR, IH.
    + cbn [fst snd]. observe. now rewrite CR.
Qed.

Lemma session_loop_completed (rag : retriever) (stdin : list string)
    (d : phase5_data) (w : World) (d2 : phase5_data) (w2 : World)
    (evs : list event) (unread : list string) :
  session_loop rag stdin d w = (Ok tt, (d2, w2, evs, unread)) ->
  status d2 = "completed".
Proof.
  revert d w d2 w2 evs unread.
  induction stdin as [|line rest IH]; intros d w d2 w2 evs unread;
    cbn [session_loop]; [discriminate|].
  destruct (str_in (lower (strip line)) ["exit"; "quit"]).
  - intros H. injection H as <- <- <- <-. reflexivity.
  - destruct (dict_get PREDEFINED_QUESTIONS (lower (strip line))) as [canned|].
    + destruct (session_loop rag rest (add_query (strip line) d) w)
        as [r [[[d3 w3] evs3] unread3]] eqn:S.
      intros H. injection H as -> <- <- <- <-. eapply IH. exact S.
    + destruct (rag (strip line) w) as [[[answer|e] w1] evs1]; [|discriminate].
      destruct (session_loop rag rest (add_query (strip line) d) w1)
        as [r [[[d3 w3] evs3] unread3]] eqn:S.
      intros H. injection H as -> <- <- <- <-. eapply IH. exact S.
Qed.

Lemma keyword_spec (line : string) :
  lower (strip line) = "exit" \/ lower (strip line) = "quit" <->
  is_keyword line = true.
Proof.
  unfold is_keyword, str_in. cbn [existsb]. rewrite orb_false_r, orb_true_iff.
  rewrite !String.eqb_eq. reflexivity.
Qed.

(** With the Retriever of phase 4 the loop ends at the first keyword, by
    [break]; without a keyword it ends at the end of input, by
    [EOFError]. *)
Lemma session_reaches_keyword (collection : option Collection)
    (embedding_model : option EmbeddingModel) (pre : list string)
    (line : string) (rest : list string) (d : phase5_data) (w : World) :
  forallb (fun l => negb (is_keyword l)) pre = true ->
  is_keyword line = true ->
  exists d2 w2 evs,
    session_loop (rag_query collection embedding_model) (pre ++ line :: rest) d w
    = (Ok tt, (d2, w2, evs, rest))
    /\ queries d2 = queries d ++ map strip pre.
Proof.
  revert d w. induction pre as [|l pre IH]; intros d w P K.
  - cbn [app]. rewrite session_turn_keyword by exact K.
    do 3 eexists. split; [reflexivity|]. cbn [queries set_status map].
    now rewrite app_nil_r.
  - cbn [forallb] in P. apply andb_true_iff in P. destruct P as [P1 P2].
    apply negb_true_iff in P1. unfold is_keyword in P1.
    cbn [app session_loop]. rewrite P1.
    destruct (dict_get PREDEFINED_QUESTIONS (lower (strip l))) as [canned|].
    + destruct (IH (add_query (strip l) d) w P2 K) as (d2 & w2 & evs & E & Q).
      rewrite E. do 3 eexists. split; [reflexivity|].
      rewrite Q. cbn [queries add_query map]. now rewrite <- app_assoc.
    + destruct (rag_query_returns collection embedding_model (strip l) w)
        as (answer & w1 & evs1 & R).
      rewrite R.
      destruct (IH (add_query (strip l) d) w1 P2 K) as (d2 & w2 & evs & E & Q).
      rewrite E. do 3 eexists. split; [reflexivity|].
      rewrite Q. cbn [queries add_query map]. now rewrite <- app_assoc.
Qed.

Lemma session_reaches_eof (collection : option Collection)
    (embedding_model : option EmbeddingModel) (stdin : list string)
    (d : phase5_data) (w : World) :
  forallb (fun l => negb (is_keyword l)) stdin = true ->
  fst (session_loop (rag_query collection embedding_model) stdin d w)
  = Raise (Exception "EOF when reading a line").
Proof.
  revert d w. induction stdin as [|l rest IH]; intros d w P; [reflexivity|].
  cbn [forallb] in P. apply andb_true_iff in P. destruct P as [P1 P2].
  apply negb_true_iff in P1. unfold is_keyword in P1.
  cbn [session_loop]. rewrite P1.
  destruct (dict_get PREDEFINED_QUESTIONS (lower (strip l))) as [canned|].
  - specialize (IH (add_query (strip l) d) w P2).
    destruct (session_loop _ rest (add_query (strip l) d) w)
      as [r [[[d2 w2] evs] unread]]. exact IH.
  - destruct (rag_query_returns collection embedding_model (strip l) w)
      as (answer & w1 & evs1 & R).
    rewrite R. specialize (IH (add_query (strip l) d) w1 P2).
    destruct (session_loop _ rest (add_query (strip l) d) w1)
      as [r [[[d2 w2] evs] unread]]. exact IH.
Qed.

(** The first four phases leave no section for phase 5. *)
Lemma phase1_keeps_phase5 (a : phases) (w : World) :
  phase5 (snd (fst (fst (phase1_data_collection a w)))) = phase5 a.
Proof.
  destruct (phase1_cases a w) as (? & ? & ? & ? & ? & ? & evs & E & C).
  now rewrite E.
Qed.

Lemma phase2_keeps_phase5 (raw : list raw_report) (a : phases) (w : World) :
  phase5 (snd (fst (fst (phase2_information_extraction raw a w)))) = phase5 a.
Proof.
  unfold phase2_information_extraction.
  destruct (extraction_try raw w) as [use_mock st].
  destruct (mock_block use_mock st) as [[[docs d] w1] evs]. reflexivity.
Qed.

Lemma phase3_keeps_phase5 (docs : list document) (a : phases) (w : World) :
  phase5 (snd (fst (fst (phase3_build_knowledge_base docs a w)))) = phase5 a.
Proof.
  unfold phase3_build_knowledge_base.
  destruct (build_try docs w) as [[[[[[]|e] handles] d] w1] evs]; reflexivity.
Qed.

(** What the five stages hand to the [finally] of the driver. *)
Lemma run_phases_view (stdin : list string) (w : World) :
  exists (collection : option Collection) (embedding_model : option EmbeddingModel)
         (a4 : phases) (w3 : World) (evs0 : list event),
    phase5 a4 = None
    /\ count_writes evs0 = 0
    /\ run_phases stdin w =
         let '(r, a5, w5, e5, _) :=
           phase5_cli_interface (rag_query collection embedding_model)
             stdin a4 w3 in
         (r, a5, w5, evs0 ++ e5).
Proof.
  unfold run_phases.
  pose proof (phase1_keeps_phase5 no_phases w) as K1.
  pose proof (phase1_no_write no_phases w) as C1.
  destruct (phase1_data_collection no_phases w) as [[[raw a1] w1] e1].
  cbn [fst snd] in K1, C1.
  pose proof (phase2_keeps_phase5 raw a1 w1) as K2.
  pose proof (phase2_no_write raw a1 w1) as C2.
  destruct (phase2_information_extraction raw a1 w1) as [[[docs a2] w2] e2].
  cbn [fst snd] in K2, C2.
  pose proof (phase3_keeps_phase5 docs a2 w2) as K3.
  pose proof (phase3_no_write docs a2 w2) as C3.
  destruct (phase3_build_knowledge_base docs a2 w2)
    as [[[[collection embedding_model] a3] w3] e3].
  cbn [fst snd] in K3, C3.
  unfold phase4_rag_query_setup.
  match goal with
  | |- context [phase5_cli_interface _ stdin ?a4 w3] =>
      exists collection, embedding_model, a4, w3
  end.
  eexists (e1 ++ e2 ++ e3 ++ [_; _]).
  split; [|split]; cycle 2.
  - destruct (phase5_cli_interface _ stdin _ w3) as [[[[r a5] w5] e5] unread].
    rewrite <- !app_assoc. reflexivity.
  - cbn [set_phase4 phase5]. now rewrite K3, K2, K1.
  - observe. now rewrite C1, C2, C3.
Qed.

Lemma count_writes_session_banner : count_writes session_banner = 0.
Proof. reflexivity. Qed.

(** The stages write no file; their result and the phase-5 section go
    together. *)
Lemma run_phases_outcome (stdin : list string) (w : World) :
  count_writes (snd (run_phases stdin w)) = 0
  /\ (fst (fst (fst (run_phases stdin w))) = Ok tt ->
      exists d : phase5_data,
        phase5 (snd (fst (fst (run_phases stdin w)))) = Some d
        /\ status d = "completed")
  /\ (forall e, fst (fst (fst (run_phases stdin w))) = Raise e ->
        phase5 (snd (fst (fst (run_phases stdin w)))) = None).
Proof.
  destruct (run_phases_view stdin w)
    as (collection & embedding_model & a4 & w3 & evs0 & K & C & E).
  rewrite E. clear E. unfold phase5_cli_interface.
  pose proof (session_loop_no_write collection embedding_model stdin
                phase5_initial w3) as CS.
  destruct (session_loop (rag_query collection embedding_model) stdin
              phase5_initial w3) as [[[]|e] [[[d w5] evs5] unread]] eqn:S;
    cbn [fst snd] in *.
  - pose proof (session_loop_completed _ _ _ _ _ _ _ _ S) as St.
    split; [|split].
    + observe. rewrite ?count_writes_session_banner, ?C, ?CS. reflexivity.
    + intros _. exists d. split; [reflexivity | exact St].
    + intros e He. discriminate He.
  - split; [|split].
    + observe. rewrite ?count_writes_session_banner, ?C, ?CS. reflexivity.
    + intros He. discriminate He.
    + intros e0 _. exact K.
Qed.

(** The driver asks for one write, of the log of the stages, under the
    name of the run, in the world the stages left; the world it ends in
    is the one that write leaves, and the last thing it does is to
    report how the write went. *)
Lemma main_save (cwd stdin : list string) (w : World) (n : Z)
    (r : result unit) (w' : World) (evs : list event) :
  choose_run_number cwd = Some n ->
  main cwd stdin w = (r, w', evs) ->
  exists (a : phases) (w5 : World) (evs5 : list event) (saved : result unit),
    run_phases stdin w = (r, a, w5, evs5)
    /\ count_writes evs5 = 0
    /\ write_json (log_filename n) {| run_number := n; log_phases := a |} w5
       = (saved, w')
    /\ evs = evs5
             ++ [WriteFile (log_filename n) {| run_number := n; log_phases := a |};
                 Print (save_report (log_filename n) saved)]
    /\ count_writes evs = 1
    /\ (r = Ok tt ->
        exists d : phase5_data, phase5 a = Some d /\ status d = "completed")
    /\ (forall e, r = Raise e -> phase5 a = None).
Proof.
  intros N H. unfold main in H. rewrite N in H.
  destruct (run_phases_outcome stdin w) as (C & A & B).
  destruct (run_phases stdin w) as [[[r0 a] w5] evs5]. cbn [fst snd] in *.
  unfold save_run_json in H. cbv zeta in H.
  destruct (write_json (log_filename n) {| run_number := n; log_phases := a |} w5)
    as [[[]|e] w6] eqn:W; injection H as <- <- <-.
  - exists a, w5, evs5, (Ok tt). split; [reflexivity|]. split; [exact C|].
    split; [exact W|]. split; [reflexivity|].
    split; [observe; rewrite C; reflexivity|]. split; [exact A | exact B].
  - exists a, w5, evs5, (Raise e). split; [reflexivity|]. split; [exact C|].
    split; [exact W|]. split; [reflexivity|].
    split; [observe; rewrite C; reflexivity|]. split; [exact A | exact B].
Qed.


(** How the driver ends, by what standard input holds. *)
Lemma main_outcome (cwd : list string) (w : World) (n : Z) :
  choose_run_number cwd = Some n ->
  (forall (pre : list string) (line : string) (rest : list string),
      forallb (fun l => negb (is_keyword l)) pre = true ->
      is_keyword line = true ->
      fst (fst (main cwd (pre ++ line :: rest) w)) = Ok tt)
  /\ (forall stdin : list string,
         forallb (fun l => negb (is_keyword l)) stdin = true ->
         fst (fst (main cwd stdin w)) = Raise (Exception "EOF when reading a line")).
Proof.
  intros N. split.
  - intros pre line rest P K. unfold main. rewrite N.
    destruct (run_phases_view (pre ++ line :: rest) w)
      as (collection & embedding_model & a4 & w3 & evs0 & _ & _ & E).
    rewrite E. clear E. unfold phase5_cli_interface.
    destruct (session_reaches_keyword collection embedding_model pre line rest
                phase5_initial w3 P K) as (d2 & w2 & evs & S & _).
    rewrite S.
    destruct (save_run_json n _ w2) as [w6 evs6]. reflexivity.
  - intros stdin P. unfold main. rewrite N.
    destruct (run_phases_view stdin w)
      as (collection & embedding_model & a4 & w3 & evs0 & _ & _ & E).
    rewrite E. clear E. unfold phase5_cli_interface.
    pose proof (session_reaches_eof collection embedding_model stdin
                  phase5_initial w3 P) as S.
    destruct (session_loop (rag_query collection embedding_model) stdin
                phase5_initial w3) as [r [[[d w5] evs5] unread]].
    cbn [fst] in S. rewrite S.
    destruct (save_run_json n _ w5) as [w6 evs6]. reflexivity.
Qed.

(** C8 (amended). An input line whose lower-cased, trimmed form is
    ["exit"] or ["quit"], in any letter case, ends the session loop and
    sets the phase-5 status to ["completed"]. Every run that got a run
    number asks the file system for exactly one write, of the log of the
    stages, as its last action but the report of how that write went,
    both when the loop ends by a keyword and when it ends by an error:
    the run ends in the world that write leaves. Whether the log is then
    in its file is the file system's answer; a refusal is reported on
    screen and changes neither the result of the run nor the number of
    writes asked for. *)
Theorem session_ends_and_log_written_once :
  (forall (rag : retriever) (line : string) (rest : list string)
          (d : phase5_data) (w : World),
      lower (strip line) = "exit" \/ lower (strip line) = "quit" ->
      session_loop rag (line :: rest) d w =
        (Ok tt,
         (set_status "completed" d, w,
          [Prompt PROMPT; Print "Session ended."], rest))
      /\ status (set_status "completed" d) = "completed")
  /\ (forall (cwd stdin : list string) (w : World) (n : Z)
             (r : result unit) (w' : World) (evs : list event),
         choose_run_number cwd = Some n ->
         main cwd stdin w = (r, w', evs) ->
         exists (a : phases) (w5 : World) (evs5 : list event)
                (saved : result unit),
           run_phases stdin w = (r, a, w5, evs5)
           /\ count_writes evs5 = 0
           /\ write_json (log_filename n)
                {| run_number := n; log_phases := a |} w5 = (saved, w')
           /\ evs = evs5
                    ++ [WriteFile (log_filename n)
                          {| run_number := n; log_phases := a |};
                        Print (save_report (log_filename n) saved)]
           /\ count_writes evs = 1
           /\ (r = Ok tt ->
               exists d : phase5_data,
                 phase5 a = Some d /\ status d = "completed")
           /\ (forall e, r = Raise e -> phase5 a = None))
  /\ (forall (cwd : list string) (w : World) (n : Z),
         choose_run_number cwd = Some n ->
         (forall (pre : list string) (line : string) (rest : list string),
             forallb (fun l => negb (is_keyword l)) pre = true ->
             lower (strip line) = "exit" \/ lower (strip line) = "quit" ->
             fst (fst (main cwd (pre ++ line :: rest) w)) = Ok tt)
         /\ (forall stdin : list string,
                forallb (fun l => negb (is_keyword l)) stdin = true ->
                fst (fst (main cwd stdin w))
                = Raise (Exception "EOF when reading a line"))).
Proof.
  split; [|split].
  - intros rag line rest d w K. apply keyword_spec in K. split; [|reflexivity].
    now apply session_turn_keyword.
  - apply main_save.
  - intros cwd w n N. destruct (main_outcome cwd w n N) as [A B]. split.
    + intros pre line rest P K. apply keyword_spec in K. now apply A.
    + exact B.
Qed.

(* ---------------------------------------------------------------- *)
(** ** The run number *)
(* ---------------------------------------------------------------- *)

Lemma strip_prefix_spec (p s r : string) :
  strip_prefix p s = Some r -> s = p +++ r.
Proof.
  revert s. induction p as [|a p IH]; intros [|b s]; cbn [strip_prefix String.append];
    try discriminate; try (intros H; now inversion H).
  destruct (Ascii.eqb_spec a b) as [<-|]; [|discriminate].
  intros H. f_equal. now apply IH.
Qed.

Lemma contains_append (c : ascii) (s t : string) :
  contains c (s +++ t) = contains c s || contains c t.
Proof.
  induction s as [|a s IH]; cbn [contains String.append]; [reflexivity|].
  rewrite IH. now rewrite orb_assoc.
Qed.

Lemma substring_contains (c : ascii) (k n : nat) (s t : string) :
  substring k n s = String c t -> contains c s = true.
Proof.
  revert k n. induction s as [|a s IH]; intros k n.
  - destruct k, n; discriminate.
  - destruct k as [|k].
    + destruct n as [|n]; [discriminate|]. cbn [substring contains].
      intros H. inversion H; subst. now rewrite Ascii.eqb_refl.
    + cbn [substring contains]. intros H. rewrite (IH k n H). apply orb_true_r.
Qed.

Lemma endswith_contains (c : ascii) (p s : string) :
  endswith (String c p) s = true -> contains c s = true.
Proof.
  unfold endswith. intros H. apply andb_true_iff in H. destruct H as [_ H].
  apply String.eqb_eq in H. eapply substring_contains. exact H.
Qed.

Lemma substring_skip (s t : string) (n : nat) :
  substring (String.length s) n (s +++ t) = substring 0 n t.
Proof. induction s as [|a s IH]; [reflexivity | exact IH]. Qed.

Lemma substring_whole (s : string) : substring 0 (String.length s) s = s.
Proof. induction s as [|a s IH]; [reflexivity|]. cbn [String.length substring]. now rewrite IH. Qed.

Lemma endswith_append (p s : string) : endswith p (s +++ p) = true.
Proof.
  unfold endswith. rewrite length_append. apply andb_true_iff. split.
  - apply Nat.leb_le. lia.
  - replace (String.length s + String.length p - String.length p)
      with (String.length s) by lia.
    rewrite substring_skip, substring_whole. apply String.eqb_refl.
Qed.

(** A name matched by the pattern holds both separators, so the filter
    of the generator keeps it. *)
Lemma glob_match_separators (f : string) :
  glob_match f = true -> contains "#" f && contains "." f = true.
Proof.
  unfold glob_match.
  destruct (strip_prefix "CyberX #" f) as [r|] eqn:P; [|discriminate].
  intros E. apply strip_prefix_spec in P. subst f.
  apply endswith_contains in E.
  rewrite !contains_append, E. reflexivity.
Qed.

Lemma split_without (sep : ascii) (s : string) :
  contains sep s = false -> split sep s = [s].
Proof.
  induction s as [|a s IH]; cbn [contains split]; [reflexivity|].
  intros H. apply orb_false_iff in H. destruct H as [H1 H2].
  rewrite H1, (IH H2). reflexivity.
Qed.

Lemma split_at_first (sep : ascii) (s t : string) :
  contains sep s = false ->
  split sep (s +++ String sep t) = s :: split sep t.
Proof.
  induction s as [|a s IH]; cbn [contains split String.append].
  - intros _. now rewrite Ascii.eqb_refl.
  - intros H. apply orb_false_iff in H. destruct H as [H1 H2].
    rewrite H1, (IH H2). reflexivity.
Qed.

Lemma digit_facts (c : ascii) :
  is_digit c = true ->
  int_space c = false /\ Ascii.eqb c "#" = false /\ Ascii.eqb c "." = false
  /\ Ascii.eqb c "-" = false /\ Ascii.eqb c "+" = false.
Proof.
  destruct c as [[] [] [] [] [] [] [] []]; vm_compute; intros H;
    (discriminate H || auto).
Qed.

Lemma all_digits_contains (c : ascii) (s : string) :
  is_digit c = false -> all_digits s = true -> contains c s = false.
Proof.
  intros Hc. induction s as [|a s IH]; cbn [all_digits contains]; [reflexivity|].
  intros H. apply andb_true_iff in H. destruct H as [H1 H2].
  rewrite (IH H2), orb_false_r.
  destruct (Ascii.eqb_spec a c) as [->|]; [congruence | reflexivity].
Qed.

Lemma all_digits_rstrip (s : string) :
  all_digits s = true -> rstrip_by int_space s = s.
Proof.
  induction s as [|a s IH]; cbn [all_digits rstrip_by]; [reflexivity|].
  intros H. apply andb_true_iff in H. destruct H as [H1 H2].
  rewrite (IH H2). destruct s; [|reflexivity].
  destruct (digit_facts a H1) as [-> _]. reflexivity.
Qed.

Lemma all_digits_strip (s : string) :
  all_digits s = true -> rstrip_by int_space (lstrip_by int_space s) = s.
Proof.
  intros H.
  assert (L : lstrip_by int_space s = s).
  { destruct s as [|a s]; [reflexivity|]. cbn [all_digits] in H.
    apply andb_true_iff in H. destruct H as [H1 _]. cbn [lstrip_by].
    destruct (digit_facts a H1) as [-> _]. reflexivity. }
  rewrite L. now apply all_digits_rstrip.
Qed.

Lemma all_digits_uint (d : Decimal.uint) :
  all_digits (NilEmpty.string_of_uint d) = true.
Proof. induction d; cbn [NilEmpty.string_of_uint all_digits]; auto. Qed.

Lemma int_digits_uint (d : Decimal.uint) (acc : nat) (seen : bool) :
  d <> Decimal.Nil \/ seen = true ->
  int_digits (NilEmpty.string_of_uint d) acc seen = Some (Nat.of_uint_acc d acc).
Proof.
  revert acc seen.
  induction d; intros acc seen H;
    cbn [NilEmpty.string_of_uint int_digits Nat.of_uint_acc];
    try (change (is_digit _) with true; cbv iota;
         rewrite IHd by (right; reflexivity); f_equal; f_equal;
         rewrite Nat.tail_mul_spec; unfold digit_val; cbn [nat_of_ascii]; 
         vm_compute (nat_of_ascii _ - 48); lia).
  destruct H as [H|H]; [congruence | now rewrite H].
Qed.

Lemma unorm_not_nil (d : Decimal.uint) : Decimal.unorm d <> Decimal.Nil.
Proof. induction d; cbn [Decimal.unorm]; try discriminate. exact IHd. Qed.

Lemma to_uint_not_nil (n : nat) : Nat.to_uint n <> Decimal.Nil.
Proof.
  rewrite <- (DecimalNat.Unsigned.of_to n) at 1.
  rewrite DecimalNat.Unsigned.to_of. apply unorm_not_nil.
Qed.

(** [int(str(n)) == n] *)
Lemma int_of_str_of_nat (n : nat) : int_of_str (str_of_nat n) = Some (Z.of_nat n).
Proof.
  unfold int_of_str, str_of_nat.
  rewrite (all_digits_strip _ (all_digits_uint _)).
  pose proof (to_uint_not_nil n) as NN.
  pose proof (all_digits_uint (Nat.to_uint n)) as AD.
  pose proof (int_digits_uint (Nat.to_uint n) 0 false (or_introl NN)) as ID.
  change (Nat.of_uint_acc (Nat.to_uint n) 0) with (Nat.of_uint (Nat.to_uint n)) in ID.
  rewrite DecimalNat.Unsigned.of_to in ID.
  destruct (NilEmpty.string_of_uint (Nat.to_uint n)) as [|c r] eqn:S.
  - destruct (Nat.to_uint n); try discriminate S. congruence.
  - cbn [all_digits] in AD. apply andb_true_iff in AD. destruct AD as [AD _].
    destruct (digit_facts c AD) as (_ & _ & _ & Hm & Hp).
    assert (int_digits (String c r) 0 false = Some n -> 
            match String c r with
            | String "-" r0 => option_map (fun k => (- Z.of_nat k)%Z) (int_digits r0 0 false)
            | String "+" r0 => option_map Z.of_nat (int_digits r0 0 false)
            | t => option_map Z.of_nat (int_digits t 0 false)
            end = Some (Z.of_nat n)) as G.
    { intros I.
      destruct c as [[] [] [] [] [] [] [] []]; try discriminate Hm; try discriminate Hp;
        now rewrite I. }
    exact (G ID).
Qed.


Lemma all_digits_str_of_nat (n : nat) : all_digits (str_of_nat n) = true.
Proof. apply all_digits_uint. Qed.



Lemma max_of_spec (ns : list Z) :
  ns <> [] ->
  exists m, max_of ns = Some m /\ In m ns /\ forall k, In k ns -> (k <= m)%Z.
Proof.
  induction ns as [|n ns IH]; [congruence|]. intros _. cbn [max_of].
  destruct ns as [|n' ns'].
  - exists n. cbn [max_of In]. split; [reflexivity|]. split; [auto|].
    intros k [<- | []]. lia.
  - destruct IH as (m & E & I & U); [discriminate|]. rewrite E.
    exists (Z.max n m). split; [reflexivity|]. split.
    + destruct (Z.max_spec n m) as [[_ ->] | [_ ->]]; [right; exact I | left; reflexivity].
    + intros k [<- | Hk]; [lia | specialize (U k Hk); lia].
Qed.

Lemma filter_separators (cwd : list string) :
  filter (fun f => contains "#" f && contains "." f) (glob cwd) = glob cwd.
Proof.
  apply forallb_filter_id. apply forallb_forall. intros f Hf.
  unfold glob in Hf. apply filter_In in Hf. now apply glob_match_separators.
Qed.


Lemma numbers_of_In (fs : list string) (ns : list Z) (f : string) :
  numbers_of fs = Some ns -> In f fs ->
  exists k, number_of f = Some k /\ In k ns.
Proof.
  revert ns. induction fs as [|g fs IH]; intros ns; cbn [numbers_of In]; [tauto|].
  destruct (number_of g) as [k|] eqn:K; [|discriminate].
  destruct (numbers_of fs) as [ns'|]; [|discriminate].
  intros H [<- | Hf]; injection H as <-.
  - exists k. split; [exact K | left; reflexivity].
  - destruct (IH ns' eq_refl Hf) as (k' & K' & I). exists k'. split; [exact K' | now right].
Qed.

Lemma glob_In (cwd : list string) (f : string) :
  In f (glob cwd) <-> In f cwd /\ glob_match f = true.
Proof. unfold glob. apply filter_In. Qed.





(* ================================================================ *)
(** * Further properties of the code *)
(* ================================================================ *)

Lemma zenrows_requests_app (a b : list event) :
  zenrows_requests (a ++ b) = zenrows_requests a ++ zenrows_requests b.
Proof. apply flat_map_app. Qed.

Lemma zenrows_requests_cons (ev : event) (evs : list event) :
  zenrows_requests (ev :: evs) =
    match ev with ZenRowsGet u => [u] | _ => [] end ++ zenrows_requests evs.
Proof. reflexivity. Qed.

Lemma generate_requests_app (a b : list event) :
  generate_requests (a ++ b) = generate_requests a ++ generate_requests b.
Proof. apply flat_map_app. Qed.

Lemma generate_requests_cons (ev : event) (evs : list event) :
  generate_requests (ev :: evs) =
    match ev with Generate p => [p] | _ => [] end ++ generate_requests evs.
Proof. reflexivity. Qed.

Lemma add_requests_app (a b : list event) :
  add_requests (a ++ b) = add_requests a ++ add_requests b.
Proof. apply flat_map_app. Qed.

Lemma add_requests_cons (ev : event) (evs : list event) :
  add_requests (ev :: evs) =
    match ev with CollectionAdd i t => [(i, t)] | _ => [] end ++ add_requests evs.
Proof. reflexivity. Qed.

Lemma asked_app (a b : list event) : asked (a ++ b) = asked a ++ asked b.
Proof. apply flat_map_app. Qed.

Lemma asked_cons (ev : event) (evs : list event) :
  asked (ev :: evs) = match ev with AskRetriever q => [q] | _ => [] end ++ asked evs.
Proof. reflexivity. Qed.

Lemma encode_requests_app (a b : list event) :
  encode_requests (a ++ b) = encode_requests a ++ encode_requests b.
Proof. apply flat_map_app. Qed.

Lemma encode_requests_cons (ev : event) (evs : list event) :
  encode_requests (ev :: evs) =
    match ev with Encode t => [t] | _ => [] end ++ encode_requests evs.
Proof. reflexivity. Qed.

(** Rewriting every observation through an event list built with [::]
    and [++]. *)
Ltac observe_all :=
  repeat (rewrite zenrows_requests_cons || rewrite zenrows_requests_app
          || rewrite direct_requests_cons || rewrite direct_requests_app
          || rewrite generate_requests_cons || rewrite generate_requests_app
          || rewrite add_requests_cons || rewrite add_requests_app
          || rewrite encode_requests_cons || rewrite encode_requests_app
          || rewrite asked_cons || rewrite asked_app);
  cbn [app].

(* ---------------------------------------------------------------- *)
(** ** Phase 1, beyond the claims *)
(* ---------------------------------------------------------------- *)

Lemma direct_loop_no_zenrows (urls : list string) (raw : list raw_report)
    (d : phase1_data) (w : World) :
  zenrows_requests (snd (direct_loop urls raw d w)) = [].
Proof.
  revert raw d w. induction urls as [|u rest IH]; intros raw d w;
    cbn [direct_loop]; [reflexivity|].
  destruct (direct_get u w) as [[pg|e] w1]; cbn [keep_page].
  - match goal with
    | |- context [direct_loop rest ?r ?dd w1] =>
        specialize (IH r dd w1); destruct (direct_loop rest r dd w1) as [[[raw2 d2] w2] evs]
    end.
    cbn [snd] in *. observe_all. exact IH.
  - match goal with
    | |- context [direct_loop rest ?r ?dd w1] =>
        specialize (IH r dd w1); destruct (direct_loop rest r dd w1) as [[[raw2 d2] w2] evs]
    end.
    cbn [snd] in *. observe_all. exact IH.
Qed.

Lemma zenrows_loop_requests (urls : list string) (raw : list raw_report)
    (d : phase1_data) (w : World) :
  zenrows_requests (snd (snd (zenrows_loop urls raw d w))) =
    map fst (fst (fst (fetch_until_error zenrows_get urls w)))
    ++ match snd (fst (fetch_until_error zenrows_get urls w)) with
       | Some (u, _) => [u]
       | None => []
       end.
Proof.
  revert raw d w. induction urls as [|u rest IH]; intros raw d w;
    cbn [zenrows_loop fetch_until_error]; [reflexivity|].
  destruct (zenrows_get u w) as [[pg|e] w1]; cbn [keep_page]; [|reflexivity].
  match goal with
  | |- context [zenrows_loop rest ?r ?dd w1] =>
      specialize (IH r dd w1); destruct (zenrows_loop rest r dd w1) as [res [[[raw2 d2] w2] evs]]
  end.
  destruct (fetch_until_error zenrows_get rest w1) as [[pages err] w3].
  cbn [fst snd map] in *. observe_all. now rewrite IH.
Qed.

(** The sources asked before an error, the failing one, and those never
    asked make up the list, in order. *)
Lemma fetch_until_error_sources (get : string -> World -> result page * World)
    (urls : list string) (w : World) :
  match fetch_until_error get urls w with
  | (pages, None, _) => map fst pages = urls
  | (pages, Some (u, _), _) => exists rest, urls = map fst pages ++ u :: rest
  end.
Proof.
  revert w. induction urls as [|u rest IH]; intros w; cbn [fetch_until_error];
    [reflexivity|].
  destruct (get u w) as [[pg|e] w1].
  - specialize (IH w1).
    destruct (fetch_until_error get rest w1) as [[pages [[u' e']|]] w2]; cbn [map fst].
    + destruct IH as [rest' ->]. now exists rest'.
    + now rewrite IH.
  - now exists rest.
Qed.

Lemma use_zenrows_spec :
  use_zenrows_initially = false <->
  ZENROWS_API_KEY = ZENROWS_PLACEHOLDER \/ strip ZENROWS_API_KEY = EmptyString.
Proof.
  unfold use_zenrows_initially. rewrite andb_false_iff, !negb_false_iff, !String.eqb_eq.
  reflexivity.
Qed.

(** The ZenRows requests of phase 1, on every path. *)
Lemma phase1_zenrows_requests (a : phases) (w : World) :
  zenrows_requests (snd (phase1_data_collection a w)) =
    if use_zenrows_initially then
      map fst (fst (fst (fetch_until_error zenrows_get ARTICLE_URLS w)))
      ++ match snd (fst (fetch_until_error zenrows_get ARTICLE_URLS w)) with
         | Some (u, _) => [u]
         | None => []
         end
    else [].
Proof.
  unfold phase1_data_collection, zenrows_branch, fallback_branch.
  destruct use_zenrows_initially.
  - match goal with
    | |- context [zenrows_loop ARTICLE_URLS [] ?d w] =>
        pose proof (zenrows_loop_requests ARTICLE_URLS [] d w) as Z;
        destruct (zenrows_loop ARTICLE_URLS [] d w) as [[[]|e] [[[raw1 d1] w1] evs1]]
    end; cbn [fst snd] in Z; step.
    + cbn [snd]. observe_all. rewrite Z. now rewrite app_nil_r.
    + match goal with
      | |- context [direct_loop ARTICLE_URLS [] ?d w1] =>
          pose proof (direct_loop_no_zenrows ARTICLE_URLS [] d w1) as D;
          destruct (direct_loop ARTICLE_URLS [] d w1) as [[[raw2 d2] w2] evs2]
      end.
      cbn [snd] in *. observe_all. rewrite Z, D. now rewrite !app_nil_r.
  - step.
    match goal with
    | |- context [direct_loop ARTICLE_URLS [] ?d w] =>
        pose proof (direct_loop_no_zenrows ARTICLE_URLS [] d w) as D;
        destruct (direct_loop ARTICLE_URLS [] d w) as [[[raw2 d2] w2] evs2]
    end.
    cbn [snd] in *. observe_all. now rewrite D.
Qed.

(** X1. Without a usable ZenRows key (the placeholder, or a key that is
    blank once trimmed) phase 1 never calls ZenRows: it asks every source
    directly, records the fallback method and no error. *)
Theorem missing_key_skips_zenrows
    (a : phases) (w : World) (raw_reports : list raw_report)
    (a' : phases) (w' : World) (evs : list event) :
  ZENROWS_API_KEY = ZENROWS_PLACEHOLDER \/ strip ZENROWS_API_KEY = EmptyString ->
  phase1_data_collection a w = (raw_reports, a', w', evs) ->
  zenrows_requests evs = []
  /\ direct_requests evs = ARTICLE_URLS
  /\ exists d : phase1_data,
      phase1 a' = Some d
      /\ collection_method d = "Regular Scraping (requests + BS4)"
      /\ p1_error d = None
      /\ length (reports d) = collected_count d.
Proof.
  intros K H. apply use_zenrows_spec in K.
  pose proof (phase1_zenrows_requests a w) as Z. rewrite K, H in Z. cbn [snd] in Z.
  destruct (phase1_direct a w K) as (evs1 & E & R & _).
  remember (fetch_each direct_get ARTICLE_URLS w) as fe eqn:FE.
  rewrite E in H. injection H as <- <- <- <-.
  split; [exact Z|]. split; [exact R|].
  eexists. split; [reflexivity|].
  cbn [collection_method p1_error reports collected_count].
  repeat split. now rewrite length_map.
Qed.

(** X2. When ZenRows answers for every source, phase 1 returns one
    document per source, in the order of the source list, makes no direct
    request, and logs the ZenRows method with no failure and no error. *)
Theorem zenrows_pass_complete
    (a : phases) (w : World) (pages : list (string * page)) (w1 : World)
    (raw_reports : list raw_report) (a' : phases) (w' : World)
    (evs : list event) :
  use_zenrows_initially = true ->
  fetch_until_error zenrows_get ARTICLE_URLS w = (pages, None, w1) ->
  phase1_data_collection a w = (raw_reports, a', w', evs) ->
  map url raw_reports = ARTICLE_URLS
  /\ length raw_reports = 15
  /\ zenrows_requests evs = ARTICLE_URLS
  /\ direct_requests evs = []
  /\ w' = w1
  /\ exists d : phase1_data,
      phase1 a' = Some d
      /\ collection_method d = "ZenRows API"
      /\ collected_count d = 15
      /\ map report_url (reports d) = ARTICLE_URLS
      /\ failed_urls d = []
      /\ p1_error d = None.
Proof.
  intros U F H.
  pose proof (phase1_zenrows_requests a w) as Z. rewrite U, F, H in Z.
  cbn [fst snd] in Z. rewrite app_nil_r in Z.
  pose proof (fetch_until_error_sources zenrows_get ARTICLE_URLS w) as S.
  rewrite F in S.
  destruct (phase1_zenrows_complete a w pages w1 U F) as (evs1 & E & R & _).
  rewrite E in H. injection H as <- <- <- <-.
  assert (L : length pages = 15).
  { rewrite <- (length_map fst pages), S. reflexivity. }
  split; [now rewrite map_map|]. split; [now rewrite length_map|].
  split; [now rewrite Z|]. split; [exact R|]. split; [reflexivity|].
  eexists. split; [reflexivity|].
  cbn [collection_method collected_count reports failed_urls p1_error].
  repeat split; auto. now rewrite map_map.
Qed.

(** X3. The ZenRows pass stops at the first source on which it raises:
    the ZenRows requests are the sources before that one and that one, in
    order, none after it; the error is recorded in the log. *)
Theorem zenrows_stops_at_first_error
    (a : phases) (w : World) (pages : list (string * page)) (u : string)
    (e : exn) (w1 : World) (raw_reports : list raw_report) (a' : phases)
    (w' : World) (evs : list event) :
  use_zenrows_initially = true ->
  fetch_until_error zenrows_get ARTICLE_URLS w = (pages, Some (u, e), w1) ->
  phase1_data_collection a w = (raw_reports, a', w', evs) ->
  zenrows_requests evs = map fst pages ++ [u]
  /\ (exists rest, ARTICLE_URLS = map fst pages ++ u :: rest)
  /\ length (zenrows_requests evs) <= 15
  /\ exists d : phase1_data,
      phase1 a' = Some d /\ p1_error d = Some (str_of_exn e).
Proof.
  intros U F H.
  pose proof (phase1_zenrows_requests a w) as Z. rewrite U, F, H in Z.
  cbn [fst snd] in Z.
  pose proof (fetch_until_error_sources zenrows_get ARTICLE_URLS w) as S.
  rewrite F in S. destruct S as [rest S].
  destruct (phase1_zenrows_failed a w pages u e w1 U F) as (evs1 & E & _).
  remember (fetch_each direct_get ARTICLE_URLS w1) as fe eqn:FE.
  rewrite E in H. injection H as <- <- <- <-.
  split; [exact Z|]. split; [now exists rest|]. split.
  - rewrite Z. apply (f_equal (@length string)) in S.
    rewrite length_app in S. cbn [length] in S. rewrite length_app. cbn [length].
    change (length ARTICLE_URLS) with 15 in S. lia.
  - eexists. split; reflexivity.
Qed.

Lemma collected_select (outs : list (string * result page)) :
  map fst (collected outs) =
    select (map (fun o => match snd o with Ok _ => true | Raise _ => false end) outs)
           (map fst outs).
Proof.
  induction outs as [|[u [pg|e]] rest IH]; cbn [collected map select fst snd];
    [reflexivity | now rewrite IH | exact IH].
Qed.

Lemma failures_select (outs : list (string * result page)) :
  map failed (failures outs) =
    select (map negb
              (map (fun o => match snd o with Ok _ => true | Raise _ => false end) outs))
           (map fst outs).
Proof.
  induction outs as [|[u [pg|e]] rest IH];
    cbn [failures map select fst snd negb failed];
    [reflexivity | exact IH | now rewrite IH].
Qed.

Lemma select_In {A : Type} (mask : list bool) (l : list A) (x : A) :
  In x (select mask l) -> In x l.
Proof.
  revert l. induction mask as [|b mask IH]; intros [|y l]; cbn [select];
    try (intros []).
  destruct b; cbn [In]; intros H; [destruct H as [H|H]|]; auto.
Qed.

Lemma select_disjoint {A : Type} (mask : list bool) (l : list A) (x : A) :
  NoDup l -> In x (select mask l) -> In x (select (map negb mask) l) -> False.
Proof.
  revert l. induction mask as [|b mask IH]; intros [|y l] N; cbn [select map];
    try (intros []).
  inversion N as [|? ? Ny Nl]; subst.
  destruct b; cbn [negb In]; intros H1 H2.
  - destruct H1 as [<- | H1]; [apply Ny; eapply select_In; eauto | eauto].
  - destruct H2 as [<- | H2]; [apply Ny; eapply select_In; eauto | eauto].
Qed.

Lemma select_all {A : Type} (l : list A) : select (map (fun _ => true) l) l = l.
Proof. induction l as [|x l IH]; cbn [map select]; [reflexivity | now rewrite IH]. Qed.

Lemma select_none {A : Type} (l : list A) :
  select (map negb (map (fun _ => true) l)) l = [].
Proof. induction l as [|x l IH]; cbn [map select negb]; auto. Qed.

Lemma str_in_In (x : string) (l : list string) : str_in x l = true <-> In x l.
Proof.
  unfold str_in. rewrite existsb_exists. split.
  - intros (y & Hy & E). apply String.eqb_eq in E. now subst.
  - intros H. exists x. split; [exact H | apply String.eqb_refl].
Qed.

Lemma distinct_NoDup (l : list string) : distinct l = true -> NoDup l.
Proof.
  induction l as [|x l IH]; cbn [distinct]; intros H; constructor.
  - apply andb_true_iff in H. destruct H as [H _]. apply negb_true_iff in H.
    intros I. apply str_in_In in I. congruence.
  - apply IH. apply andb_true_iff in H. tauto.
Qed.

Lemma ARTICLE_URLS_NoDup : NoDup ARTICLE_URLS.
Proof. apply distinct_NoDup. vm_compute. reflexivity. Qed.

(** Whatever the path, phase 1 ends with the sources split in two by a
    mask: the documents returned and the failures listed. *)
Lemma phase1_mask (a : phases) (w : World) :
  exists (mask : list bool) (d : phase1_data),
    length mask = length ARTICLE_URLS
    /\ phase1 (snd (fst (fst (phase1_data_collection a w)))) = Some d
    /\ map url (fst (fst (fst (phase1_data_collection a w)))) = select mask ARTICLE_URLS
    /\ map failed (failed_urls d) = select (map negb mask) ARTICLE_URLS.
Proof.
  assert (M : forall w0,
             let outs := fst (fetch_each direct_get ARTICLE_URLS w0) in
             exists mask, length mask = length ARTICLE_URLS
               /\ map fst (collected outs) = select mask ARTICLE_URLS
               /\ map failed (failures outs) = select (map negb mask) ARTICLE_URLS).
  { intros w0 outs.
    exists (map (fun o => match snd o with Ok _ => true | Raise _ => false end) outs).
    pose proof (fetch_each_sources direct_get ARTICLE_URLS w0) as S. fold outs in S.
    split; [|split].
    - rewrite length_map, <- (length_map fst outs). now rewrite S.
    - rewrite collected_select. now rewrite S.
    - rewrite failures_select. now rewrite S. }
  destruct use_zenrows_initially eqn:U.
  - destruct (fetch_until_error zenrows_get ARTICLE_URLS w)
      as [[pages [[u e]|]] w1] eqn:F.
    + destruct (phase1_zenrows_failed a w pages u e w1 U F) as (evs & E & _).
      destruct (M w1) as (mask & L & C & Fl).
      remember (fetch_each direct_get ARTICLE_URLS w1) as fe eqn:FE.
      rewrite E. cbn [fst snd]. exists mask. eexists.
      split; [exact L|]. split; [reflexivity|]. cbn [failed_urls].
      split; [now rewrite map_map | exact Fl].
    + destruct (phase1_zenrows_complete a w pages w1 U F) as (evs & E & _).
      pose proof (fetch_until_error_sources zenrows_get ARTICLE_URLS w) as S.
      rewrite F in S. rewrite E. cbn [fst snd].
      exists (map (fun _ => true) ARTICLE_URLS). eexists.
      split; [now rewrite length_map|]. split; [reflexivity|]. cbn [failed_urls].
      rewrite select_all, select_none, map_map.
      split; [exact S | reflexivity].
  - destruct (phase1_direct a w U) as (evs & E & _).
    destruct (M w) as (mask & L & C & Fl).
    remember (fetch_each direct_get ARTICLE_URLS w) as fe eqn:FE.
    rewrite E. cbn [fst snd]. exists mask. eexists.
    split; [exact L|]. split; [reflexivity|]. cbn [failed_urls].
    split; [now rewrite map_map | exact Fl].
Qed.

(** X4. On every path phase 1 splits the source list in two: the
    documents returned are those of some of the sources, in the order of
    the list, and [failed_urls] names exactly the other sources, in that
    order too; so the two together count fifteen and no source is both
    returned and listed as failed. *)
Theorem sources_split_between_documents_and_failures
    (a : phases) (w : World) (raw_reports : list raw_report)
    (a' : phases) (w' : World) (evs : list event) :
  phase1_data_collection a w = (raw_reports, a', w', evs) ->
  exists (mask : list bool) (d : phase1_data),
    phase1 a' = Some d
    /\ length mask = 15
    /\ map url raw_reports = select mask ARTICLE_URLS
    /\ map failed (failed_urls d) = select (map negb mask) ARTICLE_URLS
    /\ (forall r f, In r raw_reports -> In f (failed_urls d) -> url r <> failed f)
    /\ (forall r, In r raw_reports -> In (url r) ARTICLE_URLS).
Proof.
  intros H. destruct (phase1_mask a w) as (mask & d & L & P & R & Fl).
  rewrite H in P, R. cbn [fst snd] in P, R.
  exists mask, d. split; [exact P|]. split; [exact L|]. split; [exact R|].
  split; [exact Fl|]. split.
  - intros r f Hr Hf E.
    apply (select_disjoint mask ARTICLE_URLS (url r) ARTICLE_URLS_NoDup).
    + rewrite <- R. now apply in_map.
    + rewrite <- Fl, E. now apply in_map.
  - intros r Hr. apply (select_In mask). rewrite <- R. now apply in_map.
Qed.

(** X5. A preview is never more than two characters longer than its
    content, and it is longer exactly for the contents of 501 or 502
    characters. *)
Theorem preview_longer_than_content (c : string) :
  String.length (preview_of c) <= String.length c + 2
  /\ (String.length c < String.length (preview_of c)
      <-> 500 < String.length c < 503).
Proof.
  unfold preview_of. destruct (500 <? String.length c) eqn:L.
  - apply Nat.ltb_lt in L.
    rewrite length_append, length_slice_to. cbn [String.length].
    rewrite Nat.min_l by lia. lia.
  - apply Nat.ltb_ge in L. lia.
Qed.

(* ---------------------------------------------------------------- *)
(** ** Phase 2, beyond the claims *)
(* ---------------------------------------------------------------- *)

Lemma extract_loop_requests (raw : list raw_report) (docs : list document)
    (d : phase2_data) (w : World) :
  generate_requests (snd (snd (extract_loop raw docs d w))) =
    map (fun rep => EXTRACTION_PROMPT +++ content rep)
        (firstn (length (fst (fst (extract_until_error raw w)))
                 + match snd (fst (extract_until_error raw w)) with
                   | Some _ => 1
                   | None => 0
                   end) raw).
Proof.
  revert docs d w. induction raw as [|rep rest IH]; intros docs d w;
    cbn [extract_loop extract_until_error]; [reflexivity|].
  destruct (generate_content (EXTRACTION_PROMPT +++ content rep) w) as [[text|e] w1].
  - destruct (extracted_json text) as [ti|e]; [|reflexivity].
    match goal with
    | |- context [extract_loop rest ?ds ?dd w1] =>
        specialize (IH ds dd w1);
        destruct (extract_loop rest ds dd w1) as [res [[[docs2 d2] w2] evs]]
    end.
    destruct (extract_until_error rest w1) as [[done err] w3].
    cbn [fst snd length Nat.add firstn map] in *. observe_all. now rewrite IH.
  - reflexivity.
Qed.

(** The generation calls of phase 2, and the world it leaves, on every
    path. *)
Lemma phase2_generate_requests (raw : list raw_report) (a : phases) (w : World) :
  generate_requests (snd (phase2_information_extraction raw a w)) =
    (if USE_LLM && negb (is_empty raw) then
       map (fun rep => EXTRACTION_PROMPT +++ content rep)
           (firstn (length (fst (fst (extract_until_error raw w)))
                    + match snd (fst (extract_until_error raw w)) with
                      | Some _ => 1
                      | None => 0
                      end) raw)
     else [])
  /\ snd (fst (phase2_information_extraction raw a w)) =
       (if USE_LLM && negb (is_empty raw) then snd (extract_until_error raw w)
        else w).
Proof.
  unfold phase2_information_extraction, extraction_try, mock_block.
  destruct (USE_LLM && negb (is_empty raw)).
  - match goal with
    | |- context [extract_loop raw [] ?d w] =>
        pose proof (extract_loop_requests raw [] d w) as G;
        destruct (extract_loop_view raw [] d w) as (evs0 & E & _)
    end.
    rewrite E in G |- *. cbn [fst snd] in G.
    destruct (extract_until_error raw w) as [[done [e|]] w1];
      cbn [fst snd outcome_of] in *; step; cbn [orb].
    + destruct (mock_loop 0 MOCK_THREAT_INTEL_LIST [] _) as [docs1 d1].
      cbn [fst snd]. observe_all. rewrite G. split; [now rewrite ?app_nil_r | reflexivity].
    + destruct (is_empty ([] ++ map document_of done)).
      * destruct (mock_loop 0 MOCK_THREAT_INTEL_LIST [] _) as [docs1 d1].
        cbn [fst snd]. observe_all. rewrite G.
        split; [now rewrite ?app_nil_r | reflexivity].
      * cbn [fst snd]. observe_all. rewrite G.
        split; [now rewrite ?app_nil_r | reflexivity].
  - step. cbn [orb].
    destruct (mock_loop 0 MOCK_THREAT_INTEL_LIST [] _) as [docs1 d1].
    cbn [fst snd]. observe_all. split; reflexivity.
Qed.

(** X6. Phase 2 calls the language model only on its primary path: with
    the flag off or with nothing collected it makes no call and leaves the
    world untouched; otherwise it sends the extraction prompt followed by
    the content of each report, in order, and its last call is the first
    one that raises or that returns a text on which [json.loads] raises
    something else than [json.JSONDecodeError]; so never more calls than
    reports. *)
Theorem generation_calls_of_extraction
    (raw_reports : list raw_report) (a : phases) (w : World)
    (docs : list document) (a' : phases) (w' : World) (evs : list event) :
  phase2_information_extraction raw_reports a w = (docs, a', w', evs) ->
  (USE_LLM = false \/ raw_reports = [] ->
   generate_requests evs = [] /\ w' = w)
  /\ (forall (done : list extraction) (err : option exn) (w1 : World),
         USE_LLM = true -> raw_reports <> [] ->
         extract_until_error raw_reports w = (done, err, w1) ->
         generate_requests evs =
           map (fun rep => EXTRACTION_PROMPT +++ content rep)
               (firstn (length done + match err with Some _ => 1 | None => 0 end)
                       raw_reports)
         /\ length (generate_requests evs) <= length raw_reports
         /\ w' = w1)
  /\ (forall (done : list extraction) (e : exn) (w1 : World),
         extract_until_error raw_reports w = (done, Some e, w1) ->
         exists (rep : raw_report) (rest : list raw_report) (w0 : World),
           raw_reports = map ex_report done ++ rep :: rest
           /\ (generate_content (EXTRACTION_PROMPT +++ content rep) w0
               = (Raise e, w1)
               \/ exists text : string,
                    generate_content (EXTRACTION_PROMPT +++ content rep) w0
                    = (Ok text, w1)
                    /\ json_loads (strip text) = DecodeRaise e)).
Proof.
  intros H. destruct (phase2_generate_requests raw_reports a w) as [G W].
  rewrite H in G, W. cbn [fst snd] in G, W. split; [|split].
  - intros T.
    assert (B : USE_LLM && negb (is_empty raw_reports) = false).
    { destruct T as [-> | ->]; [reflexivity | apply andb_false_r]. }
    rewrite B in G, W. auto.
  - intros done err w1 L N F.
    rewrite L, (is_empty_false _ N), F in G, W. cbn [andb negb fst snd] in G, W.
    split; [exact G|]. split; [|exact W].
    rewrite G, length_map, length_firstn. apply Nat.le_min_r.
  - intros done e w1 F. exact (extract_until_error_stops _ _ _ _ _ F).
Qed.

(** X7. Whatever the path, phase 2 returns at least one document;
    [document_count] is the number returned; the returned sequence is the
    tail of the logged [documents]; with [used_mock] unset it is one
    document per report and nothing else was logged, with [used_mock] set
    it is the fifteen substitutes; and an error is logged only together
    with both [used_llm] and [used_mock]. *)
Theorem extraction_log_invariants
    (raw_reports : list raw_report) (a : phases) (w : World)
    (docs : list document) (a' : phases) (w' : World) (evs : list event) :
  phase2_information_extraction raw_reports a w = (docs, a', w', evs) ->
  docs <> []
  /\ exists (d : phase2_data) (earlier : list document),
      phase2 a' = Some d
      /\ document_count d = length docs
      /\ documents d = earlier ++ docs
      /\ (if used_mock d
          then docs = mock_documents 1 MOCK_THREAT_INTEL_LIST /\ length docs = 15
          else earlier = [] /\ length docs = length raw_reports
               /\ used_llm d = true /\ p2_error d = None)
      /\ (p2_error d <> None -> used_llm d = true /\ used_mock d = true)
      /\ (used_llm d = false -> earlier = []).
Proof.
  intros H.
  assert (M15 : length (mock_documents 1 MOCK_THREAT_INTEL_LIST) = 15).
  { now rewrite length_mock_documents. }
  assert (MN : mock_documents 1 MOCK_THREAT_INTEL_LIST <> []).
  { intros E. rewrite E in M15. discriminate M15. }
  destruct USE_LLM eqn:L.
  - destruct raw_reports as [|r0 rest] eqn:R.
    + destruct (phase2_disabled [] a w (or_intror eq_refl)) as (evs1 & E & _).
      rewrite E in H. injection H as <- <- <- <-. split; [exact MN|].
      eexists. exists []. split; [reflexivity|].
      cbn [document_count documents used_mock used_llm p2_error app].
      repeat split; auto; intros N; congruence.
    + assert (N : r0 :: rest <> []) by discriminate.
      destruct (extract_until_error (r0 :: rest) w) as [[done [e|]] w1] eqn:G.
      * destruct (phase2_failed _ a w done e w1 L N G) as (evs1 & E & _).
        rewrite E in H. injection H as <- <- <- <-. split; [exact MN|].
        eexists. exists (map document_of done). split; [reflexivity|].
        cbn [document_count documents used_mock used_llm p2_error app].
        repeat split; auto; discriminate.
      * destruct (phase2_complete _ a w done w1 L N G) as (evs1 & E & _).
        pose proof (extract_until_error_complete _ _ _ _ G) as M.
        rewrite E in H. injection H as <- <- <- <-.
        assert (LD : length done = length (r0 :: rest)).
        { now rewrite <- M, length_map. }
        split.
        { intros Z. apply (f_equal (@length document)) in Z.
          rewrite length_map, LD in Z. discriminate Z. }
        eexists. exists []. split; [reflexivity|].
        cbn [document_count documents used_mock used_llm p2_error app].
        repeat split; auto; try (now rewrite length_map); try congruence.
  - destruct (phase2_disabled raw_reports a w (or_introl L)) as (evs1 & E & _).
    rewrite E in H. injection H as <- <- <- <-. split; [exact MN|].
    eexists. exists []. split; [reflexivity|].
    cbn [document_count documents used_mock used_llm p2_error app].
    repeat split; auto; intros N; congruence.
Qed.

(* ---------------------------------------------------------------- *)
(** ** Phase 3 *)
(* ---------------------------------------------------------------- *)

Lemma join_items_returns (i : nat) (items : list json) :
  forallb (fun x => match x with JString _ => true | _ => false end) items = true
  <-> exists l, join_items i items = Ok l.
Proof.
  revert i. induction items as [|v items IH]; intros i; cbn [forallb join_items].
  - split; [intros _; eexists; reflexivity | reflexivity].
  - destruct v; cbn [andb]; try (split; [discriminate | intros [l H]; discriminate H]).
    rewrite (IH (S i)). split.
    + intros [l ->]. eexists; reflexivity.
    + destruct (join_items (S i) items) as [l'|e];
        [intros _; eexists; reflexivity | intros [l H]; discriminate H].
Qed.

Lemma joinable_returns (v : json) :
  joinable v = true <-> exists s, join_value v = Ok s.
Proof.
  destruct v; cbn [joinable join_value];
    try (split; [discriminate | intros [s H]; discriminate H]);
    try (split; [intros _; eexists; reflexivity | reflexivity]).
  split.
  - intros H. apply (join_items_returns 0) in H. destruct H as [l ->].
    eexists; reflexivity.
  - intros [s H]. apply (join_items_returns 0).
    destruct (join_items 0 items) as [l|e]; [eexists; reflexivity | discriminate H].
Qed.

Lemma joined_field_returns (ti : json) (key : string) :
  match ti with
  | JObject members =>
      match dict_get members key with
      | Some v => joinable v
      | None => true
      end
  | _ => true
  end = true
  <-> exists s, joined_field ti key = Ok s.
Proof.
  destruct ti; cbn [joined_field];
    try (split; [intros _; eexists; reflexivity | reflexivity]).
  destruct (dict_get members key) as [v|];
    [apply joinable_returns | split; [intros _; eexists; reflexivity | reflexivity]].
Qed.

(** A document is displayable exactly when none of the three joins of
    the display loop raises on it. *)
Lemma displayable_spec (doc : document) :
  displayable doc = true <->
  exists s1 s2 s3,
    joined_field (threat_intelligence doc) "aliases" = Ok s1
    /\ joined_field (threat_intelligence doc) "ttps" = Ok s2
    /\ joined_field (threat_intelligence doc) "targets" = Ok s3.
Proof.
  pose proof (joined_field_returns (threat_intelligence doc) "aliases") as A.
  pose proof (joined_field_returns (threat_intelligence doc) "ttps") as T.
  pose proof (joined_field_returns (threat_intelligence doc) "targets") as G.
  unfold displayable.
  destruct (threat_intelligence doc); cbn [forallb];
    try (split; [intros _ | reflexivity];
         destruct (proj1 A eq_refl) as [s1 ?]; destruct (proj1 T eq_refl) as [s2 ?];
         destruct (proj1 G eq_refl) as [s3 ?]; exists s1, s2, s3; auto).
  rewrite andb_true_r, !andb_true_iff, A, T, G. split.
  - intros ([s1 ?] & [s2 ?] & [s3 ?]). exists s1, s2, s3; auto.
  - intros (s1 & s2 & s3 & ? & ? & ?). repeat split; eexists; eassumption.
Qed.

Lemma add_entries (d : phase3_data) (e : kb_entry) (es : list kb_entry) :
  {| p3_description := p3_description (add_entry e d);
     total_entries := total_entries (add_entry e d);
     entries := entries (add_entry e d) ++ es;
     p3_error := p3_error (add_entry e d) |}
  = {| p3_description := p3_description d;
       total_entries := total_entries d;
       entries := entries d ++ e :: es;
       p3_error := p3_error d |}.
Proof. cbn [add_entry p3_description total_entries entries p3_error]. now rewrite <- app_assoc. Qed.

(** The display loop logs the entries of the documents before the first
    one it cannot get through, and completes exactly when there is
    none. *)
Lemma display_loop_view (i : nat) (docs : list document) (d : phase3_data) :
  snd (fst (display_loop i docs d)) =
    {| p3_description := p3_description d;
       total_entries := total_entries d;
       entries := entries d ++ entries_of i (displayed docs);
       p3_error := p3_error d |}
  /\ (forallb displayable docs = true <-> fst (fst (display_loop i docs d)) = Ok tt)
  /\ add_requests (snd (display_loop i docs d)) = [].
Proof.
  revert i d. induction docs as [|doc rest IH]; intros i d;
    cbn [display_loop displayed forallb].
  - cbn [fst snd]. unfold entries_of. cbn [length seq combine map].
    rewrite app_nil_r. destruct d; split; [reflexivity|]. split; [tauto | reflexivity].
  - pose proof (displayable_spec doc) as DS.
    destruct (displayable doc) eqn:Dd.
    + destruct (proj1 DS eq_refl) as (s1 & s2 & s3 & J1 & J2 & J3).
      rewrite J1, J2, J3.
      match goal with
      | |- context [display_loop (S i) rest ?dd] =>
          destruct (IH (S i) dd) as (IH1 & IH2 & IH3);
          destruct (display_loop (S i) rest dd) as [[r d1] evs]
      end.
      cbn [fst snd andb] in *. split; [|split; [exact IH2|]].
      * rewrite IH1, add_entries. unfold entries_of.
        cbn [length seq combine map]. do 2 f_equal.
        unfold entry_of, joined_text. cbn [fst snd]. now rewrite J1, J2, J3.
      * observe_all. exact IH3.
    + cbn [andb].
      destruct (joined_field (threat_intelligence doc) "aliases") as [s1|e1] eqn:J1;
        [destruct (joined_field (threat_intelligence doc) "ttps") as [s2|e2] eqn:J2;
         [destruct (joined_field (threat_intelligence doc) "targets") as [s3|e3] eqn:J3|]|].
      * exfalso. assert (X : false = true) by (apply DS; exists s1, s2, s3; auto).
        discriminate X.
      * cbn [fst snd]. unfold entries_of. cbn [length seq combine map].
        rewrite app_nil_r. destruct d.
        split; [reflexivity | split; [split; discriminate | reflexivity]].
      * cbn [fst snd]. unfold entries_of. cbn [length seq combine map].
        rewrite app_nil_r. destruct d.
        split; [reflexivity | split; [split; discriminate | reflexivity]].
      * cbn [fst snd]. unfold entries_of. cbn [length seq combine map].
        rewrite app_nil_r. destruct d.
        split; [reflexivity | split; [split; discriminate | reflexivity]].
Qed.

(** The display loop asks nothing of the embedding model. *)
Lemma display_loop_no_encode (i : nat) (docs : list document) (d : phase3_data) :
  encode_requests (snd (display_loop i docs d)) = [].
Proof.
  revert i d. induction docs as [|doc rest IH]; intros i d;
    cbn [display_loop]; [reflexivity|].
  destruct (joined_field (threat_intelligence doc) "aliases"); [|reflexivity].
  destruct (joined_field (threat_intelligence doc) "ttps"); [|reflexivity].
  destruct (joined_field (threat_intelligence doc) "targets"); [|reflexivity].
  match goal with
  | |- context [display_loop (S i) rest ?dd] =>
      specialize (IH (S i) dd);
      destruct (display_loop (S i) rest dd) as [[r d1] evs]
  end.
  cbn [snd] in *. observe_all. exact IH.
Qed.

(** The indexing loop inserts the documents by position, identifier
    [str(idx)], and stops at the first serialisation, encoding or
    insertion that raises. *)
Lemma index_loop_view (idx : nat) (docs : list document)
    (model : EmbeddingModel) (coll : Collection) (w : World) :
  fst (fst (index_loop idx docs model coll w)) =
    outcome_of (snd (fst (index_until_error idx docs model coll w))) (fun e => e)
  /\ snd (fst (index_loop idx docs model coll w)) =
       snd (index_until_error idx docs model coll w)
  /\ fst (fst (index_until_error idx docs model coll w)) <= length docs
  /\ (exists j,
        fst (fst (index_until_error idx docs model coll w)) <= j
        /\ j <= fst (fst (index_until_error idx docs model coll w)) + 1
        /\ add_requests (snd (index_loop idx docs model coll w)) =
             firstn j (combine (map str_of_nat (seq idx (length (dumped docs))))
                               (dumped docs)))
  /\ (exists j,
        fst (fst (index_until_error idx docs model coll w)) <= j
        /\ j <= fst (fst (index_until_error idx docs model coll w)) + 1
        /\ encode_requests (snd (index_loop idx docs model coll w)) =
             firstn j (dumped docs))
  /\ (snd (fst (index_until_error idx docs model coll w)) = None ->
      fst (fst (index_until_error idx docs model coll w)) = length docs
      /\ map Ok (dumped docs) = map json_dumps docs
      /\ add_requests (snd (index_loop idx docs model coll w)) =
           combine (map str_of_nat (seq idx (length (dumped docs)))) (dumped docs)
      /\ encode_requests (snd (index_loop idx docs model coll w)) = dumped docs).
Proof.
  revert idx w. induction docs as [|doc rest IH]; intros idx w;
    cbn [index_loop index_until_error dumped].
  - cbn [fst snd outcome_of length].
    split; [reflexivity|]. split; [reflexivity|]. split; [lia|]. split.
    + exists 0. split; [lia|]. split; [lia | reflexivity].
    + split.
      * exists 0. split; [lia|]. split; [lia | reflexivity].
      * intros _. repeat split; reflexivity.
  - destruct (json_dumps doc) as [doc_str|e] eqn:JD.
    + destruct (encode model doc_str w) as [[emb|e] w1].
      * destruct (collection_add coll doc_str emb (str_of_nat idx) w1)
          as [[[]|e] w2].
        -- destruct (IH (S idx) w2)
             as (I1 & I2 & I3 & (j & J1 & J2 & J3) & (j' & K1 & K2 & K3) & I5).
           destruct (index_loop (S idx) rest model coll w2) as [[r w3] evs].
           destruct (index_until_error (S idx) rest model coll w2) as [[k err] w4].
           cbn [fst snd length seq map combine] in *.
           split; [exact I1|]. split; [exact I2|]. split; [lia|]. split.
           ++ exists (S j). split; [lia|]. split; [lia|].
              observe_all. rewrite J3. reflexivity.
           ++ split.
              ** exists (S j'). split; [lia|]. split; [lia|].
                 observe_all. rewrite K3. reflexivity.
              ** intros E. destruct (I5 E) as (K & M & A & B). split; [lia|].
                 split; [cbn [map]; now rewrite M, JD|].
                 split; observe_all; [now rewrite A | now rewrite B].
        -- cbn [fst snd outcome_of length seq map combine].
           split; [reflexivity|]. split; [reflexivity|]. split; [lia|]. split.
           ++ exists 1. split; [lia|]. split; [lia | reflexivity].
           ++ split; [|discriminate].
              exists 1. split; [lia|]. split; [lia | reflexivity].
      * cbn [fst snd outcome_of length seq map combine].
        split; [reflexivity|]. split; [reflexivity|]. split; [lia|]. split.
        -- exists 0. split; [lia|]. split; [lia | reflexivity].
        -- split; [|discriminate].
           exists 1. split; [lia|]. split; [lia | reflexivity].
    + cbn [fst snd outcome_of length seq map combine].
      split; [reflexivity|]. split; [reflexivity|]. split; [lia|]. split.
      * exists 0. split; [lia|]. split; [lia | reflexivity].
      * split; [|discriminate].
        exists 0. split; [lia|]. split; [lia | reflexivity].
Qed.

(** When the document after the inserted ones cannot be serialised, the
    loop stopped there, with that exception. *)
Lemma index_until_error_dumps (idx : nat) (docs : list document)
    (model : EmbeddingModel) (coll : Collection) (w : World)
    (k : nat) (err : option exn) (w3 : World) (doc : document) (e : exn) :
  index_until_error idx docs model coll w = (k, err, w3) ->
  nth_error docs k = Some doc -> json_dumps doc = Raise e ->
  err = Some e /\ length (dumped docs) = k.
Proof.
  revert idx w k. induction docs as [|d0 rest IH]; intros idx w k;
    cbn [index_until_error dumped].
  - intros _ N. destruct k; discriminate N.
  - destruct (json_dumps d0) as [doc_str|e0] eqn:JD.
    + destruct (encode model doc_str w) as [[emb|e1] w1].
      * destruct (collection_add coll doc_str emb (str_of_nat idx) w1)
          as [[[]|e2] w2].
        -- destruct (index_until_error (S idx) rest model coll w2)
             as [[k' err'] w4] eqn:IX.
           intros H N D. injection H as <- <- <-. cbn [nth_error] in N.
           destruct (IH _ _ _ IX N D) as [-> L]. cbn [length]. auto.
        -- intros H N D. injection H as <- <- <-. cbn [nth_error] in N.
           injection N as <-. congruence.
      * intros H N D. injection H as <- <- <-. cbn [nth_error] in N.
        injection N as <-. congruence.
    + intros H N D. injection H as <- <- <-. cbn [nth_error] in N.
      injection N as <-. rewrite JD in D. injection D as <-. auto.
Qed.

(** X8. Phase 3 always returns, and its handles tell how far the set-up
    went: no handle at all when loading the embedding model raises, the
    model alone when opening the collection raises, and both handles as
    soon as the collection is open, whatever happens to the indexing and
    the display afterwards. A collection handle never comes without the
    model handle. *)
Theorem indexer_handles
    (docs : list document) (a : phases) (w : World)
    (collection : option Collection) (embedding_model : option EmbeddingModel)
    (a' : phases) (w' : World) (evs : list event) :
  phase3_build_knowledge_base docs a w =
    ((collection, embedding_model), a', w', evs) ->
  (forall e w1,
      load_model w = (Raise e, w1) ->
      collection = None /\ embedding_model = None /\ w' = w1
      /\ add_requests evs = []
      /\ exists d, phase3 a' = Some d
                   /\ p3_error d = Some (str_of_exn e) /\ entries d = [])
  /\ (forall m w1 e w2,
         load_model w = (Ok m, w1) ->
         open_collection w1 = (Raise e, w2) ->
         collection = None /\ embedding_model = Some m /\ w' = w2
         /\ add_requests evs = []
         /\ exists d, phase3 a' = Some d
                      /\ p3_error d = Some (str_of_exn e) /\ entries d = [])
  /\ (forall m w1 c w2,
         load_model w = (Ok m, w1) ->
         open_collection w1 = (Ok c, w2) ->
         collection = Some c /\ embedding_model = Some m)
  /\ (is_some collection = true -> is_some embedding_model = true).
Proof.
  intros H. unfold phase3_build_knowledge_base, build_try in H.
  destruct (load_model w) as [[m0|e0] w1'] eqn:LM.
  - destruct (open_collection w1') as [[c0|e1] w2'] eqn:OC.
    + destruct (index_loop 0 docs m0 c0 w2') as [[[[]|e2] w3] evs3].
      * destruct (display_loop 1 docs (phase3_initial docs)) as [[[[]|e3] d1] evs4];
          injection H as <- <- <- <- <-;
          (split; [intros ? ? X; discriminate X|];
           split; [intros ? ? ? ? X Y; injection X as <- <-; rewrite OC in Y;
                   discriminate Y|];
           split; [intros ? ? ? ? X Y; injection X as <- <-; rewrite OC in Y;
                   injection Y as <- <-; auto | auto]).
      * injection H as <- <- <- <- <-.
        split; [intros ? ? X; discriminate X|].
        split; [intros ? ? ? ? X Y; injection X as <- <-; rewrite OC in Y;
                discriminate Y|].
        split; [intros ? ? ? ? X Y; injection X as <- <-; rewrite OC in Y;
                injection Y as <- <-; auto | auto].
    + injection H as <- <- <- <- <-.
      split; [intros ? ? X; discriminate X|].
      split.
      * intros ? ? ? ? X Y. injection X as <- <-. rewrite OC in Y.
        injection Y as <- <-. repeat split.
        eexists. split; [reflexivity|]. split; reflexivity.
      * split; [intros ? ? ? ? X Y; injection X as <- <-; rewrite OC in Y;
                discriminate Y | discriminate].
  - injection H as <- <- <- <- <-. split.
    + intros ? ? X. injection X as <- <-. repeat split.
      eexists. split; [reflexivity|]. split; reflexivity.
    + split; [intros ? ? ? ? X; discriminate X|].
      split; [intros ? ? ? ? X; discriminate X | discriminate].
Qed.

Lemma displayed_prefix (docs : list document) :
  displayed docs = firstn (length (displayed docs)) docs
  /\ length (displayed docs) <= length docs
  /\ (forallb displayable docs = true <-> displayed docs = docs).
Proof.
  induction docs as [|doc rest (IH1 & IH2 & IH3)]; cbn [displayed forallb].
  - repeat split; auto.
  - destruct (displayable doc); cbn [length firstn andb].
    + split; [now rewrite <- IH1|]. split; [lia|]. rewrite IH3. split.
      * now intros ->.
      * intros E. now injection E.
    + split; [reflexivity|]. split; [lia|]. split; discriminate.
Qed.

Lemma entries_of_fields (first : nat) (docs : list document) :
  length (entries_of first docs) = length docs
  /\ map entry_index (entries_of first docs) = seq first (length docs)
  /\ map entry_title (entries_of first docs) = map doc_title docs
  /\ map entry_source (entries_of first docs) = map doc_source docs.
Proof.
  unfold entries_of. revert first.
  induction docs as [|doc rest IH]; intros first; cbn [length seq combine map].
  - repeat split.
  - destruct (IH (S first)) as (I1 & I2 & I3 & I4).
    cbn [entry_of fst snd entry_index entry_title entry_source].
    rewrite I1, I2, I3, I4. repeat split.
Qed.

Lemma map_fst_combine_same {A B : Type} (l : list A) (l' : list B) :
  length l = length l' -> map fst (combine l l') = l.
Proof.
  revert l'. induction l as [|x l IH]; intros [|y l'] L; cbn [combine map fst];
    try reflexivity; try discriminate L.
  f_equal. apply IH. now injection L.
Qed.

Lemma map_snd_combine_same {A B : Type} (l : list A) (l' : list B) :
  length l = length l' -> map snd (combine l l') = l'.
Proof.
  revert l'. induction l as [|x l IH]; intros [|y l'] L; cbn [combine map snd];
    try reflexivity; try discriminate L.
  f_equal. apply IH. now injection L.
Qed.

(** Phase 3 once the model is loaded and the collection open. *)
Lemma phase3_after_setup (docs : list document) (a : phases) (w : World)
    (m : EmbeddingModel) (w1 : World) (c : Collection) (w2 : World) :
  load_model w = (Ok m, w1) ->
  open_collection w1 = (Ok c, w2) ->
  exists (d : phase3_data) (evs : list event),
    phase3_build_knowledge_base docs a w =
      ((Some c, Some m), set_phase3 d a, snd (index_until_error 0 docs m c w2), evs)
    /\ total_entries d = length docs
    /\ (exists j,
          fst (fst (index_until_error 0 docs m c w2)) <= j
          /\ j <= fst (fst (index_until_error 0 docs m c w2)) + 1
          /\ add_requests evs = firstn j (insertions_of docs))
    /\ (forall e,
          snd (fst (index_until_error 0 docs m c w2)) = Some e ->
          entries d = [] /\ p3_error d = Some (str_of_exn e))
    /\ (snd (fst (index_until_error 0 docs m c w2)) = None ->
        add_requests evs = insertions_of docs
        /\ entries d = entries_of 1 (displayed docs)
        /\ (p3_error d = None <-> forallb displayable docs = true))
    /\ (exists j,
          fst (fst (index_until_error 0 docs m c w2)) <= j
          /\ j <= fst (fst (index_until_error 0 docs m c w2)) + 1
          /\ encode_requests evs = firstn j (dumped docs))
    /\ (snd (fst (index_until_error 0 docs m c w2)) = None ->
        map Ok (dumped docs) = map json_dumps docs
        /\ encode_requests evs = dumped docs).
Proof.
  intros LM OC. unfold phase3_build_knowledge_base, build_try. rewrite LM, OC.
  destruct (index_loop_view 0 docs m c w2)
    as (I1 & I2 & I3 & (j & J1 & J2 & J3) & (j' & K1 & K2 & K3) & I5).
  destruct (index_loop 0 docs m c w2) as [[r w3] evs3].
  destruct (index_until_error 0 docs m c w2) as [[k err] w4].
  cbn [fst snd] in *. subst w3.
  destruct err as [e|]; cbn [outcome_of] in I1; subst r.
  - do 2 eexists. split; [reflexivity|].
    cbn [set_p3_error phase3_initial total_entries entries p3_error].
    split; [reflexivity|]. split.
    + exists j. split; [exact J1|]. split; [exact J2|]. observe_all.
      now rewrite app_nil_r.
    + split; [|split; [discriminate|split; [|discriminate]]].
      * intros e' E. injection E as <-. auto.
      * exists j'. split; [exact K1|]. split; [exact K2|]. observe_all.
        now rewrite app_nil_r.
  - destruct (I5 eq_refl) as (K & M & A & B).
    destruct (display_loop_view 1 docs (phase3_initial docs)) as (D1 & D2 & D3).
    pose proof (display_loop_no_encode 1 docs (phase3_initial docs)) as D4.
    destruct (display_loop 1 docs (phase3_initial docs)) as [[[[]|e] d1] evs4];
      cbn [fst snd] in *; subst d1.
    + do 2 eexists. split; [reflexivity|].
      cbn [phase3_initial total_entries entries p3_error app].
      split; [reflexivity|]. split.
      * exists j. split; [exact J1|]. split; [exact J2|]. observe_all.
        rewrite D3, app_nil_r. exact J3.
      * split; [discriminate|]. split.
        -- intros _. split.
           ++ observe_all. now rewrite D3, app_nil_r.
           ++ split; [reflexivity|]. split; [intros _; now apply D2 | reflexivity].
        -- split.
           ++ exists j'. split; [exact K1|]. split; [exact K2|]. observe_all.
              rewrite D4, app_nil_r. exact K3.
           ++ intros _. split; [exact M|]. observe_all.
              now rewrite D4, app_nil_r.
    + do 2 eexists. split; [reflexivity|].
      cbn [set_p3_error phase3_initial total_entries entries p3_error app].
      split; [reflexivity|]. split.
      * exists j. split; [exact J1|]. split; [exact J2|]. observe_all.
        rewrite D3, !app_nil_r. exact J3.
      * split; [discriminate|]. split.
        -- intros _. split.
           ++ observe_all. now rewrite D3, !app_nil_r.
           ++ split; [reflexivity|]. split; [discriminate|].
              intros F. apply D2 in F. discriminate F.
        -- split.
           ++ exists j'. split; [exact K1|]. split; [exact K2|]. observe_all.
              rewrite D4, !app_nil_r. exact K3.
           ++ intros _. split; [exact M|]. observe_all.
              now rewrite D4, !app_nil_r.
Qed.

(** X9. Once the collection is open, each document is serialised, then
    encoded, then inserted under the identifier [str(idx)] counted from 0
    with its serialised text, and the first of these steps that raises
    ends the loop. So the insertions asked for are a prefix of the
    documents by position: all of them when no serialisation, encoding or
    insertion raises; and when [json.dumps] raises on a document, that
    document is neither encoded nor inserted, the ones before it are, and
    the error is logged with an empty summary. *)
Theorem insertions_by_position
    (docs : list document) (a : phases) (w : World)
    (m : EmbeddingModel) (w1 : World) (c : Collection) (w2 : World)
    (k : nat) (err : option exn) (w3 : World)
    (handles : option Collection * option EmbeddingModel)
    (a' : phases) (w' : World) (evs : list event) :
  load_model w = (Ok m, w1) ->
  open_collection w1 = (Ok c, w2) ->
  index_until_error 0 docs m c w2 = (k, err, w3) ->
  phase3_build_knowledge_base docs a w = (handles, a', w', evs) ->
  w' = w3
  /\ (exists j, k <= j /\ j <= k + 1
                /\ add_requests evs = firstn j (insertions_of docs))
  /\ (exists j, k <= j /\ j <= k + 1
                /\ encode_requests evs = firstn j (dumped docs))
  /\ (err = None ->
      add_requests evs = insertions_of docs
      /\ map fst (add_requests evs) = map str_of_nat (seq 0 (length docs))
      /\ map Ok (map snd (add_requests evs)) = map json_dumps docs
      /\ map Ok (encode_requests evs) = map json_dumps docs)
  /\ (forall e, err = Some e ->
        exists d, phase3 a' = Some d
                  /\ entries d = [] /\ p3_error d = Some (str_of_exn e)
                  /\ total_entries d = length docs)
  /\ (forall doc e,
        nth_error docs k = Some doc -> json_dumps doc = Raise e ->
        err = Some e
        /\ length (encode_requests evs) = k
        /\ length (add_requests evs) = k
        /\ map Ok (encode_requests evs) = map json_dumps (firstn k docs)).
Proof.
  intros LM OC IX H.
  destruct (phase3_after_setup docs a w m w1 c w2 LM OC)
    as (d & evs1 & E & T & J & B & G & JE & GE).
  rewrite IX in E, J, B, G, JE, GE. cbn [fst snd] in E, J, B, G, JE, GE.
  rewrite E in H. injection H as <- <- <- <-.
  split; [reflexivity|]. split; [exact J|]. split; [exact JE|]. split; [|split].
  - intros N. destruct (G N) as (A & _). destruct (GE N) as (M & Q).
    assert (L : length (dumped docs) = length docs).
    { rewrite <- (length_map Ok (dumped docs)), M. apply length_map. }
    split; [exact A|]. rewrite A, Q.
    unfold insertions_of. split; [|split].
    + rewrite map_fst_combine_same; [now rewrite L|].
      now rewrite !length_map, length_seq.
    + rewrite map_snd_combine_same; [exact M|].
      now rewrite !length_map, length_seq.
    + exact M.
  - intros e N. destruct (B e N) as (B1 & B2).
    exists d. split; [reflexivity|]. auto.
  - intros doc e N D.
    destruct (index_until_error_dumps _ _ _ _ _ _ _ _ _ _ IX N D) as [-> L].
    destruct J as (j & J1 & J2 & J3). destruct JE as (j' & K1 & K2 & K3).
    assert (LI : length (insertions_of docs) = k).
    { unfold insertions_of.
      rewrite length_combine, !length_map, length_seq, L. apply Nat.min_id. }
    assert (P : map Ok (dumped docs) = map json_dumps (firstn k docs)).
    { clear - L N. revert k L N. induction docs as [|d0 rest IH]; intros k L N.
      - destruct k; discriminate N.
      - cbn [dumped] in *. destruct (json_dumps d0) as [s0|e0] eqn:JD.
        + cbn [length] in L. destruct k as [|k']; [discriminate L|].
          injection L as L. cbn [nth_error] in N.
          cbn [firstn map]. rewrite JD. f_equal. now apply IH.
        + cbn [length] in L. subst k. reflexivity. }
    split; [reflexivity|].
    rewrite J3, K3, !firstn_all2 by lia.
    split; [exact L|]. split; [exact LI | exact P].
Qed.

(** X10. Phase 3 always logs [total_entries] as the number of documents
    it received, even when it builds nothing. The entries it logs are those
    of the first documents, numbered from 1 with their titles and sources;
    with no error logged there is one entry per document. *)
Theorem summary_entries
    (docs : list document) (a : phases) (w : World)
    (handles : option Collection * option EmbeddingModel)
    (a' : phases) (w' : World) (evs : list event) :
  phase3_build_knowledge_base docs a w = (handles, a', w', evs) ->
  exists (d : phase3_data) (n : nat),
    phase3 a' = Some d
    /\ total_entries d = length docs
    /\ n <= length docs
    /\ entries d = entries_of 1 (firstn n docs)
    /\ map entry_index (entries d) = seq 1 n
    /\ map entry_title (entries d) = map doc_title (firstn n docs)
    /\ map entry_source (entries d) = map doc_source (firstn n docs)
    /\ (p3_error d = None -> n = length docs /\ handles <> (None, None)).
Proof.
  intros H.
  assert (Z : forall d, entries d = [] -> total_entries d = length docs ->
              p3_error d <> None ->
              exists n, total_entries d = length docs /\ n <= length docs
                /\ entries d = entries_of 1 (firstn n docs)
                /\ map entry_index (entries d) = seq 1 n
                /\ map entry_title (entries d) = map doc_title (firstn n docs)
                /\ map entry_source (entries d) = map doc_source (firstn n docs)
                /\ (p3_error d = None -> n = length docs /\ handles <> (None, None))).
  { intros d E T N. exists 0. rewrite E. cbn [firstn map seq].
    split; [exact T|]. split; [lia|]. do 4 (split; [reflexivity|]).
    intros X. congruence. }
  destruct (load_model w) as [[m|e] w1] eqn:LM.
  - destruct (open_collection w1) as [[c|e] w2] eqn:OC.
    + destruct (phase3_after_setup docs a w m w1 c w2 LM OC)
        as (d & evs1 & E & T & _ & B & G & _).
      rewrite E in H. injection H as <- <- <- <-.
      destruct (snd (fst (index_until_error 0 docs m c w2))) as [e|] eqn:IX.
      * destruct (B e eq_refl) as [B1 B2].
        destruct (Z d B1 T) as (n & Zn); [congruence|].
        exists d, n. split; [reflexivity | exact Zn].
      * destruct (G eq_refl) as (_ & G2 & G3).
        destruct (displayed_prefix docs) as (P1 & P2 & P3).
        destruct (entries_of_fields 1 (displayed docs)) as (F1 & F2 & F3 & F4).
        exists d, (length (displayed docs)). split; [reflexivity|].
        rewrite G2, <- P1. split; [exact T|]. split; [exact P2|].
        split; [reflexivity|]. split; [exact F2|]. split; [exact F3|].
        split; [exact F4|]. intros N. split; [|discriminate].
        apply G3 in N. apply P3 in N. now rewrite N.
    + unfold phase3_build_knowledge_base, build_try in H. rewrite LM, OC in H.
      injection H as <- <- <- <-.
      destruct (Z (set_p3_error (str_of_exn e) (phase3_initial docs)))
        as (n & Zn); try reflexivity; try discriminate.
      eexists. exists n. split; [reflexivity | exact Zn].
  - unfold phase3_build_knowledge_base, build_try in H. rewrite LM in H.
    injection H as <- <- <- <-.
    destruct (Z (set_p3_error (str_of_exn e) (phase3_initial docs)))
      as (n & Zn); try reflexivity; try discriminate.
    eexists. exists n. split; [reflexivity | exact Zn].
Qed.

(** X11. The display gets through every document exactly when none of
    its three joins raises. The documents the Extractor makes up itself
    never stop it: the fifteen substitutes are displayable, and so is the
    wrapper of a response that [json.loads] refused with
    [json.JSONDecodeError], which is shown with actor ["Unknown"] and
    empty fields. So when the set-up succeeds and no serialisation,
    encoding or insertion raises, the summary of displayable documents is
    complete and no error is logged, while a document that is not
    displayable ends the summary with an error. *)
Theorem fabricated_documents_are_displayable :
  forallb displayable (mock_documents 1 MOCK_THREAT_INTEL_LIST) = true
  /\ (forall (rep : raw_report) (text : string) (i : nat),
         json_loads (strip text) = JSONDecodeError ->
         exists ti : json,
           extracted_json text = Ok ti
           /\ displayable
                (document_of {| ex_report := rep; ex_text := text;
                                ex_json := ti |}) = true
           /\ entry_of (i, document_of {| ex_report := rep; ex_text := text;
                                          ex_json := ti |}) =
                {| entry_index := i;
                   entry_actor := JString "Unknown";
                   entry_title := title rep;
                   entry_source := url rep;
                   entry_aliases := EmptyString;
                   entry_ttps := EmptyString;
                   entry_targets := EmptyString |})
  /\ (forall (docs : list document) (a : phases) (w : World)
             (m : EmbeddingModel) (w1 : World) (c : Collection) (w2 : World)
             (k : nat) (w3 : World)
             (handles : option Collection * option EmbeddingModel)
             (a' : phases) (w' : World) (evs : list event),
         load_model w = (Ok m, w1) ->
         open_collection w1 = (Ok c, w2) ->
         index_until_error 0 docs m c w2 = (k, None, w3) ->
         phase3_build_knowledge_base docs a w = (handles, a', w', evs) ->
         map Ok (dumped docs) = map json_dumps docs
         /\ exists d : phase3_data,
           phase3 a' = Some d
           /\ (forallb displayable docs = true ->
               p3_error d = None /\ entries d = entries_of 1 docs
               /\ length (entries d) = length docs)
           /\ (forallb displayable docs = false ->
               p3_error d <> None /\ length (entries d) < length docs)).
Proof.
  split; [vm_compute; reflexivity|]. split.
  - intros rep text i P. unfold extracted_json. rewrite P.
    eexists. split; [reflexivity|]. split; reflexivity.
  - intros docs a w m w1 c w2 k w3 handles a' w' evs LM OC IX H.
    destruct (phase3_after_setup docs a w m w1 c w2 LM OC)
      as (d & evs1 & E & T & _ & _ & G & _ & GE).
    rewrite IX in E, G, GE. cbn [fst snd] in E, G, GE.
    rewrite E in H. injection H as <- <- <- <-.
    destruct (G eq_refl) as (_ & G2 & G3).
    destruct (displayed_prefix docs) as (P1 & P2 & P3).
    split; [exact (proj1 (GE eq_refl))|].
    exists d. split; [reflexivity|]. split.
    + intros F. split; [now apply G3|].
      rewrite G2, (proj1 P3 F). split; [reflexivity|].
      apply (entries_of_fields 1 docs).
    + intros F. split.
      * intros N. apply G3 in N. congruence.
      * rewrite G2. destruct (entries_of_fields 1 (displayed docs)) as (L & _).
        rewrite L.
        assert (NE : length (displayed docs) <> length docs).
        { intros Q. rewrite Q, firstn_all in P1.
          apply P3 in P1. congruence. }
        lia.
Qed.

(* ---------------------------------------------------------------- *)
(** ** Phase 4, beyond the claims *)
(* ---------------------------------------------------------------- *)

(** X12. What the Retriever asks of the outside for one question, in
    order. With a handle absent: nothing, and the world is untouched.
    Otherwise it first embeds the question as given and stops there if
    that raises; then it queries the collection once, with the embedding
    it obtained, for three results, and stops there if that raises or if
    the flag is off; then, with the flag on, it calls the language model
    once, with the prompt built from the results the collection returned,
    joined by blank lines, and from the question. The world it leaves is
    the one its last call left. *)
Theorem retriever_external_calls
    (collection : option Collection) (embedding_model : option EmbeddingModel)
    (q : string) (w : World) (answer : string) (w' : World) (evs : list event) :
  rag_query collection embedding_model q w = (Ok answer, w', evs) ->
  (collection = None \/ embedding_model = None ->
   w' = w /\ service_calls evs = [])
  /\ (forall (c : Collection) (m : EmbeddingModel),
         collection = Some c -> embedding_model = Some m ->
         (forall e w1,
             encode m q w = (Raise e, w1) ->
             w' = w1 /\ service_calls evs = [Encode q])
         /\ (forall emb w1 e w2,
                encode m q w = (Ok emb, w1) ->
                collection_query c emb 3 w1 = (Raise e, w2) ->
                w' = w2 /\ service_calls evs = [Encode q; CollectionQuery 3])
         /\ (forall emb w1 results w2,
                encode m q w = (Ok emb, w1) ->
                collection_query c emb 3 w1 = (Ok results, w2) ->
                (USE_LLM = false ->
                 w' = w2 /\ service_calls evs = [Encode q; CollectionQuery 3])
                /\ (USE_LLM = true ->
                    w' = snd (generate_content
                                (rag_prompt (join (nl +++ nl) results) q) w2)
                    /\ service_calls evs =
                         [Encode q; CollectionQuery 3;
                          Generate (rag_prompt (join (nl +++ nl) results) q)]
                    /\ (forall text,
                           fst (generate_content
                                  (rag_prompt (join (nl +++ nl) results) q) w2)
                           = Ok text ->
                           answer = strip text))))
  /\ asked evs = [].
Proof.
  unfold rag_query, retrieval_try.
  destruct collection as [coll|], embedding_model as [model|];
    try (intros H; injection H as <- <- <-;
         split; [intros _; split; reflexivity|];
         split; [intros c m X Y; discriminate X || discriminate Y | reflexivity]).
  destruct (encode model q w) as [[emb|e] w1] eqn:EN.
  - destruct (collection_query coll emb 3 w1) as [[results|e] w2] eqn:CQ.
    + destruct USE_LLM eqn:L.
      * destruct (generate_content _ w2) as [[text|e] w3] eqn:GC;
          intros H; injection H as <- <- <-;
          (split; [intros [X|X]; discriminate X|]);
          (split; [|reflexivity]);
          intros c m X Y; injection X as <-; injection Y as <-;
          rewrite EN;
          (split; [intros ? ? Z; discriminate Z|]);
          (split; [intros ? ? ? ? Z; injection Z as <- <-; rewrite CQ;
                   intros Z; discriminate Z|]);
          intros ? ? ? ? Z; injection Z as <- <-; rewrite CQ;
          intros Z; injection Z as <- <-;
          (split; [discriminate|]); intros _; rewrite GC;
          (split; [reflexivity|]); (split; [reflexivity|]);
          cbn [fst]; intros ? Z; (discriminate Z || (injection Z as <-; reflexivity)).
      * intros H; injection H as <- <- <-.
        split; [intros [X|X]; discriminate X|]. split; [|reflexivity].
        intros c m X Y. injection X as <-. injection Y as <-. rewrite EN.
        split; [intros ? ? Z; discriminate Z|].
        split; [intros ? ? ? ? Z; injection Z as <- <-; rewrite CQ;
                intros Z; discriminate Z|].
        intros ? ? ? ? Z. injection Z as <- <-. rewrite CQ.
        intros Z. injection Z as <- <-.
        split; [intros _; split; reflexivity | discriminate].
    + intros H; injection H as <- <- <-.
      split; [intros [X|X]; discriminate X|]. split; [|reflexivity].
      intros c m X Y. injection X as <-. injection Y as <-. rewrite EN.
      split; [intros ? ? Z; discriminate Z|].
      split.
      * intros ? ? ? ? Z. injection Z as <- <-. rewrite CQ.
        intros Z. injection Z as <- <-. split; reflexivity.
      * intros ? ? ? ? Z. injection Z as <- <-. rewrite CQ.
        intros Z. discriminate Z.
  - intros H; injection H as <- <- <-.
    split; [intros [X|X]; discriminate X|]. split; [|reflexivity].
    intros c m X Y. injection X as <-. injection Y as <-. rewrite EN.
    split; [intros ? ? Z; injection Z as <- <-; split; reflexivity|].
    split; intros ? ? ? ? Z; discriminate Z.
Qed.

Lemma fallback_answer_trimmed (k : string) :
  strip (fallback_answer k) = fallback_answer k.
Proof.
  unfold fallback_answer, PREDEFINED_QUESTIONS. cbn [dict_get].
  repeat match goal with
         | |- context [String.eqb ?key k] =>
             destruct (String.eqb key k); [vm_compute; reflexivity|]
         end.
  vm_compute. reflexivity.
Qed.

(** X13. Every answer the Retriever returns is free of leading and
    trailing white space: the generated text is trimmed, and so are the
    answers of the static table and the refusal. *)
Theorem retriever_answers_are_trimmed
    (collection : option Collection) (embedding_model : option EmbeddingModel)
    (q : string) (w : World) (answer : string) (w' : World) (evs : list event) :
  rag_query collection embedding_model q w = (Ok answer, w', evs) ->
  strip answer = answer.
Proof.
  unfold rag_query.
  destruct (retrieval_try collection embedding_model q w) as [[[a|e] w1] evs1] eqn:T.
  - intros H. injection H as <- <- <-.
    unfold retrieval_try in T.
    destruct collection as [coll|], embedding_model as [model|]; try discriminate T.
    destruct (encode model q w) as [[emb|e] w2]; [|discriminate T].
    destruct (collection_query coll emb 3 w2) as [[results|e] w3]; [|discriminate T].
    destruct USE_LLM; [|discriminate T].
    destruct (generate_content _ w3) as [[text|e] w4]; [|discriminate T].
    injection T as <- <- <-. apply strip_idem.
  - intros H. injection H as <- <- <-. apply fallback_answer_trimmed.
Qed.

(* ---------------------------------------------------------------- *)
(** ** Phase 5, beyond the claims *)
(* ---------------------------------------------------------------- *)

(** X14. When the session ends by a keyword, whatever the retriever is:
    the keyword is the first one of the input, the lines after it are not
    read, and the query log has grown by exactly the lines before it,
    trimmed, in order; the keyword itself is not logged. *)
Theorem session_log_on_keyword
    (rag : retriever) (stdin : list string) (d : phase5_data) (w : World)
    (d2 : phase5_data) (w2 : World) (evs : list event) (unread : list string) :
  session_loop rag stdin d w = (Ok tt, (d2, w2, evs, unread)) ->
  exists (pre : list string) (line : string),
    stdin = pre ++ line :: unread
    /\ is_keyword line = true
    /\ forallb (fun l => negb (is_keyword l)) pre = true
    /\ queries d2 = queries d ++ map strip pre
    /\ status d2 = "completed"
    /\ ba_questions d2 = ba_questions d.
Proof.
  revert d w d2 w2 evs unread.
  induction stdin as [|l rest IH]; intros d w d2 w2 evs unread;
    cbn [session_loop]; [discriminate|].
  destruct (str_in (lower (strip l)) ["exit"; "quit"]) eqn:K.
  - intros H. injection H as <- <- <- <-. exists [], l.
    cbn [app forallb map queries set_status status ba_questions].
    rewrite app_nil_r. repeat split. exact K.
  - assert (G : forall w1 evs1 r,
               session_loop rag rest (add_query (strip l) d) w1
               = (r, (d2, w2, evs1, unread)) -> r = Ok tt ->
               exists pre line,
                 l :: rest = pre ++ line :: unread
                 /\ is_keyword line = true
                 /\ forallb (fun l0 => negb (is_keyword l0)) pre = true
                 /\ queries d2 = queries d ++ map strip pre
                 /\ status d2 = "completed"
                 /\ ba_questions d2 = ba_questions d).
    { intros w1 evs1 r S ->.
      destruct (IH _ _ _ _ _ _ S) as (pre & line & E & Kl & P & Q & St & B).
      exists (l :: pre), line. cbn [app forallb map].
      change (is_keyword l) with (str_in (lower (strip l)) ["exit"; "quit"]).
      rewrite K. cbn [negb andb].
      rewrite E, Q. cbn [queries add_query ba_questions] in *.
      rewrite <- app_assoc. repeat split; auto. }
    destruct (dict_get PREDEFINED_QUESTIONS (lower (strip l))) as [canned|].
    + destruct (session_loop rag rest (add_query (strip l) d) w)
        as [r [[[d3 w3] evs3] unread3]] eqn:S.
      intros H. injection H as -> <- <- <- <-. eapply G; [exact S | reflexivity].
    + destruct (rag (strip l) w) as [[[answer|e] w1] evs1]; [|discriminate].
      destruct (session_loop rag rest (add_query (strip l) d) w1)
        as [r [[[d3 w3] evs3] unread3]] eqn:S.
      intros H. injection H as -> <- <- <- <-. eapply G; [exact S | reflexivity].
Qed.

Lemma rag_query_asks_nothing (collection : option Collection)
    (embedding_model : option EmbeddingModel) (q : string) (w : World) :
  asked (snd (rag_query collection embedding_model q w)) = [].
Proof.
  unfold rag_query, retrieval_try.
  destruct collection as [coll|], embedding_model as [model|]; try reflexivity.
  destruct (encode model q w) as [[emb|e] w1]; [|reflexivity].
  destruct (collection_query coll emb 3 w1) as [[results|e] w2]; [|reflexivity].
  destruct USE_LLM; [|reflexivity].
  destruct (generate_content _ w2) as [[text|e] w3]; reflexivity.
Qed.

(** X15. With the Retriever of phase 4, however the session ends: every
    line read before the end is logged trimmed, in order, and the
    questions handed to the Retriever are exactly the logged ones whose
    lower-cased form is not a key of the static table, each once, in
    order and in the letter case the user typed. *)
Theorem retriever_gets_the_unknown_questions
    (collection : option Collection) (embedding_model : option EmbeddingModel)
    (stdin : list string) (d : phase5_data) (w : World)
    (r : result unit) (d2 : phase5_data) (w2 : World) (evs : list event)
    (unread : list string) :
  session_loop (rag_query collection embedding_model) stdin d w
  = (r, (d2, w2, evs, unread)) ->
  exists n : nat,
    queries d2 = queries d ++ map strip (firstn n stdin)
    /\ asked evs =
         filter (fun q => negb (dict_mem PREDEFINED_QUESTIONS (lower q)))
                (map strip (firstn n stdin))
    /\ forallb (fun l => negb (is_keyword l)) (firstn n stdin) = true
    /\ unread = skipn (match r with Ok _ => S n | Raise _ => n end) stdin
    /\ (forall e, r = Raise e -> n = length stdin).
Proof.
  revert d w r d2 w2 evs unread.
  induction stdin as [|l rest IH]; intros d w r d2 w2 evs unread;
    cbn [session_loop].
  - intros H. injection H as <- <- <- <- <-. exists 0.
    cbn [firstn map filter forallb skipn length]. rewrite app_nil_r.
    repeat split.
  - destruct (str_in (lower (strip l)) ["exit"; "quit"]) eqn:K.
    + intros H. injection H as <- <- <- <- <-. exists 0.
      cbn [firstn map filter forallb skipn queries set_status].
      rewrite app_nil_r. repeat split. intros e X. discriminate X.
    + assert (G : forall w1 evs1 mine,
                 session_loop (rag_query collection embedding_model) rest
                   (add_query (strip l) d) w1 = (r, (d2, w2, evs1, unread)) ->
                 asked mine =
                   (if negb (dict_mem PREDEFINED_QUESTIONS (lower (strip l)))
                    then [strip l] else []) ->
                 exists n,
                   queries d2 = queries d ++ map strip (firstn n (l :: rest))
                   /\ asked (mine ++ evs1) =
                        filter (fun q => negb (dict_mem PREDEFINED_QUESTIONS (lower q)))
                               (map strip (firstn n (l :: rest)))
                   /\ forallb (fun l0 => negb (is_keyword l0)) (firstn n (l :: rest)) = true
                   /\ unread = skipn (match r with Ok _ => S n | Raise _ => n end)
                                     (l :: rest)
                   /\ (forall e, r = Raise e -> n = length (l :: rest))).
      { intros w1 evs1 mine SL M.
        destruct (IH _ _ _ _ _ _ _ SL) as (n & Q & A & P & U & E).
        exists (S n). cbn [firstn map filter forallb length].
        change (is_keyword l) with (str_in (lower (strip l)) ["exit"; "quit"]).
        rewrite K. cbn [negb andb].
        rewrite Q, asked_app, M, A. cbn [queries add_query].
        rewrite <- app_assoc. split; [reflexivity|]. split.
        - destruct (negb (dict_mem PREDEFINED_QUESTIONS (lower (strip l))));
            reflexivity.
        - split; [exact P|]. split.
          + destruct r; exact U.
          + intros e X. f_equal. now apply (E e). }
      unfold dict_mem in G.
      destruct (dict_get PREDEFINED_QUESTIONS (lower (strip l))) as [canned|].
      * destruct (session_loop _ rest (add_query (strip l) d) w)
          as [r' [[[d3 w3] evs3] unread3]] eqn:SL.
        intros H. injection H as <- <- <- <- <-.
        apply (G w evs3 [Prompt PROMPT; Print (nl +++ canned +++ nl)] SL).
        reflexivity.
      * pose proof (rag_query_asks_nothing collection embedding_model (strip l) w) as RA.
        destruct (rag_query_returns collection embedding_model (strip l) w)
          as (answer & w1 & evs1 & R).
        rewrite R in RA |- *. cbn [snd] in RA.
        destruct (session_loop _ rest (add_query (strip l) d) w1)
          as [r' [[[d3 w3] evs3] unread3]] eqn:SL.
        intros H. injection H as <- <- <- <- <-.
        match goal with
        | |- context [asked (?p1 :: ?p2 :: evs1 ++ ?p3 :: evs3)] =>
            replace (p1 :: p2 :: evs1 ++ p3 :: evs3)
              with ((p1 :: p2 :: evs1 ++ [p3]) ++ evs3)
              by (cbn [app]; now rewrite <- app_assoc)
        end.
        apply (G w1 evs3 _ SL).
        cbn [negb]. observe_all. rewrite RA. reflexivity.
Qed.

Lemma blank_strip (s : string) : blank s = true -> strip s = EmptyString.
Proof.
  intros B. unfold strip, lstrip, rstrip.
  assert (L : lstrip_by isspace s = EmptyString).
  { induction s as [|c r IH]; cbn [blank lstrip_by] in *; [reflexivity|].
    apply andb_true_iff in B. destruct B as [-> B]. now apply IH. }
  now rewrite L.
Qed.

(** X16. A blank line is not skipped: it is logged as the empty question
    and the retriever is called with the empty string. *)
Theorem blank_line_is_asked
    (rag : retriever) (line : string) (rest : list string)
    (d : phase5_data) (w : World) :
  blank line = true ->
  session_loop rag (line :: rest) d w =
    match rag EmptyString w with
    | (Raise e, w1, evs1) =>
        (Raise e,
         (add_query EmptyString d, w1,
          Prompt PROMPT :: AskRetriever EmptyString :: evs1, rest))
    | (Ok answer, w1, evs1) =>
        let '(r, (d2, w2, evs, unread)) :=
          session_loop rag rest (add_query EmptyString d) w1 in
        (r, (d2, w2,
             Prompt PROMPT :: AskRetriever EmptyString :: evs1
             ++ Print (nl +++ answer +++ nl) :: evs, unread))
    end.
Proof.
  intros B. cbn [session_loop]. rewrite (blank_strip line B).
  change (lower EmptyString) with EmptyString.
  change (str_in EmptyString ["exit"; "quit"]) with false.
  change (dict_get PREDEFINED_QUESTIONS EmptyString) with (@None string).
  reflexivity.
Qed.

(* ---------------------------------------------------------------- *)
(** ** The driver, beyond the claims *)
(* ---------------------------------------------------------------- *)

Lemma max_of_bound (ns : list Z) (m k : Z) :
  max_of ns = Some m -> In k ns -> (k <= m)%Z.
Proof.
  intros M I. destruct ns as [|n ns']; [destruct I|].
  destruct (max_of_spec (n :: ns')) as (m' & M' & _ & U); [discriminate|].
  rewrite M in M'. injection M' as <-. now apply U.
Qed.

(** The run number is greater than every number a matching name
    carries. *)
Lemma choose_run_number_bound (cwd : list string) (n : Z) (f : string) (k : Z) :
  choose_run_number cwd = Some n ->
  In f (glob cwd) -> number_of f = Some k -> (k < n)%Z.
Proof.
  unfold choose_run_number. intros H I K.
  assert (NE : glob cwd <> []) by (intros E; rewrite E in I; exact I).
  rewrite (is_empty_false _ NE), filter_separators in H.
  destruct (numbers_of (glob cwd)) as [ns|] eqn:N; [|discriminate].
  destruct (max_of ns) as [m|] eqn:M; [|discriminate].
  injection H as <-.
  destruct (numbers_of_In _ _ _ N I) as (k' & K' & Ik).
  rewrite K in K'. injection K' as <-.
  pose proof (max_of_bound _ _ _ M Ik). lia.
Qed.


Lemma rstrip_by_digits (s : string) :
  all_digits s = true -> s <> EmptyString ->
  rstrip_by int_space (String "-" s) = String "-" s.
Proof.
  intros A N. cbn [rstrip_by]. rewrite (all_digits_rstrip s A).
  destruct s; [congruence | reflexivity].
Qed.

Lemma str_of_nat_not_empty (n : nat) : str_of_nat n <> EmptyString.
Proof.
  unfold str_of_nat. pose proof (to_uint_not_nil n) as NN.
  destruct (Nat.to_uint n); try discriminate. congruence.
Qed.

(** [int(str(z)) == z] for every integer. *)
Lemma int_of_str_of_int (z : Z) : int_of_str (str_of_int z) = Some z.
Proof.
  destruct z as [|p|p].
  - apply (int_of_str_of_nat 0).
  - unfold str_of_int. rewrite int_of_str_of_nat. f_equal.
    now rewrite Z2Nat.id by lia.
  - unfold str_of_int, int_of_str. cbn [String.append lstrip_by].
    change (int_space "-") with false. cbv iota.
    rewrite (rstrip_by_digits _ (all_digits_str_of_nat _) (str_of_nat_not_empty _)).
    pose proof (int_digits_uint (Nat.to_uint (Pos.to_nat p)) 0 false
                  (or_introl (to_uint_not_nil _))) as ID.
    change (Nat.of_uint_acc (Nat.to_uint (Pos.to_nat p)) 0)
      with (Nat.of_uint (Nat.to_uint (Pos.to_nat p))) in ID.
    rewrite DecimalNat.Unsigned.of_to in ID.
    fold (str_of_nat (Pos.to_nat p)) in ID. rewrite ID. cbn [option_map].
    f_equal. lia.
Qed.

Lemma str_of_int_separators (z : Z) :
  contains "#" (str_of_int z) = false /\ contains "." (str_of_int z) = false.
Proof.
  destruct z as [|p|p]; unfold str_of_int; cbn [String.append contains];
    rewrite ?(all_digits_contains "#" _ eq_refl (all_digits_str_of_nat _)),
            ?(all_digits_contains "." _ eq_refl (all_digits_str_of_nat _));
    split; reflexivity.
Qed.

(** The name of a log is matched by the pattern and read back as its
    number, whatever the number. *)
Lemma log_filename_read_back_int (z : Z) :
  glob_match (log_filename z) = true /\ number_of (log_filename z) = Some z.
Proof.
  unfold log_filename. destruct (str_of_int_separators z) as [H1 H2].
  split.
  - unfold glob_match. cbn [strip_prefix String.append Ascii.eqb Bool.eqb].
    apply endswith_append.
  - unfold number_of.
    change ("CyberX #" +++ str_of_int z +++ ".json")
      with ("CyberX " +++ String "#" (str_of_int z +++ ".json")).
    rewrite (split_at_first "#" "CyberX " _ eq_refl).
    rewrite split_without by (rewrite contains_append, H1; reflexivity).
    cbn [nth_error].
    change (str_of_int z +++ ".json") with (str_of_int z +++ String "." "json").
    rewrite (split_at_first "." _ _ H2). apply int_of_str_of_int.
Qed.

(** X18. The run never overwrites a log: the name it saves under is not
    in the working directory at start-up, and its number is greater than
    the number of every name there that the pattern matches. *)
Theorem log_name_is_fresh (cwd : list string) (n : Z) :
  choose_run_number cwd = Some n ->
  ~ In (log_filename n) cwd
  /\ (forall f k, In f cwd -> glob_match f = true -> number_of f = Some k ->
        (k < n)%Z).
Proof.
  intros C.
  assert (B : forall f k, In f cwd -> glob_match f = true -> number_of f = Some k ->
                (k < n)%Z).
  { intros f k I G K. apply (choose_run_number_bound cwd n f k C); [|exact K].
    apply glob_In. auto. }
  split; [|exact B]. intros I.
  destruct (log_filename_read_back_int n) as [G K].
  pose proof (B _ _ I G K). lia.
Qed.

Lemma select_lengths {A : Type} (mask : list bool) (l : list A) :
  length mask = length l ->
  length (select mask l) + length (select (map negb mask) l) = length l.
Proof.
  revert l. induction mask as [|b mask IH]; intros [|x l] L; cbn [select map length];
    try reflexivity; try discriminate L.
  injection L as L. specialize (IH l L).
  destruct b; cbn [negb length]; lia.
Qed.

(** The section phase 1 stores, and its counts. *)
Lemma phase1_section (a : phases) (w : World) :
  exists d : phase1_data,
    snd (fst (fst (phase1_data_collection a w))) = set_phase1 d a
    /\ collected_count d = length (fst (fst (fst (phase1_data_collection a w))))
    /\ collected_count d + length (failed_urls d) = 15.
Proof.
  destruct (phase1_mask a w) as (mask & d' & L & P & R & F).
  destruct (phase1_cases a w)
    as (before & pages & method & fails & err & w1 & evs & E & _).
  rewrite E in P, R |- *. cbn [fst snd] in *.
  eexists. split; [reflexivity|]. cbn [collected_count failed_urls].
  split; [now rewrite length_map|].
  cbn [set_phase1 phase1] in P. injection P as <-. cbn [failed_urls] in F.
  rewrite <- (length_map raw_of pages), <- (length_map url), R.
  rewrite <- (length_map failed fails), F.
  now rewrite select_lengths.
Qed.

(** The section phase 2 stores, and its counts. *)
Lemma phase2_section (raw : list raw_report) (a : phases) (w : World) :
  exists d : phase2_data,
    snd (fst (fst (phase2_information_extraction raw a w))) = set_phase2 d a
    /\ document_count d
       = length (fst (fst (fst (phase2_information_extraction raw a w))))
    /\ document_count d = (if used_mock d then 15 else length raw)
    /\ 1 <= document_count d
    /\ (used_llm d = true -> USE_LLM = true /\ raw <> []).
Proof.
  assert (M15 : length (mock_documents 1 MOCK_THREAT_INTEL_LIST) = 15).
  { now rewrite length_mock_documents. }
  destruct USE_LLM eqn:L.
  - destruct raw as [|r0 rest] eqn:R.
    + destruct (phase2_disabled [] a w (or_intror eq_refl)) as (evs & E & _).
      rewrite E. cbn [fst snd]. eexists. split; [reflexivity|].
      cbn [document_count used_mock used_llm]. rewrite M15.
      repeat split; try lia; discriminate.
    + assert (N : r0 :: rest <> []) by discriminate.
      destruct (extract_until_error (r0 :: rest) w) as [[done [e|]] w1] eqn:G.
      * destruct (phase2_failed _ a w done e w1 L N G) as (evs & E & _).
        rewrite E. cbn [fst snd]. eexists. split; [reflexivity|].
        cbn [document_count used_mock used_llm]. rewrite M15.
        repeat split; try lia; discriminate.
      * destruct (phase2_complete _ a w done w1 L N G) as (evs & E & _).
        pose proof (extract_until_error_complete _ _ _ _ G) as M.
        assert (LD : length done = length (r0 :: rest)).
        { now rewrite <- M, length_map. }
        rewrite E. cbn [fst snd]. eexists. split; [reflexivity|].
        cbn [document_count used_mock used_llm]. rewrite length_map, LD.
        cbn [length]. repeat split; try lia; discriminate.
  - destruct (phase2_disabled raw a w (or_introl L)) as (evs & E & _).
    rewrite E. cbn [fst snd]. eexists. split; [reflexivity|].
    cbn [document_count used_mock used_llm]. rewrite M15.
    repeat split; try lia; discriminate.
Qed.

(** The section phase 3 stores, and what it says of the handles. *)
Lemma phase3_section (docs : list document) (a : phases) (w : World) :
  exists d : phase3_data,
    snd (fst (fst (phase3_build_knowledge_base docs a w))) = set_phase3 d a
    /\ total_entries d = length docs
    /\ length (entries d) <= length docs
    /\ (is_some (fst (fst (fst (fst (phase3_build_knowledge_base docs a w)))))
        && is_some (snd (fst (fst (fst (phase3_build_knowledge_base docs a w)))))
        = false ->
        entries d = [] /\ p3_error d <> None).
Proof.
  destruct (load_model w) as [[m|e] w1] eqn:LM.
  - destruct (open_collection w1) as [[c|e] w2] eqn:OC.
    + destruct (phase3_after_setup docs a w m w1 c w2 LM OC)
        as (d & evs & E & T & _ & B & G & _).
      rewrite E. cbn [fst snd is_some andb]. exists d.
      split; [reflexivity|]. split; [exact T|]. split; [|discriminate].
      destruct (snd (fst (index_until_error 0 docs m c w2))) as [e|].
      * destruct (B e eq_refl) as [-> _]. cbn [length]. lia.
      * destruct (G eq_refl) as (_ & -> & _).
        destruct (entries_of_fields 1 (displayed docs)) as (-> & _).
        apply displayed_prefix.
    + unfold phase3_build_knowledge_base, build_try. rewrite LM, OC.
      cbn [fst snd]. eexists. split; [reflexivity|].
      cbn [set_p3_error phase3_initial total_entries entries p3_error length].
      split; [reflexivity|]. split; [lia|]. intros _. split; [reflexivity | discriminate].
  - unfold phase3_build_knowledge_base, build_try. rewrite LM.
    cbn [fst snd]. eexists. split; [reflexivity|].
    cbn [set_p3_error phase3_initial total_entries entries p3_error length].
    split; [reflexivity|]. split; [lia|]. intros _. split; [reflexivity | discriminate].
Qed.

Lemma run_phases_consistent (stdin : list string) (w : World) :
  consistent (snd (fst (fst (run_phases stdin w)))).
Proof.
  unfold run_phases.
  destruct (phase1_section no_phases w) as (d1 & S1 & C1 & F1).
  destruct (phase1_data_collection no_phases w) as [[[raw a1] w1] e1].
  cbn [fst snd] in S1, C1. subst a1.
  destruct (phase2_section raw (set_phase1 d1 no_phases) w1)
    as (d2 & S2 & C2 & M2 & P2 & U2).
  destruct (phase2_information_extraction raw (set_phase1 d1 no_phases) w1)
    as [[[docs a2] w2] e2].
  cbn [fst snd] in S2, C2. subst a2.
  destruct (phase3_section docs (set_phase2 d2 (set_phase1 d1 no_phases)) w2)
    as (d3 & S3 & T3 & L3 & K3).
  destruct (phase3_build_knowledge_base docs
              (set_phase2 d2 (set_phase1 d1 no_phases)) w2)
    as [[[[collection embedding_model] a3] w3] e3].
  cbn [fst snd] in S3, K3. subst a3.
  unfold phase4_rag_query_setup, phase5_cli_interface.
  assert (G : forall a5,
             phase1 a5 = Some d1 -> phase2 a5 = Some d2 -> phase3 a5 = Some d3 ->
             phase4 a5 = Some {| p4_description := "RAG query system status";
                                 knowledge_base_available :=
                                   is_some collection && is_some embedding_model;
                                 llm_available := USE_LLM |} ->
             consistent a5).
  { intros a5 Q1 Q2 Q3 Q4. exists d1, d2, d3. eexists.
    split; [exact Q1|]. split; [exact Q2|].
    split; [exact Q3|]. split; [exact Q4|].
    cbn [knowledge_base_available llm_available].
    split; [exact F1|]. split; [now rewrite M2, C1|]. split; [exact P2|].
    split; [now rewrite T3, C2|]. split; [now rewrite T3|].
    split; [reflexivity|]. split; [|exact K3].
    intros X. destruct (U2 X) as [Y Z]. split; [exact Y|].
    rewrite C1. destruct raw; [congruence | cbn [length]; lia]. }
  destruct (session_loop _ stdin phase5_initial w3)
    as [[[]|e] [[[d5 w5] evs5] unread]]; cbn [fst snd]; apply G; reflexivity.
Qed.

(** X19. In the log a run saves, the sections of phases 1 to 4 are always
    present and agree with each other: the documents collected and the
    failures listed count fifteen; [document_count] is 15 when [used_mock]
    is set and the number collected otherwise, and is never 0;
    [total_entries] equals [document_count] and bounds the summary;
    [llm_available] is the flag; [used_llm] is set only with the flag on
    and something collected; and when the knowledge base is reported
    unavailable the summary is empty and carries an error. *)
Theorem saved_log_is_consistent
    (cwd stdin : list string) (w : World) (n : Z)
    (r : result unit) (w' : World) (evs : list event) :
  choose_run_number cwd = Some n ->
  main cwd stdin w = (r, w', evs) ->
  exists log : run_log,
    In (WriteFile (log_filename n) log) evs
    /\ run_number log = n
    /\ consistent (log_phases log).
Proof.
  intros N H. unfold main in H. rewrite N in H.
  pose proof (run_phases_consistent stdin w) as C.
  destruct (run_phases stdin w) as [[[r0 a] w1] evs1]. cbn [fst snd] in C.
  unfold save_run_json in H.
  exists {| run_number := n; log_phases := a |}.
  split; [|split; [reflexivity | exact C]].
  destruct (write_json _ _ w1) as [[[]|e] w2]; injection H as <- <- <-;
    apply in_or_app; right; left; reflexivity.
Qed.
End Pipeline.

(* ================================================================== *)
(** * The properties on concrete runs *)
(* ================================================================== *)

Abbreviation scenario_phase1 :=
  (phase1_data_collection nat "zenrows-key"
     Scenario.zenrows_once Scenario.direct_mostly no_phases 0).

Abbreviation scenario_phase2 quota raw :=
  (phase2_information_extraction nat true
     (Scenario.generate_quota quota) Scenario.loads_empty_object raw no_phases 0).

Abbreviation scenario_rag_query :=
  (rag_query nat true (Scenario.generate_quota 0) unit unit unit
     Scenario.encode Scenario.collection_query).

Abbreviation scenario_main :=
  (main nat "zenrows-key" true Scenario.zenrows_once Scenario.direct_mostly
     (Scenario.generate_quota 100) Scenario.loads_empty_object unit unit unit
     Scenario.load_model Scenario.open_collection Scenario.json_dumps
     Scenario.encode Scenario.collection_add Scenario.collection_query
     Scenario.repr Scenario.write_json).

Abbreviation scenario_nested_phase2 raw w :=
  (phase2_information_extraction nat true
     Scenario.generate_nested Scenario.loads_depth_limited raw no_phases w).

Abbreviation scenario_main_disk write :=
  (main Scenario.disk "zenrows-key" true
     (fun u => Scenario.on_disk (Scenario.zenrows_once u))
     (fun u => Scenario.on_disk (Scenario.direct_mostly u))
     (fun p => Scenario.on_disk (Scenario.generate_quota 100 p))
     Scenario.loads_empty_object unit unit unit
     (Scenario.on_disk Scenario.load_model)
     (Scenario.on_disk Scenario.open_collection)
     Scenario.json_dumps
     (fun m t => Scenario.on_disk (Scenario.encode m t))
     (fun c t e i => Scenario.on_disk (Scenario.collection_add c t e i))
     (fun c e n => Scenario.on_disk (Scenario.collection_query c e n))
     Scenario.repr write).

(** C6 on a run where ZenRows fails after one page. *)
Lemma collected_content_bounded_witness :
  Forall (fun r => String.length (content r) <= 10000)
         (fst (fst (fst scenario_phase1)))
  /\ length (fst (fst (fst scenario_phase1))) = 14.
Proof.
  split; [|vm_compute; reflexivity].
  refine (proj1 (proj2 (collected_content_bounded nat "zenrows-key"
                          Scenario.zenrows_once Scenario.direct_mostly)
                   no_phases 0 _ (snd (fst (fst scenario_phase1)))
                   (snd (fst scenario_phase1)) (snd scenario_phase1) _)).
  vm_compute. reflexivity.
Defined.

(** C3 on the same run: ZenRows raises on the second source, the fallback
    pass asks all fifteen, one of which fails. *)
Lemma primary_failure_full_fallback_witness :
  direct_requests (snd scenario_phase1) = ARTICLE_URLS
  /\ length (fst (fst (fst scenario_phase1))) = 14
  /\ zenrows_requests (snd scenario_phase1) = firstn 2 ARTICLE_URLS.
Proof.
  split; [|split; vm_compute; reflexivity].
  refine (proj1 (proj2 (proj2
            (proj1 (primary_failure_full_fallback nat "zenrows-key"
                      Scenario.zenrows_once Scenario.direct_mostly)
               no_phases 0 [(_, Scenario.sample_page)] _
               (Exception "429 Client Error: Too Many Requests") 2
               (fst (fst (fst scenario_phase1))) (snd (fst (fst scenario_phase1)))
               (snd (fst scenario_phase1)) (snd scenario_phase1) _ _ _)))).
  - reflexivity.
  - vm_compute. reflexivity.
  - vm_compute. reflexivity.
Defined.

(** C9 on the same run: fifteen reports are logged for fourteen documents,
    two of them for the first source. *)
Lemma reports_log_outlives_fallback_witness :
  exists d : phase1_data,
    phase1 (snd (fst (fst scenario_phase1))) = Some d
    /\ collected_count d = 14
    /\ length (reports d) = 15
    /\ exists (i j : nat) (r1 r2 : report),
        i < j
        /\ nth_error (reports d) i = Some r1
        /\ nth_error (reports d) j = Some r2
        /\ report_url r1 = "https://thehackernews.com/2025/12/chinese-hackers-have-started-exploiting.html"
        /\ report_url r2 = "https://thehackernews.com/2025/12/chinese-hackers-have-started-exploiting.html".
Proof.
  destruct (reports_log_outlives_fallback nat "zenrows-key"
              Scenario.zenrows_once Scenario.direct_mostly no_phases 0
              (fst (fst (fst scenario_phase1))) (snd (fst (fst scenario_phase1)))
              (snd (fst scenario_phase1)) (snd scenario_phase1))
    as (d & P & C & K).
  { vm_compute. reflexivity. }
  destruct (K [("https://thehackernews.com/2025/12/chinese-hackers-have-started-exploiting.html",
                Scenario.sample_page)]
              "https://thehackernews.com/2025/12/react2shell-exploitation-escalates-into.html"
              (Exception "429 Client Error: Too Many Requests") 2)
    as (R & _ & L & _ & D).
  { reflexivity. }
  { vm_compute. reflexivity. }
  exists d. split; [exact P|]. split; [rewrite C; vm_compute; reflexivity|].
  split.
  - rewrite L, C. vm_compute. reflexivity.
  - apply (D _ Scenario.sample_page Scenario.sample_page).
    + left. reflexivity.
    + vm_compute. left. reflexivity.
Defined.

(** C4 on three runs over three reports: the model answers all three, or
    only two of them, or gives for the second a text on which [json.loads]
    raises [RecursionError]. *)
Lemma extraction_all_or_nothing_witness :
  length (fst (fst (fst (scenario_phase2 3 Scenario.three_reports)))) = 3
  /\ length (fst (fst (fst (scenario_phase2 2 Scenario.three_reports)))) = 15
  /\ option_map doc_title
       (nth_error (fst (fst (fst (scenario_phase2 2 Scenario.three_reports)))) 0)
     = Some "Mock Threat Report 1 (Recent 2025)"
  /\ fst (fst (fst (scenario_nested_phase2 Scenario.three_reports 0)))
     = mock_documents 1 MOCK_THREAT_INTEL_LIST.
Proof.
  split; [|split; [|split]].
  - refine (eq_trans
              (proj2 (proj1 (extraction_all_or_nothing nat true
                               (Scenario.generate_quota 3) Scenario.loads_empty_object
                               Scenario.three_reports no_phases 0
                               (fst (fst (fst (scenario_phase2 3 Scenario.three_reports))))
                               (snd (fst (fst (scenario_phase2 3 Scenario.three_reports))))
                               (snd (fst (scenario_phase2 3 Scenario.three_reports)))
                               (snd (scenario_phase2 3 Scenario.three_reports)) _)
                        (fst (fst (extract_until_error nat (Scenario.generate_quota 3)
                                     Scenario.loads_empty_object
                                     Scenario.three_reports 0)))
                        3 _ _ _))
              _).
    + vm_compute. reflexivity.
    + reflexivity.
    + discriminate.
    + vm_compute. reflexivity.
    + reflexivity.
  - refine (proj1 (proj2 (proj1 (proj2 (extraction_all_or_nothing nat true
                               (Scenario.generate_quota 2) Scenario.loads_empty_object
                               Scenario.three_reports no_phases 0
                               (fst (fst (fst (scenario_phase2 2 Scenario.three_reports))))
                               (snd (fst (fst (scenario_phase2 2 Scenario.three_reports))))
                               (snd (fst (scenario_phase2 2 Scenario.three_reports)))
                               (snd (scenario_phase2 2 Scenario.three_reports)) _))
                            _))).
    + vm_compute. reflexivity.
    + right. right. do 3 eexists. vm_compute. reflexivity.
  - vm_compute. reflexivity.
  - refine (proj1 (proj1 (proj2 (extraction_all_or_nothing nat true
                               Scenario.generate_nested Scenario.loads_depth_limited
                               Scenario.three_reports no_phases 0
                               (fst (fst (fst (scenario_nested_phase2 Scenario.three_reports 0))))
                               (snd (fst (fst (scenario_nested_phase2 Scenario.three_reports 0))))
                               (snd (fst (scenario_nested_phase2 Scenario.three_reports 0)))
                               (snd (scenario_nested_phase2 Scenario.three_reports 0)) _))
                            _)).
    + vm_compute. reflexivity.
    + right. right. do 3 eexists. vm_compute. reflexivity.
Defined.

(** C5 on a response that is not JSON, and on a run whose first response
    is nested too deep for [json.loads]. *)
Lemma malformed_response_is_wrapped_witness :
  extracted_json Scenario.loads_empty_object " The actor is APT31. " =
    Ok (JObject [("raw", JString "The actor is APT31.");
                 ("note", JString "JSON parse failed")])
  /\ fst (fst (fst (scenario_nested_phase2 Scenario.three_reports 1)))
     = mock_documents 1 MOCK_THREAT_INTEL_LIST.
Proof.
  split.
  - refine (proj1 (malformed_response_is_wrapped nat true
                     (Scenario.generate_quota 3) Scenario.loads_empty_object)
              " The actor is APT31. " _).
    vm_compute. reflexivity.
  - refine (proj1 (proj2 (proj2 (proj2
              (malformed_response_is_wrapped nat true
                 Scenario.generate_nested Scenario.loads_depth_limited)))
              {| url := "https://thehackernews.com/a.html"; title := "A";
                 content := "Text of A." |}
              (tl Scenario.three_reports) no_phases 1
              (Scenario.brackets 1000) 2
              (Exception "maximum recursion depth exceeded while decoding a JSON array from a unicode string")
              (fst (fst (fst (scenario_nested_phase2 Scenario.three_reports 1))))
              (snd (fst (fst (scenario_nested_phase2 Scenario.three_reports 1))))
              (snd (fst (scenario_nested_phase2 Scenario.three_reports 1)))
              (snd (scenario_nested_phase2 Scenario.three_reports 1))
              _ _ _ _)).
    + reflexivity.
    + vm_compute. reflexivity.
    + vm_compute. reflexivity.
    + vm_compute. reflexivity.
Defined.

(** C10 on the run where the model answers two reports out of three, and
    on the run where its second answer is nested too deep for
    [json.loads]. *)
Lemma partial_extraction_stays_in_log_witness :
  (exists d : phase2_data,
    phase2 (snd (fst (fst (scenario_phase2 2 Scenario.three_reports)))) = Some d
    /\ used_llm d = true /\ used_mock d = true
    /\ length (documents d) = 17
    /\ document_count d = 15)
  /\ (exists d : phase2_data,
    phase2 (snd (fst (fst (scenario_nested_phase2 Scenario.three_reports 0))))
    = Some d
    /\ used_llm d = true /\ used_mock d = true
    /\ length (documents d) = 16
    /\ document_count d = 15
    /\ p2_error d = Some "maximum recursion depth exceeded while decoding a JSON array from a unicode string").
Proof.
  split.
  - destruct (partial_extraction_stays_in_log nat true
                (Scenario.generate_quota 2) Scenario.loads_empty_object
                Scenario.three_reports no_phases 0
                (fst (fst (extract_until_error nat (Scenario.generate_quota 2)
                             Scenario.loads_empty_object
                             Scenario.three_reports 0)))
                (Exception "429 Resource has been exhausted") 3
                (fst (fst (fst (scenario_phase2 2 Scenario.three_reports))))
                (snd (fst (fst (scenario_phase2 2 Scenario.three_reports))))
                (snd (fst (scenario_phase2 2 Scenario.three_reports)))
                (snd (scenario_phase2 2 Scenario.three_reports)))
      as (_ & _ & (d & P & L & M & _ & N & C & _) & _).
    + reflexivity.
    + discriminate.
    + vm_compute. reflexivity.
    + vm_compute. reflexivity.
    + exists d. repeat split; auto.
  - destruct (partial_extraction_stays_in_log nat true
                Scenario.generate_nested Scenario.loads_depth_limited
                Scenario.three_reports no_phases 0
                (fst (fst (extract_until_error nat Scenario.generate_nested
                             Scenario.loads_depth_limited
                             Scenario.three_reports 0)))
                (Exception "maximum recursion depth exceeded while decoding a JSON array from a unicode string") 2
                (fst (fst (fst (scenario_nested_phase2 Scenario.three_reports 0))))
                (snd (fst (fst (scenario_nested_phase2 Scenario.three_reports 0))))
                (snd (fst (scenario_nested_phase2 Scenario.three_reports 0)))
                (snd (scenario_nested_phase2 Scenario.three_reports 0)))
      as (_ & _ & (d & P & L & M & _ & N & C & E) & _).
    + reflexivity.
    + discriminate.
    + vm_compute. reflexivity.
    + vm_compute. reflexivity.
    + exists d. repeat split; auto.
Defined.

(** C1 on a known question, asked without a knowledge base, and on an
    unknown one. *)
Lemma retriever_degrades_witness :
  fst (fst (scenario_rag_query None None "Recent activities of APT31?" 0))
  = Ok "APT31, a China-linked cyber espionage group, has recently been active in campaigns targeting the Russian IT sector and the Czech Ministry of Foreign Affairs, utilizing a diverse and evolving set of tools to maintain stealth and persistence. APT31 launched stealthy attacks on Russian IT firms in Nov 2025 using CloudyLoader."
  /\ fst (fst (scenario_rag_query (Some tt) (Some tt) "Who is behind Storm-0249?" 0))
     = Ok "Insufficient data.".
Proof.
  split.
  - refine (eq_trans
              (proj1 (proj1 (proj2 (proj2 (proj2
                 (retriever_degrades nat true (Scenario.generate_quota 0)
                    unit unit unit Scenario.encode Scenario.collection_query
                    None None "Recent activities of APT31?" 0))))
                 (Exception "No KB") 0 [] _)) _).
    + reflexivity.
    + vm_compute. reflexivity.
  - refine (eq_trans
              (proj1 (proj1 (proj2 (proj2 (proj2
                 (retriever_degrades nat true (Scenario.generate_quota 0)
                    unit unit unit Scenario.encode Scenario.collection_query
                    (Some tt) (Some tt) "Who is behind Storm-0249?" 0))))
                 (Exception "429 Resource has been exhausted") 3 _ _)) _).
    + vm_compute. reflexivity.
    + vm_compute. reflexivity.
Defined.

(** C1 as stated fails: the Retriever lower-cases the question but does not
    trim it, so a question with a leading space whose trimmed form is a key
    of the table gets the refusal, not the table's answer. *)
Lemma retriever_does_not_trim :
  retrieval_try nat true (Scenario.generate_quota 0) unit unit unit
    Scenario.encode Scenario.collection_query
    None None " Recent activities of APT31?" 0
  = (Raise (Exception "No KB"), 0, [])
  /\ dict_mem PREDEFINED_QUESTIONS (lower (strip " Recent activities of APT31?")) = true
  /\ fst (fst (scenario_rag_query None None " Recent activities of APT31?" 0))
     = Ok "Insufficient data."
  /\ fst (fst (scenario_rag_query None None " Recent activities of APT31?" 0))
     <> Ok (match dict_get PREDEFINED_QUESTIONS
                    (lower (strip " Recent activities of APT31?")) with
            | Some canned => canned
            | None => "Insufficient data."
            end).
Proof.
  split; [reflexivity|]. split; [vm_compute; reflexivity|].
  split; [vm_compute; reflexivity|]. vm_compute. discriminate.
Qed.

(** C2 on a session of one known question, then [EXIT], with a retriever
    that raises when called. *)
Lemma session_bypasses_retriever_witness :
  fst (session_loop nat Scenario.failing_retriever
         ["  Recent Activities of APT31?  "; "EXIT"] (phase5_initial) 0) = Ok tt
  /\ existsb is_ask
       (snd (fst (snd (session_loop nat Scenario.failing_retriever
                         ["  Recent Activities of APT31?  "; "EXIT"]
                         (phase5_initial) 0)))) = false.
Proof.
  split; [vm_compute; reflexivity|].
  refine (proj1 (proj2 (proj2 (session_bypasses_retriever nat))
                   Scenario.failing_retriever
                   ["  Recent Activities of APT31?  "; "EXIT"] phase5_initial 0
                   _ _ _ _ _ _ _)).
  - vm_compute. reflexivity.
  - vm_compute. reflexivity.
Defined.

(** C4 as stated fails: the substitute documents are not titled
    ["Mock Threat Report N"]; the title goes on with [" (Recent 2025)"]. *)
Lemma substitute_titles_have_a_suffix :
  map doc_title (fst (fst (fst (scenario_phase2 2 Scenario.three_reports))))
  <> map (fun n => "Mock Threat Report " +++ str_of_nat n) (seq 1 15)
  /\ map doc_title (fst (fst (fst (scenario_phase2 2 Scenario.three_reports))))
     = map (fun n => "Mock Threat Report " +++ str_of_nat n +++ " (Recent 2025)")
           (seq 1 15).
Proof.
  split; [vm_compute; discriminate | vm_compute; reflexivity].
Qed.

(** C5 as stated fails: the wrapper of an unparsable response carries the
    note ["JSON parse failed"], not ["parse failed"]; and a response on
    which [json.loads] raises [RecursionError] gets no wrapper at all:
    three reports go in, and the fifteen substitutes come out. *)
Lemma wrapper_note_is_not_parse_failed :
  Scenario.loads_empty_object (strip " The actor is APT31. ") = JSONDecodeError
  /\ extracted_json Scenario.loads_empty_object " The actor is APT31. "
     <> Ok (JObject [("raw", JString (strip " The actor is APT31. "));
                     ("note", JString "parse failed")])
  /\ extracted_json Scenario.loads_depth_limited (Scenario.brackets 1000)
     = Raise (Exception "maximum recursion depth exceeded while decoding a JSON array from a unicode string")
  /\ length Scenario.three_reports = 3
  /\ fst (fst (fst (scenario_nested_phase2 Scenario.three_reports 1)))
     = mock_documents 1 MOCK_THREAT_INTEL_LIST.
Proof.
  split; [vm_compute; reflexivity|]. split; [vm_compute; discriminate|].
  repeat split; vm_compute; reflexivity.
Qed.

(** C8 on two runs in an empty directory whose file system takes the
    file: one ended by [" Exit "] after a question, one ended by the end
    of input. *)
Lemma session_ends_and_log_written_once_witness :
  lower (strip " Exit ") = "exit"
  /\ fst (fst (scenario_main_disk Scenario.write_json_disk []
                 ["Who is behind Storm-0249?"; " Exit "; "ignored"] (0, [])))
     = Ok tt
  /\ count_writes
       (snd (scenario_main_disk Scenario.write_json_disk []
               ["Who is behind Storm-0249?"; " Exit "; "ignored"] (0, []))) = 1
  /\ map fst
       (snd (snd (fst (scenario_main_disk Scenario.write_json_disk []
                         ["Who is behind Storm-0249?"; " Exit "; "ignored"]
                         (0, []))))) = ["CyberX #1.json"]
  /\ fst (fst (scenario_main_disk Scenario.write_json_disk []
                 ["Who is behind Storm-0249?"] (0, [])))
     = Raise (Exception "EOF when reading a line")
  /\ count_writes
       (snd (scenario_main_disk Scenario.write_json_disk []
               ["Who is behind Storm-0249?"] (0, []))) = 1
  /\ map fst
       (snd (snd (fst (scenario_main_disk Scenario.write_json_disk []
                         ["Who is behind Storm-0249?"] (0, []))))) =
     ["CyberX #1.json"].
Proof.
  split; [vm_compute; reflexivity|].
  split; [vm_compute; reflexivity|].
  split; [|split; [vm_compute; reflexivity|split; [vm_compute; reflexivity|split]]].
  - destruct (proj1 (proj2 (session_ends_and_log_written_once Scenario.disk
                "zenrows-key" true
                (fun u => Scenario.on_disk (Scenario.zenrows_once u))
                (fun u => Scenario.on_disk (Scenario.direct_mostly u))
                (fun p => Scenario.on_disk (Scenario.generate_quota 100 p))
                Scenario.loads_empty_object unit unit unit
                (Scenario.on_disk Scenario.load_model)
                (Scenario.on_disk Scenario.open_collection)
                Scenario.json_dumps
                (fun m t => Scenario.on_disk (Scenario.encode m t))
                (fun c t e i => Scenario.on_disk (Scenario.collection_add c t e i))
                (fun c e n => Scenario.on_disk (Scenario.collection_query c e n))
                Scenario.repr Scenario.write_json_disk))
                [] ["Who is behind Storm-0249?"; " Exit "; "ignored"] (0, []) 1%Z
                (fst (fst (scenario_main_disk Scenario.write_json_disk []
                             ["Who is behind Storm-0249?"; " Exit "; "ignored"]
                             (0, []))))
                (snd (fst (scenario_main_disk Scenario.write_json_disk []
                             ["Who is behind Storm-0249?"; " Exit "; "ignored"]
                             (0, []))))
                (snd (scenario_main_disk Scenario.write_json_disk []
                        ["Who is behind Storm-0249?"; " Exit "; "ignored"]
                        (0, []))))
      as (a & w5 & evs5 & saved & _ & _ & _ & _ & C & _).
    + reflexivity.
    + vm_compute. reflexivity.
    + exact C.
  - destruct (proj1 (proj2 (session_ends_and_log_written_once Scenario.disk
                "zenrows-key" true
                (fun u => Scenario.on_disk (Scenario.zenrows_once u))
                (fun u => Scenario.on_disk (Scenario.direct_mostly u))
                (fun p => Scenario.on_disk (Scenario.generate_quota 100 p))
                Scenario.loads_empty_object unit unit unit
                (Scenario.on_disk Scenario.load_model)
                (Scenario.on_disk Scenario.open_collection)
                Scenario.json_dumps
                (fun m t => Scenario.on_disk (Scenario.encode m t))
                (fun c t e i => Scenario.on_disk (Scenario.collection_add c t e i))
                (fun c e n => Scenario.on_disk (Scenario.collection_query c e n))
                Scenario.repr Scenario.write_json_disk))
                [] ["Who is behind Storm-0249?"] (0, []) 1%Z
                (fst (fst (scenario_main_disk Scenario.write_json_disk []
                             ["Who is behind Storm-0249?"] (0, []))))
                (snd (fst (scenario_main_disk Scenario.write_json_disk []
                             ["Who is behind Storm-0249?"] (0, []))))
                (snd (scenario_main_disk Scenario.write_json_disk []
                        ["Who is behind Storm-0249?"] (0, []))))
      as (a & w5 & evs5 & saved & _ & _ & _ & _ & C & _).
    + reflexivity.
    + vm_compute. reflexivity.
    + exact C.
  - vm_compute. reflexivity.
Defined.

(** C8 as stated fails: when the file system refuses the file, the run
    ends as it would have, one write was asked for, and no log is in any
    file: the log was written zero times, and the refusal is only
    reported on screen. *)
Lemma refused_write_leaves_no_log :
  fst (fst (scenario_main_disk Scenario.write_json_refused [] [" Exit "] (0, [])))
  = Ok tt
  /\ count_writes
       (snd (scenario_main_disk Scenario.write_json_refused [] [" Exit "] (0, [])))
     = 1
  /\ snd (snd (fst (scenario_main_disk Scenario.write_json_refused []
                      [" Exit "] (0, [])))) = []
  /\ nth_error
       (rev (snd (scenario_main_disk Scenario.write_json_refused []
                    [" Exit "] (0, [])))) 0
     = Some (Print "[JSON Log Error] Failed to save CyberX #1.json: [Errno 13] Permission denied: 'CyberX #1.json'")
  /\ snd (snd (fst (scenario_main_disk Scenario.write_json_disk []
                      [" Exit "] (0, [])))) <> [].
Proof.
  split; [vm_compute; reflexivity|]. split; [vm_compute; reflexivity|].
  split; [vm_compute; reflexivity|]. split; [vm_compute; reflexivity|].
  vm_compute. discriminate.
Qed.



(* ================================================================== *)
(** * The further properties on concrete runs *)
(* ================================================================== *)

Abbreviation scenario_unkeyed_phase1 :=
  (phase1_data_collection nat "   "
     Scenario.zenrows_always Scenario.direct_mostly no_phases 0).

Abbreviation scenario_zenrows_phase1 :=
  (phase1_data_collection nat "zenrows-key"
     Scenario.zenrows_always Scenario.direct_mostly no_phases 0).

Abbreviation scenario_phase3 load add docs :=
  (phase3_build_knowledge_base nat unit unit unit
     load Scenario.open_collection Scenario.json_dumps
     Scenario.encode add Scenario.repr docs no_phases 0).

Abbreviation scenario_session :=
  (session_loop nat
     (rag_query nat true (Scenario.generate_quota 0) unit unit unit
        Scenario.encode Scenario.collection_query (Some tt) (Some tt))).

(** X1 on a run whose key is made of spaces only. *)
Lemma missing_key_skips_zenrows_witness :
  zenrows_requests (snd scenario_unkeyed_phase1) = []
  /\ direct_requests (snd scenario_unkeyed_phase1) = ARTICLE_URLS.
Proof.
  destruct (missing_key_skips_zenrows nat "   "
              Scenario.zenrows_always Scenario.direct_mostly no_phases 0
              (fst (fst (fst scenario_unkeyed_phase1)))
              (snd (fst (fst scenario_unkeyed_phase1)))
              (snd (fst scenario_unkeyed_phase1))
              (snd scenario_unkeyed_phase1)) as (Z & D & _).
  - right. vm_compute. reflexivity.
  - vm_compute. reflexivity.
  - split; assumption.
Defined.

(** X2 on a run where ZenRows answers every request. *)
Lemma zenrows_pass_complete_witness :
  map url (fst (fst (fst scenario_zenrows_phase1))) = ARTICLE_URLS
  /\ length (fst (fst (fst scenario_zenrows_phase1))) = 15
  /\ zenrows_requests (snd scenario_zenrows_phase1) = ARTICLE_URLS
  /\ direct_requests (snd scenario_zenrows_phase1) = [].
Proof.
  destruct (zenrows_pass_complete nat "zenrows-key"
              Scenario.zenrows_always Scenario.direct_mostly no_phases 0
              (fst (fst (fetch_until_error nat Scenario.zenrows_always
                           ARTICLE_URLS 0)))
              15
              (fst (fst (fst scenario_zenrows_phase1)))
              (snd (fst (fst scenario_zenrows_phase1)))
              (snd (fst scenario_zenrows_phase1))
              (snd scenario_zenrows_phase1)) as (U & L & Z & D & _).
  - vm_compute. reflexivity.
  - vm_compute. reflexivity.
  - vm_compute. reflexivity.
  - repeat split; assumption.
Defined.

(** X3 on the run where ZenRows refuses the second source. *)
Lemma zenrows_stops_at_first_error_witness :
  zenrows_requests (snd scenario_phase1) = firstn 2 ARTICLE_URLS
  /\ exists d : phase1_data,
      phase1 (snd (fst (fst scenario_phase1))) = Some d
      /\ p1_error d = Some "429 Client Error: Too Many Requests".
Proof.
  destruct (zenrows_stops_at_first_error nat "zenrows-key"
              Scenario.zenrows_once Scenario.direct_mostly no_phases 0
              [("https://thehackernews.com/2025/12/chinese-hackers-have-started-exploiting.html",
                Scenario.sample_page)]
              "https://thehackernews.com/2025/12/react2shell-exploitation-escalates-into.html"
              (Exception "429 Client Error: Too Many Requests") 2
              (fst (fst (fst scenario_phase1)))
              (snd (fst (fst scenario_phase1)))
              (snd (fst scenario_phase1))
              (snd scenario_phase1)) as (Z & _ & _ & D).
  - vm_compute. reflexivity.
  - vm_compute. reflexivity.
  - vm_compute. reflexivity.
  - split; [exact Z | exact D].
Defined.

(** X4 on the same run: fourteen documents and one failure. *)
Lemma sources_split_between_documents_and_failures_witness :
  exists (mask : list bool) (d : phase1_data),
    phase1 (snd (fst (fst scenario_phase1))) = Some d
    /\ length mask = 15
    /\ map url (fst (fst (fst scenario_phase1))) = select mask ARTICLE_URLS
    /\ map failed (failed_urls d) = select (map negb mask) ARTICLE_URLS.
Proof.
  destruct (sources_split_between_documents_and_failures nat "zenrows-key"
              Scenario.zenrows_once Scenario.direct_mostly
              (Scenario.generate_quota 100) Scenario.loads_empty_object
              Scenario.write_json no_phases 0
              (fst (fst (fst scenario_phase1)))
              (snd (fst (fst scenario_phase1)))
              (snd (fst scenario_phase1))
              (snd scenario_phase1)) as (mask & d & P & L & U & F & _).
  - vm_compute. reflexivity.
  - exists mask, d. repeat split; assumption.
Defined.

(** X6 on the run where the second answer of the model is nested too
    deep for [json.loads]: the model was asked twice, for the first two
    reports, and no call of it raised. *)
Lemma generation_calls_of_extraction_witness :
  generate_requests (snd (scenario_nested_phase2 Scenario.three_reports 0)) =
    map (fun rep => EXTRACTION_PROMPT +++ content rep)
        (firstn 2 Scenario.three_reports)
  /\ snd (fst (scenario_nested_phase2 Scenario.three_reports 0)) = 2.
Proof.
  destruct (proj1 (proj2 (generation_calls_of_extraction nat true
              Scenario.generate_nested Scenario.loads_depth_limited
              Scenario.three_reports no_phases 0
              (fst (fst (fst (scenario_nested_phase2 Scenario.three_reports 0))))
              (snd (fst (fst (scenario_nested_phase2 Scenario.three_reports 0))))
              (snd (fst (scenario_nested_phase2 Scenario.three_reports 0)))
              (snd (scenario_nested_phase2 Scenario.three_reports 0)) eq_refl))
              (fst (fst (extract_until_error nat Scenario.generate_nested
                           Scenario.loads_depth_limited
                           Scenario.three_reports 0)))
              (Some (Exception "maximum recursion depth exceeded while decoding a JSON array from a unicode string")) 2)
    as (G & _ & W).
  - reflexivity.
  - discriminate.
  - vm_compute. reflexivity.
  - split; [exact G | exact W].
Defined.

(** X7 on the same run. *)
Lemma extraction_log_invariants_witness :
  fst (fst (fst (scenario_phase2 2 Scenario.three_reports))) <> []
  /\ exists (d : phase2_data) (earlier : list document),
      phase2 (snd (fst (fst (scenario_phase2 2 Scenario.three_reports)))) = Some d
      /\ document_count d = 15
      /\ length earlier = 2.
Proof.
  destruct (extraction_log_invariants nat true
              (Scenario.generate_quota 2) Scenario.loads_empty_object
              Scenario.three_reports no_phases 0
              (fst (fst (fst (scenario_phase2 2 Scenario.three_reports))))
              (snd (fst (fst (scenario_phase2 2 Scenario.three_reports))))
              (snd (fst (scenario_phase2 2 Scenario.three_reports)))
              (snd (scenario_phase2 2 Scenario.three_reports)))
    as (N & d & earlier & P & C & D & _).
  - vm_compute. reflexivity.
  - split; [exact N|]. exists d, earlier. split; [exact P|].
    split; [rewrite C; vm_compute; reflexivity|].
    assert (L : length (documents d) = 17).
    { vm_compute in P. injection P as <-. reflexivity. }
    rewrite D, length_app in L.
    assert (L15 : length (fst (fst (fst (scenario_phase2 2 Scenario.three_reports)))) = 15).
    { vm_compute. reflexivity. }
    rewrite L15 in L. lia.
Defined.

(** X8 on a run where the embedding model cannot be loaded. *)
Lemma indexer_handles_witness :
  fst (fst (fst (fst (scenario_phase3 Scenario.load_model_fails
                        Scenario.collection_add
                        (mock_documents 1 MOCK_THREAT_INTEL_LIST))))) = None
  /\ add_requests (snd (scenario_phase3 Scenario.load_model_fails
                          Scenario.collection_add
                          (mock_documents 1 MOCK_THREAT_INTEL_LIST))) = [].
Proof.
  destruct (proj1 (indexer_handles nat unit unit unit
              Scenario.load_model_fails Scenario.open_collection
              Scenario.json_dumps Scenario.encode Scenario.collection_add
              Scenario.repr (mock_documents 1 MOCK_THREAT_INTEL_LIST)
              no_phases 0 None None
              (snd (fst (fst (scenario_phase3 Scenario.load_model_fails
                                Scenario.collection_add
                                (mock_documents 1 MOCK_THREAT_INTEL_LIST)))))
              (snd (fst (scenario_phase3 Scenario.load_model_fails
                           Scenario.collection_add
                           (mock_documents 1 MOCK_THREAT_INTEL_LIST))))
              (snd (scenario_phase3 Scenario.load_model_fails
                      Scenario.collection_add
                      (mock_documents 1 MOCK_THREAT_INTEL_LIST)))
              eq_refl)
              (Exception "OSError: model not found") 1 eq_refl)
    as (_ & _ & _ & A & _).
  split; [reflexivity | exact A].
Defined.

(** X9 on a run where the third document cannot be serialised: two
    documents are encoded and inserted, the third is neither. *)
Lemma insertions_by_position_witness :
  length (encode_requests
            (snd (phase3_build_knowledge_base nat unit unit unit
                    Scenario.load_model Scenario.open_collection
                    (Scenario.json_dumps_but "Mock Threat Report 3 (Recent 2025)")
                    Scenario.encode Scenario.collection_add Scenario.repr
                    (mock_documents 1 MOCK_THREAT_INTEL_LIST) no_phases 0))) = 2
  /\ length (add_requests
               (snd (phase3_build_knowledge_base nat unit unit unit
                       Scenario.load_model Scenario.open_collection
                       (Scenario.json_dumps_but "Mock Threat Report 3 (Recent 2025)")
                       Scenario.encode Scenario.collection_add Scenario.repr
                       (mock_documents 1 MOCK_THREAT_INTEL_LIST) no_phases 0))) = 2
  /\ exists d : phase3_data,
      phase3 (snd (fst (fst
        (phase3_build_knowledge_base nat unit unit unit
           Scenario.load_model Scenario.open_collection
           (Scenario.json_dumps_but "Mock Threat Report 3 (Recent 2025)")
           Scenario.encode Scenario.collection_add Scenario.repr
           (mock_documents 1 MOCK_THREAT_INTEL_LIST) no_phases 0))))
      = Some d
      /\ entries d = []
      /\ p3_error d = Some "maximum recursion depth exceeded while encoding a JSON object"
      /\ total_entries d = 15.
Proof.
  destruct (insertions_by_position nat "zenrows-key"
              Scenario.zenrows_once Scenario.direct_mostly
              (Scenario.generate_quota 100) Scenario.loads_empty_object
              unit unit unit
              Scenario.load_model Scenario.open_collection
              (Scenario.json_dumps_but "Mock Threat Report 3 (Recent 2025)")
              Scenario.encode Scenario.collection_add
              Scenario.repr Scenario.write_json
              (mock_documents 1 MOCK_THREAT_INTEL_LIST) no_phases 0
              tt 1 tt 2 2
              (Some (Exception "maximum recursion depth exceeded while encoding a JSON object"))
              6
              (fst (fst (fst
                 (phase3_build_knowledge_base nat unit unit unit
                    Scenario.load_model Scenario.open_collection
                    (Scenario.json_dumps_but "Mock Threat Report 3 (Recent 2025)")
                    Scenario.encode Scenario.collection_add Scenario.repr
                    (mock_documents 1 MOCK_THREAT_INTEL_LIST) no_phases 0))))
              (snd (fst (fst
                 (phase3_build_knowledge_base nat unit unit unit
                    Scenario.load_model Scenario.open_collection
                    (Scenario.json_dumps_but "Mock Threat Report 3 (Recent 2025)")
                    Scenario.encode Scenario.collection_add Scenario.repr
                    (mock_documents 1 MOCK_THREAT_INTEL_LIST) no_phases 0))))
              (snd (fst
                 (phase3_build_knowledge_base nat unit unit unit
                    Scenario.load_model Scenario.open_collection
                    (Scenario.json_dumps_but "Mock Threat Report 3 (Recent 2025)")
                    Scenario.encode Scenario.collection_add Scenario.repr
                    (mock_documents 1 MOCK_THREAT_INTEL_LIST) no_phases 0)))
              (snd
                 (phase3_build_knowledge_base nat unit unit unit
                    Scenario.load_model Scenario.open_collection
                    (Scenario.json_dumps_but "Mock Threat Report 3 (Recent 2025)")
                    Scenario.encode Scenario.collection_add Scenario.repr
                    (mock_documents 1 MOCK_THREAT_INTEL_LIST) no_phases 0)))
    as (_ & _ & _ & _ & E & D).
  - reflexivity.
  - reflexivity.
  - vm_compute. reflexivity.
  - vm_compute. reflexivity.
  - destruct (D (mock_document (3, mock_entry "STAC6565" ["Gold Blade"]
                                     ["Ransomware Deployment"] ["Canada"] "Dec 2025"))
                (Exception "maximum recursion depth exceeded while encoding a JSON object"))
      as (_ & LE & LA & _).
    + vm_compute. reflexivity.
    + vm_compute. reflexivity.
    + split; [exact LE|]. split; [exact LA|].
      destruct (E _ eq_refl) as (d & P & N & R & T).
      exists d. split; [exact P|]. split; [exact N|]. split; [exact R|].
      rewrite T. vm_compute. reflexivity.
Defined.

(** X10 on a run that indexes and displays the fifteen fabricated
    documents. *)
Lemma summary_entries_witness :
  exists (d : phase3_data) (n : nat),
    phase3 (snd (fst (fst (scenario_phase3 Scenario.load_model
                             Scenario.collection_add
                             (mock_documents 1 MOCK_THREAT_INTEL_LIST)))))
    = Some d
    /\ total_entries d = 15
    /\ n <= 15
    /\ map entry_index (entries d) = seq 1 n.
Proof.
  destruct (summary_entries nat "zenrows-key"
              Scenario.zenrows_once Scenario.direct_mostly
              (Scenario.generate_quota 100) Scenario.loads_empty_object
              unit unit unit
              Scenario.load_model Scenario.open_collection
              Scenario.json_dumps Scenario.encode Scenario.collection_add
              Scenario.repr Scenario.write_json
              (mock_documents 1 MOCK_THREAT_INTEL_LIST) no_phases 0
              (fst (fst (fst (scenario_phase3 Scenario.load_model
                                Scenario.collection_add
                                (mock_documents 1 MOCK_THREAT_INTEL_LIST)))))
              (snd (fst (fst (scenario_phase3 Scenario.load_model
                                Scenario.collection_add
                                (mock_documents 1 MOCK_THREAT_INTEL_LIST)))))
              (snd (fst (scenario_phase3 Scenario.load_model
                           Scenario.collection_add
                           (mock_documents 1 MOCK_THREAT_INTEL_LIST))))
              (snd (scenario_phase3 Scenario.load_model
                      Scenario.collection_add
                      (mock_documents 1 MOCK_THREAT_INTEL_LIST))))
    as (d & n & P & T & L & _ & I & _).
  - vm_compute. reflexivity.
  - exists d, n. split; [exact P|].
    split; [rewrite T; vm_compute; reflexivity|].
    split; [|exact I].
    replace 15 with (length (mock_documents 1 MOCK_THREAT_INTEL_LIST));
      [exact L | vm_compute; reflexivity].
Defined.

(** X11 on the document made from a response that is not JSON, and on a
    run that indexes and displays the fifteen fabricated documents. *)
Lemma fabricated_documents_are_displayable_witness :
  (exists ti : json,
      extracted_json Scenario.loads_empty_object " The actor is APT31. " = Ok ti
      /\ displayable
           (document_of
              {| ex_report := {| url := "https://thehackernews.com/a.html";
                                 title := "A"; content := "Text of A." |};
                 ex_text := " The actor is APT31. ";
                 ex_json := ti |}) = true)
  /\ exists d : phase3_data,
      phase3 (snd (fst (fst (scenario_phase3 Scenario.load_model
                               Scenario.collection_add
                               (mock_documents 1 MOCK_THREAT_INTEL_LIST)))))
      = Some d
      /\ p3_error d = None
      /\ length (entries d) = 15.
Proof.
  split.
  - destruct (proj1 (proj2
              (fabricated_documents_are_displayable nat "zenrows-key"
                 Scenario.zenrows_once Scenario.direct_mostly
                 (Scenario.generate_quota 100) Scenario.loads_empty_object
                 unit unit unit
                 Scenario.load_model Scenario.open_collection
                 Scenario.json_dumps Scenario.encode Scenario.collection_add
                 Scenario.repr Scenario.write_json))
              {| url := "https://thehackernews.com/a.html";
                 title := "A"; content := "Text of A." |}
              " The actor is APT31. " 1) as (ti & X & D & _).
    + vm_compute. reflexivity.
    + exists ti. split; [exact X | exact D].
  - destruct (proj2 (proj2
              (fabricated_documents_are_displayable nat "zenrows-key"
                 Scenario.zenrows_once Scenario.direct_mostly
                 (Scenario.generate_quota 100) Scenario.loads_empty_object
                 unit unit unit
                 Scenario.load_model Scenario.open_collection
                 Scenario.json_dumps Scenario.encode Scenario.collection_add
                 Scenario.repr Scenario.write_json))
              (mock_documents 1 MOCK_THREAT_INTEL_LIST) no_phases 0
              tt 1 tt 2 15 32
              (fst (fst (fst (scenario_phase3 Scenario.load_model
                                Scenario.collection_add
                                (mock_documents 1 MOCK_THREAT_INTEL_LIST)))))
              (snd (fst (fst (scenario_phase3 Scenario.load_model
                                Scenario.collection_add
                                (mock_documents 1 MOCK_THREAT_INTEL_LIST)))))
              (snd (fst (scenario_phase3 Scenario.load_model
                           Scenario.collection_add
                           (mock_documents 1 MOCK_THREAT_INTEL_LIST))))
              (snd (scenario_phase3 Scenario.load_model
                      Scenario.collection_add
                      (mock_documents 1 MOCK_THREAT_INTEL_LIST))))
      as (_ & d & P & Y & _).
    + reflexivity.
    + reflexivity.
    + vm_compute. reflexivity.
    + vm_compute. reflexivity.
    + destruct Y as (N & _ & L); [vm_compute; reflexivity|].
      exists d. split; [exact P|]. split; [exact N|].
      rewrite L. vm_compute. reflexivity.
Defined.

(** X12 on an unknown question asked with a knowledge base, the model
    refusing: the question is embedded, the collection queried, and the
    model asked with the one result the collection gave. *)
Lemma retriever_external_calls_witness :
  service_calls (snd (scenario_rag_query (Some tt) (Some tt)
                        "Who is behind Storm-0249?" 0))
  = [Encode "Who is behind Storm-0249?"; CollectionQuery 3;
     Generate (rag_prompt (join (nl +++ nl) ["Mock Threat Report 6 (Recent 2025)"])
                 "Who is behind Storm-0249?")]
  /\ snd (fst (scenario_rag_query (Some tt) (Some tt)
                 "Who is behind Storm-0249?" 0)) = 3.
Proof.
  assert (H : scenario_rag_query (Some tt) (Some tt)
                 "Who is behind Storm-0249?" 0
               = (Ok "Insufficient data.",
                  snd (fst (scenario_rag_query (Some tt) (Some tt)
                              "Who is behind Storm-0249?" 0)),
                  snd (scenario_rag_query (Some tt) (Some tt)
                         "Who is behind Storm-0249?" 0))).
  { vm_compute. reflexivity. }
  destruct (proj1 (proj2 (retriever_external_calls nat true
              (Scenario.generate_quota 0)
              unit unit unit Scenario.encode Scenario.collection_query
              (Some tt) (Some tt) "Who is behind Storm-0249?" 0
              "Insufficient data."
              (snd (fst (scenario_rag_query (Some tt) (Some tt)
                           "Who is behind Storm-0249?" 0)))
              (snd (scenario_rag_query (Some tt) (Some tt)
                      "Who is behind Storm-0249?" 0)) H))
              tt tt eq_refl eq_refl) as (_ & _ & R).
  destruct (R tt 1 ["Mock Threat Report 6 (Recent 2025)"] 2 eq_refl eq_refl)
    as (_ & Y).
  destruct (Y eq_refl) as (W & S & _).
  split; [exact S | exact W].
Defined.

(** X13 on a known question asked without a knowledge base. *)
Lemma retriever_answers_are_trimmed_witness :
  strip "Active ransomware in 2025: STAC6565 (QWCrypt), VolkLocker, Charon, Storm-0249, LockBit variants."
  = "Active ransomware in 2025: STAC6565 (QWCrypt), VolkLocker, Charon, Storm-0249, LockBit variants.".
Proof.
  refine (retriever_answers_are_trimmed nat true (Scenario.generate_quota 0)
            unit unit unit Scenario.encode Scenario.collection_query
            None None "What are the most active ransomware groups in 2025?" 0
            _ 0
            (snd (scenario_rag_query None None
                    "What are the most active ransomware groups in 2025?" 0))
            _).
  vm_compute. reflexivity.
Defined.

(** X14 on a session of one known question, the keyword, and a line left
    unread. *)
Lemma session_log_on_keyword_witness :
  exists (pre : list string) (line : string),
    ["  Recent Activities of APT31?  "; "EXIT"; "never read"]
    = pre ++ line :: ["never read"]
    /\ is_keyword line = true
    /\ queries (fst (fst (fst (snd
         (session_loop nat Scenario.failing_retriever
            ["  Recent Activities of APT31?  "; "EXIT"; "never read"]
            phase5_initial 0)))))
       = queries phase5_initial ++ map strip pre.
Proof.
  destruct (session_log_on_keyword nat Scenario.failing_retriever
              ["  Recent Activities of APT31?  "; "EXIT"; "never read"]
              phase5_initial 0
              (fst (fst (fst (snd
                 (session_loop nat Scenario.failing_retriever
                    ["  Recent Activities of APT31?  "; "EXIT"; "never read"]
                    phase5_initial 0)))))
              0
              (snd (fst (snd
                 (session_loop nat Scenario.failing_retriever
                    ["  Recent Activities of APT31?  "; "EXIT"; "never read"]
                    phase5_initial 0))))
              ["never read"])
    as (pre & line & E & K & _ & Q & _).
  - vm_compute. reflexivity.
  - exists pre, line. split; [exact E|]. split; [exact K | exact Q].
Defined.

(** X15 on a session of an unknown question, a known one, and the
    keyword. *)
Lemma retriever_gets_the_unknown_questions_witness :
  exists n : nat,
    asked (snd (fst (snd
      (scenario_session
         ["Who is behind Storm-0249?"; "Recent activities of APT31?"; "quit"]
         phase5_initial 0))))
    = filter (fun q => negb (dict_mem PREDEFINED_QUESTIONS (lower q)))
        (map strip
           (firstn n
              ["Who is behind Storm-0249?"; "Recent activities of APT31?";
               "quit"]))
    /\ [] = skipn (S n)
              ["Who is behind Storm-0249?"; "Recent activities of APT31?";
               "quit"].
Proof.
  destruct (retriever_gets_the_unknown_questions nat true
              (Scenario.generate_quota 0) unit unit unit
              Scenario.encode Scenario.collection_query (Some tt) (Some tt)
              ["Who is behind Storm-0249?"; "Recent activities of APT31?"; "quit"]
              phase5_initial 0 (Ok tt)
              (fst (fst (fst (snd
                 (scenario_session
                    ["Who is behind Storm-0249?"; "Recent activities of APT31?";
                     "quit"] phase5_initial 0)))))
              (snd (fst (fst (snd
                 (scenario_session
                    ["Who is behind Storm-0249?"; "Recent activities of APT31?";
                     "quit"] phase5_initial 0)))))
              (snd (fst (snd
                 (scenario_session
                    ["Who is behind Storm-0249?"; "Recent activities of APT31?";
                     "quit"] phase5_initial 0))))
              [])
    as (n & _ & A & _ & U & _).
  - vm_compute. reflexivity.
  - exists n. split; [exact A | exact U].
Defined.

(** X16 on a line of spaces, with a retriever that raises when called. *)
Lemma blank_line_is_asked_witness :
  session_loop nat Scenario.failing_retriever ["   "; "exit"] phase5_initial 0
  = (Raise (Exception "retriever called"),
     (add_query EmptyString phase5_initial, 0,
      [Prompt PROMPT; AskRetriever EmptyString], ["exit"])).
Proof.
  refine (eq_trans (blank_line_is_asked nat Scenario.failing_retriever
                      "   " ["exit"] phase5_initial 0 _) _).
  - reflexivity.
  - reflexivity.
Defined.


(** X18 on a directory holding the logs of runs 2 and 10. *)
Lemma log_name_is_fresh_witness :
  ~ In (log_filename 11) ["notes.txt"; "CyberX #2.json"; "CyberX #10.json"].
Proof.
  refine (proj1 (log_name_is_fresh nat "zenrows-key"
            Scenario.zenrows_once Scenario.direct_mostly
            (Scenario.generate_quota 100) Scenario.loads_empty_object
            Scenario.write_json
            ["notes.txt"; "CyberX #2.json"; "CyberX #10.json"] 11%Z _)).
  vm_compute. reflexivity.
Defined.

(** X19 on a run in an empty directory, ended at once by the keyword. *)
Lemma saved_log_is_consistent_witness :
  exists log : run_log,
    In (WriteFile (log_filename 1) log) (snd (scenario_main [] ["exit"] 0))
    /\ run_number log = 1%Z
    /\ consistent true (log_phases log).
Proof.
  refine (saved_log_is_consistent nat "zenrows-key" true
            Scenario.zenrows_once Scenario.direct_mostly
            (Scenario.generate_quota 100) Scenario.loads_empty_object
            unit unit unit
            Scenario.load_model Scenario.open_collection Scenario.json_dumps
            Scenario.encode Scenario.collection_add Scenario.collection_query
            Scenario.repr Scenario.write_json
            [] ["exit"] 0 1%Z
            (fst (fst (scenario_main [] ["exit"] 0)))
            (snd (fst (scenario_main [] ["exit"] 0)))
            (snd (scenario_main [] ["exit"] 0)) _ _).
  - reflexivity.
  - vm_compute. reflexivity.
Defined.
